(** * my-stock-pwa: the valuation engine of [App.tsx]

    A shallow embedding of the computational core of the stock valuation
    page: the FinMind response processing of [fetchRealStockData], the
    fallback generator [getMockData], the derived values of the [App]
    component ([calculateMA], [maData], [valuationStatus],
    [cursorPosition]), its [handleSearch], and what the components
    [MACard], [ValuationBadge], [AnalystInsight] and [App] choose to
    display.

    Numbers.  A JavaScript number is an IEEE-754 double.  The spec speaks of
    reals, and so does this development: a finite number is an exact
    rational, and the three non-finite values a division can produce
    ([Infinity], [-Infinity], [NaN]) are kept, with the arithmetic, the
    comparisons, the truthiness test and [Math.min]/[Math.max] that
    JavaScript gives them.  Every operation returns its rational in lowest
    terms, so that two computations of the same value are equal terms.

    Rounding.  The rounding to 53 bits and the sign of zero are not part of
    these numbers, and [toFixed] rounds the exact decimal, which at a tie
    such as 1.005 is not the digit the code prints.  The theorems over
    them are therefore stated on the expressions of the code as it writes
    them, or at a margin from every tie, where a rounding cannot turn the
    outcome.  Where a claim does turn on a rounding, the module [F64]
    evaluates the same expressions of the source in binary64.

    Effects.  A rejected promise is the [Throw] of a [result]; the parsed
    FinMind responses are an argument of [fetchRealStockData]; what
    [getMockData] reads from [Math.sin], [Math.random] and [Date.now] is an
    argument [Env]; the React state is a record that [handleSearch]
    transforms.  A component is the record of the texts, class names and
    numbers it computes; timers, markup and styling are left out. *)

From Stdlib Require Import QArith Qabs Qround Qreduction Lqa ZArith Lia.
From Stdlib Require Import List String Ascii Bool.
From Stdlib Require Import Sorting.Sorted Sorting.Permutation.
From Stdlib Require Import Floats.
Import ListNotations.

Set Implicit Arguments.

(** A decimal literal of a double denotes the nearest double, as it does
    in JavaScript. *)
#[local] Set Warnings "-inexact-float".

(** ** JavaScript numbers *)

Module JS.

Inductive number : Type :=
| Fin (q : Q)
| PInf
| NInf
| NaN.

Definition of_Z (z : Z) : number := Fin (inject_Z z).
Definition of_nat (n : nat) : number := of_Z (Z.of_nat n).

Definition zero : number := of_Z 0.

(** The sign of a rational: [Lt] negative, [Eq] zero, [Gt] positive. *)
Definition Qsign (q : Q) : comparison := (q ?= 0)%Q.

Definition neg (a : number) : number :=
  match a with
  | Fin q => Fin (Qred (- q))
  | PInf => NInf
  | NInf => PInf
  | NaN => NaN
  end.

Definition add (a b : number) : number :=
  match a, b with
  | NaN, _ | _, NaN => NaN
  | Fin x, Fin y => Fin (Qred (x + y))
  | PInf, NInf | NInf, PInf => NaN
  | PInf, _ | _, PInf => PInf
  | NInf, _ | _, NInf => NInf
  end.

Definition sub (a b : number) : number := add a (neg b).

(** An infinity of sign [pos], scaled by a factor of sign [s]. *)
Definition scaled_inf (pos : bool) (s : comparison) : number :=
  match s with
  | Eq => NaN
  | Gt => if pos then PInf else NInf
  | Lt => if pos then NInf else PInf
  end.

Definition mul (a b : number) : number :=
  match a, b with
  | NaN, _ | _, NaN => NaN
  | Fin x, Fin y => Fin (Qred (x * y))
  | Fin x, PInf | PInf, Fin x => scaled_inf true (Qsign x)
  | Fin x, NInf | NInf, Fin x => scaled_inf false (Qsign x)
  | PInf, PInf | NInf, NInf => PInf
  | PInf, NInf | NInf, PInf => NInf
  end.

(** Division: a finite number over zero is an infinity of the dividend's
    sign, zero over zero is [NaN], a finite number over an infinity is zero. *)
Definition div (a b : number) : number :=
  match a, b with
  | NaN, _ | _, NaN => NaN
  | Fin x, Fin y =>
      match Qsign y with
      | Eq => scaled_inf true (Qsign x)
      | _ => Fin (Qred (x / y))
      end
  | Fin _, (PInf | NInf) => zero
  | PInf, Fin y => match Qsign y with Lt => NInf | _ => PInf end
  | NInf, Fin y => match Qsign y with Lt => PInf | _ => NInf end
  | (PInf | NInf), (PInf | NInf) => NaN
  end.

(** Comparison; [None] when an operand is [NaN] (every relational operator
    is then false). *)
Definition compare (a b : number) : option comparison :=
  match a, b with
  | NaN, _ | _, NaN => None
  | Fin x, Fin y => Some (x ?= y)%Q
  | PInf, PInf | NInf, NInf => Some Eq
  | PInf, _ | _, NInf => Some Gt
  | NInf, _ | _, PInf => Some Lt
  end.

Definition lt (a b : number) : bool :=
  match compare a b with Some Lt => true | _ => false end.
Definition le (a b : number) : bool :=
  match compare a b with Some (Lt | Eq) => true | _ => false end.
Definition gt (a b : number) : bool := lt b a.
Definition ge (a b : number) : bool := le b a.

(** [a === b] on numbers. *)
Definition strict_eq (a b : number) : bool :=
  match compare a b with Some Eq => true | _ => false end.

(** Truthiness: zero and [NaN] are falsy, every other number is truthy. *)
Definition truthy (a : number) : bool :=
  match a with
  | Fin q => match Qsign q with Eq => false | _ => true end
  | PInf | NInf => true
  | NaN => false
  end.

(** [a || b] on numbers. *)
Definition or_else (a b : number) : number := if truthy a then a else b.

Definition Math_max (a b : number) : number :=
  match compare a b with
  | None => NaN
  | Some Lt => b
  | Some _ => a
  end.

Definition Math_min (a b : number) : number :=
  match compare a b with
  | None => NaN
  | Some Gt => b
  | Some _ => a
  end.

Definition Math_floor (a : number) : number :=
  match a with
  | Fin q => of_Z (Qfloor q)
  | _ => a
  end.

(** [parseFloat(a.toFixed(2))]: the nearest multiple of 1/100, a tie going
    away from zero ([toFixed] rounds the absolute value and picks the larger
    candidate); from 10^21 on [toFixed] prints the number itself.  The
    rounding is that of the exact decimal: the code rounds the double
    nearest to it, and where the decimal is a tie that no double holds
    exactly it may print the lower digit (1.005 prints 1.00). *)
Definition round2 (q : Q) : Q :=
  if Qle_bool (inject_Z (10 ^ 21)) (Qabs q) then Qred q
  else
    let n := Qfloor (Qabs q * 100 + (1 # 2)) in
    Qred (inject_Z (match Qsign q with Lt => - n | _ => n end) / 100).

Definition toFixed2 (a : number) : number :=
  match a with
  | Fin q => Fin (round2 q)
  | _ => a
  end.

(** [arr[i]] for a number [i]: the element when [i] is an integer within the
    array, and [undefined] otherwise.  In a numeric position [undefined]
    behaves as [NaN], which stands for it here. *)
Definition array_get (arr : list number) (i : number) : number :=
  match i with
  | Fin q =>
      let r := Qred q in
      if ((0 <=? Qnum r)%Z && (Qden r =? 1)%positive)%bool
      then nth (Z.to_nat (Qnum r)) arr NaN
      else NaN
  | _ => NaN
  end.

(** [a % b] on integers ([Z.rem] truncates as JavaScript does). *)
Definition rem (a b : Z) : Z := Z.rem a b.

(** [arr.sort(cmp)].  The comparator's result orders two elements: positive
    puts the first after the second, anything else ([NaN] counts as zero)
    leaves it before.  Whatever algorithm the engine runs, with a consistent
    comparator the outcome is the stable ascending arrangement, which this
    insertion sort computes. *)
Fixpoint insert (A : Type) (cmp : A -> A -> number) (x : A) (l : list A) : list A :=
  match l with
  | [] => [x]
  | y :: t => if gt (cmp x y) zero then y :: insert cmp x t else x :: l
  end.

Definition sort (A : Type) (cmp : A -> A -> number) (l : list A) : list A :=
  fold_right (insert cmp) [] l.

End JS.

Declare Scope js_scope.
Delimit Scope js_scope with js.
Bind Scope js_scope with JS.number.
Infix "+" := JS.add : js_scope.
Infix "-" := JS.sub : js_scope.
Infix "*" := JS.mul : js_scope.
Infix "/" := JS.div : js_scope.
Infix "<?" := JS.lt : js_scope.
Infix "<=?" := JS.le : js_scope.
Infix ">?" := JS.gt : js_scope.
Infix ">=?" := JS.ge : js_scope.
Infix "===" := JS.strict_eq (at level 70, no associativity) : js_scope.
Infix "|||" := JS.or_else (at level 50, left associativity) : js_scope.

Abbreviation number := JS.number.

(** A decimal literal, such as [dec 4 10] for [0.4]. *)
Definition dec (n : Z) (d : positive) : number := JS.Fin (n # d).
(** An integer literal. *)
Definition int (z : Z) : number := JS.of_Z z.

Local Open Scope string_scope.
Local Open Scope js_scope.

(** ** The interfaces of [App.tsx] *)

Record HistoryItem : Type := {
  date : string;
  close : number;
  pe : number
}.

Record Valuation : Type := {
  minPE : number;
  maxPE : number;
  cheapPrice : number;
  fairPrice : number;
  expensivePrice : number;
  eps : number
}.

(** [change] is the string [x.toFixed(2)] in the source; the number that
    string prints is kept. *)
Record StockData : Type := {
  source : string;
  isReal : bool;
  symbol : string;
  name : string;
  currentPrice : number;
  change : number;
  currentPE : option number;
  historyData : list HistoryItem;
  valuation : Valuation
}.

Record MaData : Type := {
  ma5 : number;
  ma10 : number;
  ma20 : number;
  ma60 : number;
  ma120 : number;
  ma240 : number
}.

(** The four labels [valuationStatus] returns: '便宜價', '合理價', '昂貴價'
    and '無資料'. *)
Inductive Status : Type := Cheap | Fair | Expensive | NoData.

(** ** The FinMind responses

    The rows of the three datasets, with the fields the code reads, and the
    [data] member of each parsed response ([None]: the member is missing). *)

Record PriceRow : Type := { price_date : string; price_close : number }.
Record PERRow : Type := { per_date : string; p_e_ratio : number }.
Record InfoRow : Type := { stock_name : string }.

Record ApiResponse : Type := {
  priceJson_data : option (list PriceRow);
  perJson_data : option (list PERRow);
  infoJson_data : option (list InfoRow)
}.

(** A settled promise: fulfilled with a value, or rejected with an error. *)
Inductive result (A : Type) : Type :=
| Ok (a : A)
| Throw (message : string).
Arguments Ok {A} a.
Arguments Throw {A} message.

(** ** [fetchRealStockData] *)

(** [rawPERs.find(p => p.date === d.date)?.p_e_ratio || 0] *)
Definition joined_pe (rawPERs : list PERRow) (d : string) : number :=
  match find (fun p => String.eqb (per_date p) d) rawPERs with
  | Some p => p_e_ratio p ||| int 0
  | None => int 0
  end.

(** [rawPrices.map(d => ({date, close, pe}))] *)
Definition join_history (rawPrices : list PriceRow) (rawPERs : list PERRow)
  : list HistoryItem :=
  map (fun d => {| date := price_date d;
                   close := price_close d;
                   pe := joined_pe rawPERs (price_date d) |}) rawPrices.

(** The filter of line 83: [pe => pe > 0 && pe < 200]. *)
Definition plausible (pe : number) : bool := (pe >? int 0) && (pe <? int 200).

(** The comparator [(a, b) => a - b]. *)
Definition ascending (a b : number) : number := a - b.

(** [rawPERs.map(d => d.p_e_ratio).filter(pe => pe > 0 && pe < 200)
            .sort((a, b) => a - b)] *)
Definition validPEs_of (rawPERs : list PERRow) : list number :=
  JS.sort ascending (filter plausible (map p_e_ratio rawPERs)).

(** [Math.floor(arr.length * f)].  The source's factors are the doubles
    nearest to 0.1 and 0.9, which lie above them by less than 1e-16; for the
    length of an array the floor is the one the exact decimals give. *)
Definition rank (A : Type) (arr : list A) (f : number) : number :=
  JS.Math_floor (JS.of_nat (List.length arr) * f).

(** [currentPERData || validPEs[0]], where [currentPERData] may be [null]. *)
Definition validCurrentPE (currentPERData : option number)
  (validPEs : list number) : number :=
  match currentPERData with
  | Some latest => latest ||| JS.array_get validPEs (int 0)
  | None => JS.array_get validPEs (int 0)
  end.

(** Lines 81 to 101: the band and the EPS estimate. *)
Definition deriveBand (currentPrice : number) (currentPERData : option number)
  (rawPERs : list PERRow) : Valuation :=
  let validPEs := validPEs_of rawPERs in
  let '(minPE, maxPE, eps) :=
    if (10 <? List.length validPEs)%nat then
      (JS.array_get validPEs (rank validPEs (dec 1 10)),
       JS.array_get validPEs (rank validPEs (dec 9 10)),
       currentPrice / validCurrentPE currentPERData validPEs)
    else
      (int 10, int 20, currentPrice / int 15) in
  let cheapPrice := eps * minPE in
  let expensivePrice := eps * maxPE in
  let fairPrice := (cheapPrice + expensivePrice) / int 2 in
  {| minPE := minPE; maxPE := maxPE;
     cheapPrice := cheapPrice; fairPrice := fairPrice;
     expensivePrice := expensivePrice; eps := eps |}.

Definition fetchRealStockData (symbol : string) (res : ApiResponse)
  : result StockData :=
  match priceJson_data res with
  | None | Some [] => Throw "查無資料或代號錯誤"
  | Some priceData =>
      let rawPrices := rev priceData in
      match perJson_data res with
      | None => Throw "TypeError"
      | Some perData =>
          let rawPERs := rev perData in
          let stockName :=
            match infoJson_data res with
            | Some (info :: _) => stock_name info
            | _ => symbol
            end in
          match rawPrices with
          | [] => Throw "TypeError"
          | newest :: _ =>
              let currentPrice := price_close newest in
              let currentPERData :=
                match rawPERs with
                | latest :: _ => Some (p_e_ratio latest)
                | [] => None
                end in
              let prevPrice :=
                match nth_error rawPrices 1 with
                | Some prev => price_close prev
                | None => currentPrice
                end in
              Ok {| source := "FinMind API";
                    isReal := true;
                    symbol := symbol;
                    name := stockName;
                    currentPrice := currentPrice;
                    change := JS.toFixed2 (currentPrice - prevPrice);
                    currentPE := currentPERData;
                    historyData := join_history rawPrices rawPERs;
                    valuation :=
                      deriveBand currentPrice currentPERData rawPERs |}
          end
      end
  end.

(** ** [getMockData]

    The generator reads three things from its environment: [Math.sin], the
    successive results of [Math.random()], and the successive readings of
    [Date.now()] (one per loop iteration). *)

Record Env : Type := {
  (** [Math.sin] on a finite argument *)
  sin : Q -> Q;
  (** the result of the [k]-th call of [Math.random()] *)
  random : nat -> Q;
  (** the result of the [k]-th call of [Date.now()], in milliseconds *)
  now : nat -> Z
}.

Definition msPerDay : Z := 24 * 60 * 60 * 1000.

(** The calendar date (year, month, day) of a day counted from 1970-01-01,
    in the proleptic Gregorian calendar that [Date] uses. *)
Definition civil (day : Z) : Z * Z * Z :=
  let z := (day + 719468)%Z in
  let era := (z / 146097)%Z in
  let doe := (z - era * 146097)%Z in
  let yoe := ((doe - doe / 1460 + doe / 36524 - doe / 146096) / 365)%Z in
  let doy := (doe - (365 * yoe + yoe / 4 - yoe / 100))%Z in
  let mp := ((5 * doy + 2) / 153)%Z in
  let d := (doy - (153 * mp + 2) / 5 + 1)%Z in
  let m := if (mp <? 10)%Z then (mp + 3)%Z else (mp - 9)%Z in
  let y := (yoe + era * 400)%Z in
  (if (m <=? 2)%Z then (y + 1)%Z else y, m, d).

(** The last [width] decimal digits of a natural number. *)
Fixpoint pad (width : nat) (n : Z) : string :=
  match width with
  | O => ""
  | S w => pad w (n / 10) ++ String (ascii_of_nat (48 + Z.to_nat (n mod 10))) ""
  end.

(** The text of the date of a day counted from 1970-01-01, as
    [toISOString] prints it: a four-digit year from 0 to 9999, a signed
    six-digit year outside. *)
Definition dateOfDay (day : Z) : string :=
  let '(y, m, d) := civil day in
  let year :=
    if ((0 <=? y) && (y <=? 9999))%Z then pad 4 y
    else (if (y <? 0)%Z then "-" else "+") ++ pad 6 (Z.abs y) in
  year ++ "-" ++ pad 2 m ++ "-" ++ pad 2 d.

(** [new Date(ms).toISOString().split('T')[0]]: the UTC date of the
    millisecond [ms].  (Beyond 8.64e15 ms [toISOString] throws; a clock
    does not read that.) *)
Definition isoDate (ms : Z) : string := dateOfDay (ms / msPerDay).

Definition Math_sin (env : Env) (a : number) : number :=
  match a with
  | JS.Fin q => JS.Fin (sin env q)
  | _ => JS.NaN
  end.

Definition Math_random (env : Env) (k : nat) : number := JS.Fin (random env k).

(** [char.charCodeAt(0)].  A stock symbol is ASCII text, for which the
    bytes of a [string] are the code units JavaScript sees. *)
Definition charCode (c : ascii) : Z := Z.of_nat (nat_of_ascii c).

(** [symbol.split('').reduce((acc, char) => acc + char.charCodeAt(0), 0)] *)
Definition seed_of (symbol : string) : Z :=
  fold_left (fun acc char => (acc + charCode char)%Z)
    (list_ascii_of_string symbol) 0%Z.

(** [500 + (seed % 200)] *)
Definition basePrice (seed : Z) : number := int (500 + JS.rem seed 200).

(** One turn of the [for] loop of [generatePrices]: iteration [i] makes the
    calls number [2 i] and [2 i + 1] of [Math.random()] and the call number
    [i] of [Date.now()]. *)
Definition generateStep (env : Env) (days i : nat) (price : number)
  : number * HistoryItem :=
  let change :=
    Math_sin env (JS.of_nat i * dec 1 10) * int 10
    + (Math_random env (2 * i) - dec 5 10) * int 5 in
  let price := price + change in
  let price := if price <? int 10 then int 10 else price in
  (price,
   {| date := isoDate (now env i - (Z.of_nat days - Z.of_nat i) * msPerDay)%Z;
      close := JS.toFixed2 price;
      pe := JS.toFixed2
              (price / (int 20 + Math_random env (2 * i + 1) * int 5)) |}).

(** The loop from iteration [i] on, with [n] iterations left. *)
Fixpoint generateLoop (env : Env) (days n i : nat) (price : number)
  (data : list HistoryItem) : list HistoryItem :=
  match n with
  | O => data
  | S n' =>
      let '(price', item) := generateStep env days i price in
      generateLoop env days n' (S i) price' (data ++ [item])
  end.

Definition generatePrices (env : Env) (seed : Z) (days : nat)
  : list HistoryItem :=
  rev (generateLoop env days days 0 (basePrice seed) []).

Definition mockDays : nat := 365 * 3.

Definition getMockData (env : Env) (symbol : string) : result StockData :=
  let seed := seed_of symbol in
  let historyData := generatePrices env seed mockDays in
  match historyData with
  | [] => Throw "TypeError"
  | newest :: _ =>
      let currentPrice := close newest in
      let currentPE := pe newest in
      let peValues := JS.sort ascending (map pe historyData) in
      let minPE := JS.array_get peValues (rank peValues (dec 1 10)) in
      let maxPE := JS.array_get peValues (rank peValues (dec 9 10)) in
      let eps := currentPrice / currentPE in
      Ok {| source := "模擬數據 (API連線失敗)";
            isReal := false;
            symbol := symbol;
            name := if String.eqb symbol "2330" then "台積電(模)" else "模擬個股";
            currentPrice := currentPrice;
            change := JS.toFixed2
                        (Math_random env (2 * mockDays) * int 10 - int 5);
            currentPE := Some currentPE;
            historyData := historyData;
            valuation :=
              {| minPE := minPE; maxPE := maxPE;
                 cheapPrice := eps * minPE;
                 fairPrice := eps * (minPE + maxPE) / int 2;
                 expensivePrice := eps * maxPE;
                 eps := eps |} |}
  end.

(** ** The [App] component *)

(** [calculateMA]; [data] is always an array at the call sites, so [!data]
    is false. *)
Definition calculateMA (data : list HistoryItem) (days : nat) : number :=
  if (List.length data <? days)%nat then int 0
  else
    let sum := fold_left (fun acc curr => acc + close curr)
                 (firstn days data) (int 0) in
    sum / JS.of_nat days.

Definition maData (stockData : option StockData) : option MaData :=
  match stockData with
  | None => None
  | Some s =>
      Some {| ma5 := calculateMA (historyData s) 5;
              ma10 := calculateMA (historyData s) 10;
              ma20 := calculateMA (historyData s) 20;
              ma60 := calculateMA (historyData s) 60;
              ma120 := calculateMA (historyData s) 120;
              ma240 := calculateMA (historyData s) 240 |}
  end.

(** The test [!value || value === 0] under which [MACard] prints "--"
    instead of the average. *)
Definition MACard_blank (value : number) : bool :=
  negb (JS.truthy value) || (value === int 0).

Definition lowerThreshold (v : Valuation) : number :=
  cheapPrice v * dec 4 10 + fairPrice v * dec 6 10.

Definition upperThreshold (v : Valuation) : number :=
  fairPrice v * dec 4 10 + expensivePrice v * dec 6 10.

Definition valuationStatus (stockData : option StockData) : Status :=
  match stockData with
  | None => NoData
  | Some s =>
      let v := valuation s in
      if negb (JS.truthy (cheapPrice v)) || negb (JS.truthy (expensivePrice v))
      then NoData
      else if currentPrice s <=? lowerThreshold v then Cheap
      else if currentPrice s >=? upperThreshold v then Expensive
      else Fair
  end.

(** The unclamped position computed by [cursorPosition]. *)
Definition cursorRaw (s : StockData) : number :=
  let v := valuation s in
  let range := expensivePrice v * dec 12 10 - cheapPrice v * dec 8 10 in
  (currentPrice s - cheapPrice v * dec 8 10) / range * int 100.

Definition cursorPosition (stockData : option StockData) : number :=
  match stockData with
  | None => int 50
  | Some s =>
      if negb (JS.truthy (cheapPrice (valuation s))) then int 50
      else JS.Math_min (JS.Math_max (cursorRaw s) (int 0)) (int 100)
  end.

(** The state of the component, and [handleSearch]: the real fetch first,
    the generator when it fails.  [net symbol] is the parsed responses of
    the three requests, [None] when a request or its parsing fails. *)
Record AppState : Type := {
  query : string;
  stockData : option StockData;
  loading : bool;
  error : option string
}.

Definition handleSearch (env : Env) (net : string -> option ApiResponse)
  (symbolInput : option string) (st : AppState) : AppState :=
  let symbol :=
    match symbolInput with
    | Some s => if String.eqb s "" then query st else s
    | None => query st
    end in
  if String.eqb symbol "" then st
  else
    let real :=
      match net symbol with
      | Some res => fetchRealStockData symbol res
      | None => Throw "fetch"
      end in
    match real with
    | Ok data =>
        {| query := query st; stockData := Some data;
           loading := false; error := None |}
    | Throw _ =>
        match getMockData env symbol with
        | Ok mockData =>
            {| query := query st; stockData := Some mockData;
               loading := false;
               error := Some "無法取得即時資料，已切換至模擬展示模式。可能原因：代號錯誤、API 限流或該股無近期交易。" |}
        | Throw _ =>
            {| query := query st; stockData := None;
               loading := false; error := None |}
        end
    end.

(** ** The presentational components

    A component is modelled by what it computes for display: the texts, the
    class names chosen and the numbers printed.  A number that the source
    prints with [toFixed(n)] is kept as the number printed. *)

(** The strings [valuationStatus] returns. *)
Definition status_label (st : Status) : string :=
  match st with
  | Cheap => "便宜價"
  | Fair => "合理價"
  | Expensive => "昂貴價"
  | NoData => "無資料"
  end.

(** The property names that every object literal inherits from
    [Object.prototype]. *)
Definition Object_prototype : list string :=
  ["constructor"; "hasOwnProperty"; "isPrototypeOf"; "propertyIsEnumerable";
   "toLocaleString"; "toString"; "valueOf"; "__proto__";
   "__defineGetter__"; "__defineSetter__"; "__lookupGetter__";
   "__lookupSetter__"].

(** What [dict[key]] yields on an object literal: the value written under
    the key, a member inherited from [Object.prototype] (a function, or
    the prototype itself), or [undefined]. *)
Inductive Property (A : Type) : Type :=
| Own (value : A)
| Inherited (key : string)
| Undefined.
Arguments Own {A} value.
Arguments Inherited {A} key.
Arguments Undefined {A}.

(** The value written under [key] in the literal, if any. *)
Fixpoint own (A : Type) (key : string) (dict : list (string * A)) : option A :=
  match dict with
  | [] => None
  | (k, v) :: rest => if String.eqb k key then Some v else own key rest
  end.

(** [dict[key]] on an object literal. *)
Definition lookup (A : Type) (key : string) (dict : list (string * A))
  : Property A :=
  match own key dict with
  | Some v => Own v
  | None =>
      if existsb (String.eqb key) Object_prototype then Inherited key
      else Undefined
  end.

(** The number [x.toFixed(digits)] prints: the nearest multiple of
    10^-digits, a tie going away from zero; from 10^21 on the number
    itself.  As for [JS.round2], the rounding is that of the exact
    decimal, and at a decimal tie the code may print the lower digit
    (100.35 prints 100.3). *)
Definition roundTo (digits : nat) (q : Q) : Q :=
  if Qle_bool (inject_Z (10 ^ 21)) (Qabs q) then Qred q
  else
    let scale := inject_Z (10 ^ Z.of_nat digits) in
    let n := Qfloor (Qabs q * scale + (1 # 2)) in
    Qred (inject_Z (match JS.Qsign q with Lt => - n | _ => n end) / scale).

Definition toFixed (digits : nat) (a : number) : number :=
  match a with
  | JS.Fin q => JS.Fin (roundTo digits q)
  | _ => a
  end.

Definition Math_abs (a : number) : number :=
  match a with
  | JS.Fin q => JS.Fin (Qred (Qabs q))
  | JS.NInf => JS.PInf
  | _ => a
  end.

(** [MACard]: the placeholder card, or the card with the average printed to
    one decimal, red when the price is above the average and green
    otherwise. *)
Inductive MACardView : Type :=
| BlankCard (label : string)
| ValueCard (label : string) (colour : string) (printed : number).

Definition MACard (label : string) (value currentPrice : number) : MACardView :=
  let isAbove := currentPrice >? value in
  if negb (JS.truthy value) || (value === int 0) then BlankCard label
  else ValueCard label (if isAbove then "text-red-400" else "text-green-400")
         (toFixed 1 value).

(** [ValuationBadge]: the style and the icon looked up under the status,
    the status as the title, and the subtitle. *)
Definition badge_styles : list (string * string) :=
  [("便宜價",
      "bg-green-900/40 text-green-400 border-green-500/50 shadow-[0_0_15px_rgba(74,222,128,0.3)]");
     ("合理價",
      "bg-amber-900/40 text-amber-400 border-amber-500/50 shadow-[0_0_15px_rgba(251,191,36,0.3)]");
     ("昂貴價",
      "bg-red-900/40 text-red-400 border-red-500/50 shadow-[0_0_15px_rgba(248,113,113,0.3)]");
     ("無資料",
      "bg-slate-800 text-slate-400 border-slate-600")].

Definition badge_icons : list (string * string) :=
  [("便宜價",
      "TrendingUp");
     ("合理價",
      "Activity");
     ("昂貴價",
      "Info");
     ("無資料",
      "AlertTriangle")].

Record BadgeView : Type := {
  badgeStyle : Property string;
  badgeIcon : Property string;
  badgeTitle : string;
  badgeSubtitle : string
}.

Definition ValuationBadge (status : string) : BadgeView :=
  {| badgeStyle := lookup status badge_styles;
     badgeIcon := lookup status badge_icons;
     badgeTitle := status;
     badgeSubtitle :=
       if String.eqb status "無資料" then "無法計算 P/E 區間"
       else "基於歷史 3 年本益比位階" |}.

(** [AnalystInsight].  The commentary is a sequence of literal texts and of
    numbers printed to one decimal. *)
Inductive Segment : Type :=
| Text (s : string)
| Fixed1 (x : number).

Record Insight : Type := {
  riskLevel : string;
  riskColor : string;
  isLongTermBull : bool;
  commentary : list Segment
}.

Definition valuationComment (name valuationStatus : string) : string :=
  if String.eqb valuationStatus "便宜價" then
    "價值評估顯示 " ++ name ++ " 目前具備顯著的安全邊際，本益比位於歷史低檔區，是長線價值投資者理想的佈局時機。"
  else if String.eqb valuationStatus "合理價" then
    "目前股價反應其合理價值，市場預期已部分實現。建議採取「區間操作」策略，或等待回檔至更有吸引力的價位再行加碼。"
  else
    "股價已進入歷史高估值區間，反映市場情緒過熱或已完全定價未來成長。此時追高風險收益比（Risk/Reward Ratio）較差，建議適度獲利了結或嚴設停利。".

Definition technicalComment (isLongTermBull isShortTermBull : bool)
  (ma240 : number) : list Segment :=
  if isLongTermBull then
    if isShortTermBull then
      [Text "股價穩站年線（240MA）與月線（20MA）之上，呈現「長多短多」的強勢格局，順勢操作即可，唯需留意乖離過大後的短線修正。"]
    else
      [Text "雖然長線趨勢（年線）仍向上，但短線跌破月線，顯示籌碼進入整理階段。若能守穩季線（60MA），則視為多頭架構下的健康回檔。"]
  else
    if isShortTermBull then
      [Text "股價雖站回月線出現反彈，但上方仍有年線（"; Fixed1 ma240; Text "）的反壓，判定為「空頭反彈」格局。搶短需手腳俐落，不宜過度戀戰。"]
    else
      [Text "股價同時受制於月線與年線反壓，呈現「長空短空」的弱勢格局。在未帶量突破重要均線前，建議保守觀望，保留現金等待落底訊號。"].

Definition AnalystInsight (stockData : option StockData)
  (maData : option MaData) (valuationStatus : string) : option Insight :=
  match stockData, maData with
  | Some s, Some m =>
      let '(riskLevel, riskColor) :=
        if String.eqb valuationStatus "便宜價" then ("低", "text-green-400")
        else if String.eqb valuationStatus "昂貴價" then ("高", "text-red-400")
        else ("中", "text-amber-400") in
      let isLongTermBull := currentPrice s >? ma240 m in
      let isShortTermBull := currentPrice s >? ma20 m in
      Some {| riskLevel := riskLevel;
              riskColor := riskColor;
              isLongTermBull := isLongTermBull;
              commentary :=
                Text (valuationComment (name s) valuationStatus)
                :: Text " 技術面來看，"
                :: technicalComment isLongTermBull isShortTermBull (ma240 m) |}
  | _, _ => None
  end.

(** ** What [App] renders *)

Record ChartView : Type := {
  cursorLeft : number;
  expensiveLine : number * number;
  fairLine : number * number;
  cheapLine : number * number
}.

Record ContentView : Type := {
  heading : string * string;
  priceText : number;
  changeUp : bool;
  changeText : number;
  badge : BadgeView;
  cards : list MACardView;
  chart : option ChartView;
  dataNote : string;
  insight : option Insight
}.

Record AppView : Type := {
  buttonDisabled : bool;
  sourceLine : option (bool * string);
  errorBanner : option string;
  content : option ContentView;
  placeholder : bool
}.

(** The six [MACard]s of the moving-average panel. *)
Definition maCards (s : StockData) (m : option MaData) : list MACardView :=
  let value (field : MaData -> number) : number :=
    match m with
    | Some ma => field ma ||| int 0
    | None => int 0
    end in
  [MACard "5日 (週)" (value ma5) (currentPrice s);
   MACard "10日 (雙週)" (value ma10) (currentPrice s);
   MACard "20日 (月)" (value ma20) (currentPrice s);
   MACard "60日 (季)" (value ma60) (currentPrice s);
   MACard "120日 (半年)" (value ma120) (currentPrice s);
   MACard "240日 (年)" (value ma240) (currentPrice s)].

(** The valuation panel: the chart when [cheapPrice] is truthy, the
    not-enough-data message otherwise. *)
Definition chartOf (s : StockData) : option ChartView :=
  let v := valuation s in
  if JS.truthy (cheapPrice v) then
    Some {| cursorLeft := cursorPosition (Some s);
            expensiveLine := (toFixed 1 (maxPE v), toFixed 2 (expensivePrice v));
            fairLine := (toFixed 1 ((minPE v + maxPE v) / int 2),
                         toFixed 2 (fairPrice v));
            cheapLine := (toFixed 1 (minPE v), toFixed 2 (cheapPrice v)) |}
  else None.

Definition render (st : AppState) : AppView :=
  let status := status_label (valuationStatus (stockData st)) in
  let ma := maData (stockData st) in
  let hasError :=
    match error st with
    | Some e => negb (String.eqb e "")
    | None => false
    end in
  {| buttonDisabled := loading st;
     sourceLine :=
       match stockData st with
       | Some s => Some (isReal s, source s)
       | None => None
       end;
     errorBanner := if hasError then error st else None;
     content :=
       match stockData st with
       | Some s =>
           if loading st then None
           else
             Some {| heading := (name s, symbol s);
                     priceText := toFixed 2 (currentPrice s);
                     changeUp := change s >=? int 0;
                     changeText := Math_abs (change s);
                     badge := ValuationBadge status;
                     cards := maCards s ma;
                     chart := chartOf s;
                     dataNote :=
                       if isReal s then "EPS 與 P/E 區間計算採計 FinMind 歷史數據。若遇到 ETF 或虧損個股，模型可能不適用。"
                       else "目前為模擬數據模式，僅供介面展示。";
                     insight := AnalystInsight (stockData st) ma status |}
       | None => None
       end;
     placeholder :=
       match stockData st with
       | Some _ => false
       | None => negb (loading st) && negb hasError
       end |}.

(** The state right after [handleSearch] has started a request for a
    symbol: loading, with the error and the snapshot cleared. *)
Definition searching (st : AppState) : AppState :=
  {| query := query st; stockData := None; loading := true; error := None |}.

(** ** Where rounding decides: the same expressions in binary64

    The numbers of the code are IEEE-754 doubles.  [F64] holds, over the
    binary64 floats of Rocq, the expressions of the source that the claims
    compare with an exact value, so that the two can be computed side by
    side: the sum and the quotient of [calculateMA], and the band that
    [getMockData] returns. *)

Module F64.

Record HistoryItem : Type := {
  date : string;
  close : float;
  pe : float
}.

Record Valuation : Type := {
  minPE : float;
  maxPE : float;
  cheapPrice : float;
  fairPrice : float;
  expensivePrice : float;
  eps : float
}.

(** The count [n] as a double (exact below 2^53). *)
Definition of_nat (n : nat) : float :=
  PrimFloat.of_uint63 (Uint63.of_Z (Z.of_nat n)).

(** [calculateMA], lines 327 to 331. *)
Definition calculateMA (data : list HistoryItem) (days : nat) : float :=
  if (List.length data <? days)%nat then 0%float
  else
    let sum := fold_left (fun acc curr => (acc + close curr)%float)
                 (firstn days data) 0%float in
    (sum / of_nat days)%float.

(** Lines 155 and 166 of [getMockData]: the band, from the close and the
    P/E of the newest record and the two ranked P/Es. *)
Definition mockValuation (currentPrice currentPE minPE maxPE : float)
  : Valuation :=
  let eps := (currentPrice / currentPE)%float in
  {| minPE := minPE; maxPE := maxPE;
     cheapPrice := (eps * minPE)%float;
     fairPrice := (eps * (minPE + maxPE) / 2)%float;
     expensivePrice := (eps * maxPE)%float;
     eps := eps |}.

End F64.

(** ** What the claims are measured against *)

(** The arithmetic mean of a list of numbers: their sum over their count. *)
Definition arithmetic_mean (xs : list number) : number :=
  fold_right JS.add (int 0) xs / JS.of_nat (List.length xs).

(** The mean as the code accumulates it: the numbers added to 0 one after
    the other, from the first on, and the sum divided by their count. *)
Definition running_mean (xs : list number) : number :=
  fold_left JS.add xs (int 0) / JS.of_nat (List.length xs).

(** Clamping to the interval from [lo] to [hi]. *)
Definition clamp (lo hi x : number) : number :=
  if x <? lo then lo else if x >? hi then hi else x.

(** A number is finite, and a finite number lies strictly between two
    rationals. *)
Definition finite (a : number) : Prop :=
  match a with JS.Fin _ => True | _ => False end.

Definition strictly_between (lo hi : Q) (a : number) : Prop :=
  match a with JS.Fin q => (lo < q /\ q < hi)%Q | _ => False end.

(** A finite number that is at least a given rational, or exceeds it. *)
Definition at_least (lo : Q) (a : number) : Prop :=
  match a with JS.Fin q => (lo <= q)%Q | _ => False end.

Definition above (lo : Q) (a : number) : Prop :=
  match a with JS.Fin q => (lo < q)%Q | _ => False end.

(** What the generator guarantees of a record: a close of at least 10 and
    a positive P/E. *)
Definition mock_item_ok (h : HistoryItem) : Prop :=
  at_least 10 (close h) /\ above 0 (pe h).

(** [a <= b] holds of two numbers. *)
Definition le_true (a b : number) : Prop := (a <=? b) = true.

(** The contract of [Math.random()]: a result from 0 up to, but not
    including, 1. *)
Definition random_in_range (env : Env) : Prop :=
  forall k, (0 <= random env k /\ random env k < 1)%Q.

(** The invariant of a valuation band. *)
Definition band_ok (v : Valuation) : Prop :=
  le_true (minPE v) (maxPE v)
  /\ cheapPrice v = eps v * minPE v
  /\ expensivePrice v = eps v * maxPE v
  /\ fairPrice v = (cheapPrice v + expensivePrice v) / int 2.

(** The same with the fair price as [getMockData] writes it: the EPS times
    the sum of the two P/E bounds, halved. *)
Definition mock_band_ok (v : Valuation) : Prop :=
  le_true (minPE v) (maxPE v)
  /\ cheapPrice v = eps v * minPE v
  /\ expensivePrice v = eps v * maxPE v
  /\ fairPrice v = eps v * (minPE v + maxPE v) / int 2.

(** The sum of the character codes of a string. *)
Definition charCodeSum (symbol : string) : Z :=
  fold_right (fun char acc => (charCode char + acc)%Z) 0%Z
    (list_ascii_of_string symbol).

(** The date of the record that iteration [i] of a run over [days] days
    produces: [days - i] days before the clock reading of that iteration. *)
Definition mockDate (env : Env) (days i : nat) : string :=
  isoDate (now env i - (Z.of_nat days - Z.of_nat i) * msPerDay)%Z.

(** A field that is [NaN] (what arithmetic on a missing value yields) or
    zero: the numbers [!x] is true of. *)
Definition absent_or_zero (a : number) : Prop :=
  match a with
  | JS.NaN => True
  | JS.Fin q => (q == 0)%Q
  | _ => False
  end.

(** ** Further notions the properties below are stated with *)

(** The results of the code carry the rounding of its double arithmetic.
    Where a property below turns on a comparison of two prices it is
    stated at a relative distance of one part in a million from the
    threshold, and where it locates the cursor, within a thousandth of a
    point. *)
Definition margin : Q := 1000001 # 1000000.
Definition tolerance : Q := 1 # 1000.

(** A finite number within the closed interval from [lo] to [hi]. *)
Definition within (lo hi : Q) (a : number) : Prop :=
  match a with JS.Fin q => (lo <= q /\ q <= hi)%Q | _ => False end.

(** Whether a card is the placeholder card. *)
Definition is_blank (card : MACardView) : bool :=
  match card with BlankCard _ => true | ValueCard _ _ _ => false end.

(** The windows of the six cards, in the order of the panel. *)
Definition windows : list nat := [5; 10; 20; 60; 120; 240]%nat.

(** A record whose close lies strictly between [lo] and [hi] times its
    P/E, the P/E being positive. *)
Definition ratio_between (lo hi : Q) (h : HistoryItem) : Prop :=
  match close h, pe h with
  | JS.Fin c, JS.Fin q => (0 < q /\ lo * q < c /\ c < hi * q)%Q
  | _, _ => False
  end.

(** ** Sample inputs *)

Definition priceRows (rows : list (string * Z)) : list PriceRow :=
  map (fun r => {| price_date := fst r; price_close := int (snd r) |}) rows.

Definition perRows (rows : list (string * Z)) : list PERRow :=
  map (fun r => {| per_date := fst r; p_e_ratio := int (snd r) |}) rows.

(** Two trading days, oldest first as FinMind lists them. *)
Definition sample_prices : list PriceRow :=
  priceRows [("2024-01-02", 148); ("2024-01-03", 150)]%Z.

(** Twelve P/E rows, all plausible, the latest one 15. *)
Definition sample_pers : list PERRow :=
  perRows [("2023-12-18", 30); ("2023-12-19", 12); ("2023-12-20", 28);
           ("2023-12-21", 14); ("2023-12-22", 26); ("2023-12-25", 16);
           ("2023-12-26", 24); ("2023-12-27", 18); ("2023-12-28", 22);
           ("2023-12-29", 20); ("2024-01-02", 32); ("2024-01-03", 15)]%Z.

(** The same history with a latest P/E of zero. *)
Definition sample_pers_zero : list PERRow :=
  perRows [("2023-12-18", 30); ("2023-12-19", 12); ("2023-12-20", 28);
           ("2023-12-21", 14); ("2023-12-22", 26); ("2023-12-25", 16);
           ("2023-12-26", 24); ("2023-12-27", 18); ("2023-12-28", 22);
           ("2023-12-29", 20); ("2024-01-02", 32); ("2024-01-03", 0)]%Z.

(** The same history with a negative latest P/E. *)
Definition sample_pers_negative : list PERRow :=
  perRows [("2023-12-18", 30); ("2023-12-19", 12); ("2023-12-20", 28);
           ("2023-12-21", 14); ("2023-12-22", 26); ("2023-12-25", 16);
           ("2023-12-26", 24); ("2023-12-27", 18); ("2023-12-28", 22);
           ("2023-12-29", 20); ("2024-01-02", 32); ("2024-01-03", -5)]%Z.

(** A hundred P/E rows with the values 100 down to 1. *)
Definition pers_100_to_1 : list PERRow :=
  map (fun n => {| per_date := ""; p_e_ratio := int (101 - Z.of_nat n) |})
    (seq 1 100).

(** A short history: one P/E row, dated on the latest trading day only. *)
Definition sample_pers_short : list PERRow :=
  perRows [("2024-01-03", 15)]%Z.

Definition response (prices : list PriceRow) (pers : list PERRow)
  : ApiResponse :=
  {| priceJson_data := Some prices;
     perJson_data := Some pers;
     infoJson_data := Some [{| stock_name := "TSMC" |}] |}.

(** Twenty records, newest first, with the closes 20 down to 1. *)
Definition closes_20_to_1 : list HistoryItem :=
  map (fun c => {| date := ""; close := int c; pe := int 0 |})
    [20; 19; 18; 17; 16; 15; 14; 13; 12; 11;
     10; 9; 8; 7; 6; 5; 4; 3; 2; 1]%Z.

(** A snapshot around the band of the classification example: thresholds
    cheap 80, fair 100, expensive 120. *)
Definition example_band : Valuation :=
  {| minPE := int 8; maxPE := int 12;
     cheapPrice := int 80; fairPrice := int 100; expensivePrice := int 120;
     eps := int 10 |}.

Definition snapshot (price : number) (v : Valuation) : StockData :=
  {| source := "FinMind API"; isReal := true; symbol := "2330";
     name := "TSMC"; currentPrice := price; change := int 0;
     currentPE := None; historyData := []; valuation := v |}.

(** A single trading day on which the close is 0. *)
Definition sample_prices_zero : list PriceRow :=
  priceRows [("2024-01-03", 0)]%Z.

(** A band whose cheap price is 0 while its expensive price is 100. *)
Definition zero_cheap_band : Valuation :=
  {| minPE := int 0; maxPE := int 10;
     cheapPrice := int 0; fairPrice := int 50; expensivePrice := int 100;
     eps := int 10 |}.

(** The position formula of the claim, on the fields of a snapshot. *)
Definition cursorFormula (s : StockData) : number :=
  (currentPrice s - cheapPrice (valuation s) * dec 8 10)
  / (expensivePrice (valuation s) * dec 12 10
     - cheapPrice (valuation s) * dec 8 10)
  * int 100.

(** A series of [n] records that all close at [c], as doubles. *)
Definition flat_closes (c : float) (n : nat) : list F64.HistoryItem :=
  repeat {| F64.date := ""; F64.close := c; F64.pe := 0%float |} n.

(** Midnight UTC of 2024-01-03 and of 2024-01-04, in milliseconds. *)
Definition jan3 : Z := 1704240000000.
Definition jan4 : Z := 1704326400000.

(** The state the component starts in. *)
Definition initialState : AppState :=
  {| query := ""; stockData := None; loading := false; error := None |}.

(** A network on which every request fails, and one that answers every
    symbol with the sample responses. *)
Definition offline : string -> option ApiResponse := fun _ => None.

Definition online : string -> option ApiResponse :=
  fun _ => Some (response sample_prices sample_pers).

(** An environment for the generator: a flat sine, every random draw 1/2,
    a clock that advances [tick] milliseconds per reading from [start]. *)
Definition sample_env (start tick : Z) : Env :=
  {| sin := fun _ => 0%Q;
     random := fun _ => (1 # 2)%Q;
     now := fun k => (start + tick * Z.of_nat k)%Z |}.

(** ** Numbers: order, truthiness, rounding *)

Lemma lt_Fin (x y : Q) : (JS.Fin x <? JS.Fin y) = true <-> (x < y)%Q.
Proof.
  unfold JS.lt; simpl. rewrite Qlt_alt.
  destruct (x ?= y)%Q; split; congruence.
Qed.

Lemma le_Fin (x y : Q) : (JS.Fin x <=? JS.Fin y) = true <-> (x <= y)%Q.
Proof.
  unfold JS.le; simpl. rewrite Qle_alt.
  destruct (x ?= y)%Q; split; congruence.
Qed.

Lemma lt_Fin_false (x y : Q) : (JS.Fin x <? JS.Fin y) = false <-> (y <= x)%Q.
Proof.
  rewrite <- not_true_iff_false, lt_Fin. split; intro H.
  - apply Qnot_lt_le; exact H.
  - apply Qle_not_lt; exact H.
Qed.

Lemma truthy_Fin (q : Q) : JS.truthy (JS.Fin q) = false <-> (q == 0)%Q.
Proof.
  unfold JS.truthy, JS.Qsign. rewrite Qeq_alt.
  destruct (q ?= 0)%Q; split; congruence.
Qed.

Lemma truthy_Fin_true (q : Q) : JS.truthy (JS.Fin q) = true <-> ~ (q == 0)%Q.
Proof.
  rewrite <- truthy_Fin. destruct (JS.truthy (JS.Fin q)); split; congruence.
Qed.

Lemma Qsign_pos (q : Q) : (0 < q)%Q -> JS.Qsign q = Gt.
Proof.
  intro H. unfold JS.Qsign. apply Qgt_alt. exact H.
Qed.

Lemma Qred_inject_Z (z : Z) : Qred (inject_Z z) = inject_Z z.
Proof.
  unfold Qred, inject_Z.
  generalize (Z.ggcd_gcd z 1) (Z.ggcd_correct_divisors z 1).
  destruct (Z.ggcd z 1) as [g [aa bb]]; simpl.
  intros Hg [Ha Hb]. rewrite Z.gcd_1_r in Hg. subst g.
  rewrite Z.mul_1_l in Ha, Hb. subst aa bb. reflexivity.
Qed.

Lemma sub_Fin (x y : Q) : JS.Fin x - JS.Fin y = JS.Fin (Qred (x - y)).
Proof.
  unfold JS.sub, JS.neg, JS.add. f_equal. apply Qred_complete.
  rewrite Qred_correct. reflexivity.
Qed.

Lemma div_Fin (x y : Q) :
  ~ (y == 0)%Q -> JS.Fin x / JS.Fin y = JS.Fin (Qred (x / y)).
Proof.
  intro H. unfold JS.div, JS.Qsign.
  destruct (y ?= 0)%Q eqn:E; try reflexivity.
  apply Qeq_alt in E. contradiction.
Qed.

Lemma le_true_refl (a : number) : finite a -> le_true a a.
Proof.
  destruct a; simpl; try contradiction. intros _.
  apply le_Fin. apply Qle_refl.
Qed.

Lemma le_true_trans (a b c : number) :
  finite b -> le_true a b -> le_true b c -> le_true a c.
Proof.
  unfold le_true. destruct b as [y| | |]; simpl; try contradiction. intros _.
  destruct a as [x| | |], c as [z| | |]; try (intros; reflexivity || discriminate).
  rewrite !le_Fin. apply Qle_trans.
Qed.

(** ** [Array.prototype.sort] with the comparator [(a, b) => a - b] *)

Lemma insert_perm (A : Type) (cmp : A -> A -> number) (x : A) (l : list A) :
  Permutation (JS.insert cmp x l) (x :: l).
Proof.
  induction l as [|y t IH]; simpl.
  - apply Permutation_refl.
  - destruct (cmp x y >? JS.zero).
    + apply Permutation_trans with (y :: x :: t).
      * apply perm_skip. exact IH.
      * apply perm_swap.
    + apply Permutation_refl.
Qed.

Lemma sort_perm (A : Type) (cmp : A -> A -> number) (l : list A) :
  Permutation (JS.sort cmp l) l.
Proof.
  induction l as [|x t IH]; simpl.
  - apply perm_nil.
  - apply Permutation_trans with (x :: JS.sort cmp t).
    + apply insert_perm.
    + apply perm_skip. exact IH.
Qed.

Lemma sort_length (A : Type) (cmp : A -> A -> number) (l : list A) :
  List.length (JS.sort cmp l) = List.length l.
Proof.
  apply Permutation_length. apply sort_perm.
Qed.

Lemma sort_Forall (P : number -> Prop) (l : list number) :
  Forall P l -> Forall P (JS.sort ascending l).
Proof.
  intro H. apply Permutation_Forall with l.
  - apply Permutation_sym. apply sort_perm.
  - exact H.
Qed.

Lemma ascending_after (x y : Q) :
  (ascending (JS.Fin x) (JS.Fin y) >? JS.zero) = true <-> (y < x)%Q.
Proof.
  unfold ascending, JS.gt, JS.zero, JS.of_Z. rewrite sub_Fin, lt_Fin.
  rewrite Qred_correct. change (inject_Z 0) with 0%Q. split; intro H; lra.
Qed.

Lemma ascending_before (x y : Q) :
  (ascending (JS.Fin x) (JS.Fin y) >? JS.zero) = false <-> (x <= y)%Q.
Proof.
  unfold ascending, JS.gt, JS.zero, JS.of_Z. rewrite sub_Fin, lt_Fin_false.
  rewrite Qred_correct. change (inject_Z 0) with 0%Q. split; intro H; lra.
Qed.

Lemma insert_sorted (x : number) (l : list number) :
  finite x -> Forall finite l -> StronglySorted le_true l ->
  StronglySorted le_true (JS.insert ascending x l).
Proof.
  intros Hx Hl Hs. induction Hs as [|y t Hs IH Hy]; simpl.
  - constructor; constructor.
  - inversion Hl as [|? ? Fy Ft]; subst.
    destruct x as [qx| | |]; try contradiction.
    destruct y as [qy| | |]; try contradiction.
    destruct (ascending (JS.Fin qx) (JS.Fin qy) >? JS.zero) eqn:E.
    + apply ascending_after in E. constructor.
      * apply IH; assumption.
      * apply Permutation_Forall with (JS.Fin qx :: t).
        -- apply Permutation_sym. apply insert_perm.
        -- constructor; [apply le_Fin; lra | exact Hy].
    + apply ascending_before in E. constructor.
      * constructor; assumption.
      * constructor; [apply le_Fin; exact E|].
        apply Forall_impl with (P := le_true (JS.Fin qy)); [|exact Hy].
        intros z Hz. apply le_true_trans with (JS.Fin qy); simpl; auto.
        apply le_Fin; exact E.
Qed.

Lemma sort_sorted (l : list number) :
  Forall finite l -> StronglySorted le_true (JS.sort ascending l).
Proof.
  induction 1 as [|x t Hx Ht IH]; simpl.
  - constructor.
  - apply insert_sorted; [exact Hx | apply sort_Forall; exact Ht | exact IH].
Qed.

Lemma sorted_nth (l : list number) (i j : nat) (d : number) :
  StronglySorted le_true l -> Forall finite l ->
  (i <= j)%nat -> (j < List.length l)%nat ->
  le_true (nth i l d) (nth j l d).
Proof.
  intros Hs. revert i j. induction Hs as [|x t Hs IH Hx]; intros i j Hf Hij Hj.
  - simpl in Hj. lia.
  - inversion Hf as [|? ? Fx Ft]; subst. destruct i as [|i], j as [|j]; simpl.
    + apply le_true_refl; exact Fx.
    + rewrite Forall_forall in Hx. apply Hx. apply nth_In. simpl in Hj. lia.
    + lia.
    + apply IH; [exact Ft | lia | simpl in Hj; lia].
Qed.

(** ** The filtered, sorted P/E observations *)

Lemma plausible_between (a : number) :
  plausible a = true <-> strictly_between 0 200 a.
Proof.
  unfold plausible, JS.gt, int, JS.of_Z.
  destruct a as [q| | |]; simpl strictly_between.
  - rewrite andb_true_iff, !lt_Fin. reflexivity.
  - split; [discriminate | contradiction].
  - split; [discriminate | contradiction].
  - split; [discriminate | contradiction].
Qed.

Lemma between_finite (lo hi : Q) (a : number) :
  strictly_between lo hi a -> finite a.
Proof.
  destruct a; simpl; auto.
Qed.

Lemma validPEs_perm (rawPERs : list PERRow) :
  Permutation (validPEs_of rawPERs) (filter plausible (map p_e_ratio rawPERs)).
Proof.
  apply sort_perm.
Qed.

Lemma validPEs_between (rawPERs : list PERRow) :
  Forall (strictly_between 0 200) (validPEs_of rawPERs).
Proof.
  apply sort_Forall. apply Forall_forall. intros a Ha.
  apply filter_In in Ha. apply plausible_between. apply Ha.
Qed.

Lemma validPEs_finite (rawPERs : list PERRow) :
  Forall finite (validPEs_of rawPERs).
Proof.
  eapply Forall_impl; [|apply validPEs_between].
  intros a. apply between_finite.
Qed.

Lemma validPEs_sorted (rawPERs : list PERRow) :
  StronglySorted le_true (validPEs_of rawPERs).
Proof.
  apply sort_sorted. apply Forall_forall. intros a Ha.
  apply filter_In in Ha. destruct Ha as [_ Ha].
  apply plausible_between in Ha. eapply between_finite; exact Ha.
Qed.

(** ** Ranks and array access *)

Lemma floor_ratio (n k : Z) (d : positive) :
  Qfloor (inject_Z n * (k # d)) = (n * k / Zpos d)%Z.
Proof.
  reflexivity.
Qed.

Lemma rank_nat (A : Type) (arr : list A) (k : Z) (d : positive) :
  rank arr (dec k d) = int (Z.of_nat (List.length arr) * k / Zpos d).
Proof.
  unfold rank, dec, JS.of_nat, JS.of_Z, JS.mul, JS.Math_floor, int, JS.of_Z.
  rewrite Qred_correct, floor_ratio. reflexivity.
Qed.

Lemma array_get_int (arr : list number) (k : Z) :
  (0 <= k)%Z -> JS.array_get arr (int k) = nth (Z.to_nat k) arr JS.NaN.
Proof.
  intro Hk. unfold JS.array_get, int, JS.of_Z. rewrite Qred_inject_Z. simpl.
  apply Z.leb_le in Hk. rewrite Hk. reflexivity.
Qed.

Lemma array_get_rank (arr : list number) (k : Z) (d : positive) :
  (0 <= k)%Z ->
  JS.array_get arr (rank arr (dec k d))
  = nth (Z.to_nat (Z.of_nat (List.length arr) * k / Zpos d)) arr JS.NaN.
Proof.
  intro Hk. rewrite rank_nat. apply array_get_int.
  apply Z.div_pos; [|reflexivity]. apply Z.mul_nonneg_nonneg; lia.
Qed.

Lemma tenth_index (n : nat) :
  Z.to_nat (Z.of_nat n * 1 / 10) = (n / 10)%nat.
Proof.
  rewrite Z.mul_1_r. change 10%Z with (Z.of_nat 10).
  rewrite <- Nat2Z.inj_div. apply Nat2Z.id.
Qed.

Lemma nine_tenths_index (n : nat) :
  Z.to_nat (Z.of_nat n * 9 / 10) = (n * 9 / 10)%nat.
Proof.
  change 9%Z with (Z.of_nat 9). change 10%Z with (Z.of_nat 10).
  rewrite <- Nat2Z.inj_mul, <- Nat2Z.inj_div. apply Nat2Z.id.
Qed.

(** ** [calculateMA] *)

Lemma add_comm (a b : number) : a + b = b + a.
Proof.
  destruct a as [x| | |], b as [y| | |]; try reflexivity.
  cbn [JS.add]. f_equal. apply Qred_complete. ring.
Qed.

Lemma add_assoc (a b c : number) : a + (b + c) = a + b + c.
Proof.
  destruct a as [x| | |], b as [y| | |], c as [z| | |]; try reflexivity.
  cbn [JS.add]. f_equal. apply Qred_complete. rewrite !Qred_correct. ring.
Qed.

Lemma sum_closes (l : list HistoryItem) (a : number) :
  fold_left (fun acc curr => acc + close curr) l a
  = fold_left JS.add (map close l) a.
Proof.
  revert a. induction l as [|h t IH]; intro a; simpl.
  - reflexivity.
  - apply IH.
Qed.

(** C1, as amended: with fewer records than the window, [calculateMA]
    returns the number 0; it is this 0 that [MACard] prints as "--". *)
Theorem calculateMA_short (data : list HistoryItem) (days : nat) :
  (List.length data < days)%nat ->
  calculateMA data days = int 0
  /\ MACard_blank (calculateMA data days ||| int 0) = true.
Proof.
  intro H. unfold calculateMA. apply Nat.ltb_lt in H. rewrite H.
  split; reflexivity.
Qed.

Lemma calculateMA_short_witness :
  calculateMA closes_20_to_1 60 = int 0
  /\ MACard_blank (calculateMA closes_20_to_1 60 ||| int 0) = true.
Proof.
  apply (calculateMA_short closes_20_to_1 (days := 60)). simpl. lia.
Defined.

(** C1, the claim as stated fails: on an empty series and on a series of
    twenty records the 60-day average is the number 0, an ordinary number
    equal to zero, where the claim wants a marker that is not 0. *)
Lemma calculateMA_short_is_zero :
  calculateMA [] 5 = int 0
  /\ calculateMA closes_20_to_1 60 = int 0
  /\ (calculateMA closes_20_to_1 60 === int 0) = true.
Proof.
  repeat split.
Qed.

(** Over exact rationals the order of the additions does not matter, and
    the running mean is the arithmetic mean; the doubles of the code round
    every addition, and there the two can differ in the last digits. *)
Lemma running_mean_exact (xs : list number) :
  running_mean xs = arithmetic_mean xs.
Proof.
  unfold running_mean, arithmetic_mean. f_equal. apply fold_symmetric.
  - intros x y z. apply add_assoc.
  - intros y. apply add_comm.
Qed.

(** C8, as amended: with at least [days] records, [calculateMA] adds the
    closes of the first [days] records (the most recent ones of a series
    that is ordered newest first) to 0 one after the other, and divides
    the sum by [days]. *)
Theorem calculateMA_mean (data : list HistoryItem) (days : nat) :
  (days <= List.length data)%nat ->
  calculateMA data days = running_mean (map close (firstn days data)).
Proof.
  intro H. unfold calculateMA, running_mean.
  assert (E : (List.length data <? days)%nat = false)
    by (apply Nat.ltb_ge; exact H).
  rewrite E, sum_closes.
  rewrite length_map, firstn_length_le by exact H.
  reflexivity.
Qed.

Lemma calculateMA_mean_witness :
  calculateMA closes_20_to_1 5
    = running_mean (map close (firstn 5 closes_20_to_1))
  /\ map close (firstn 5 closes_20_to_1)
     = [int 20; int 19; int 18; int 17; int 16]
  /\ calculateMA closes_20_to_1 5 = int 18.
Proof.
  split; [|split; reflexivity].
  apply (calculateMA_mean closes_20_to_1 (days := 5)). simpl. lia.
Defined.

(** C8, the claim as stated fails: the average is not exactly the
    arithmetic mean.  For twenty closes of 100.35, whose mean is 100.35,
    the additions and the division of [calculateMA] give
    100.34999999999997 in binary64, a number below every close. *)
Lemma calculateMA_rounds :
  F64.calculateMA (flat_closes 100.35 20) 20 = 100.34999999999997%float
  /\ PrimFloat.ltb (F64.calculateMA (flat_closes 100.35 20) 20) 100.35 = true.
Proof.
  vm_compute. split; reflexivity.
Qed.

(** ** [fetchRealStockData]: the join *)

Lemma joined_pe_miss (rawPERs : list PERRow) (d : string) :
  (forall p, In p rawPERs -> per_date p <> d) ->
  joined_pe rawPERs d = int 0.
Proof.
  intro H. unfold joined_pe.
  destruct (find (fun p => per_date p =? d) rawPERs) as [p|] eqn:E.
  - apply find_some in E. destruct E as [Hin Heq].
    apply String.eqb_eq in Heq. exfalso. exact (H p Hin Heq).
  - reflexivity.
Qed.

Lemma joined_pe_hit (rawPERs : list PERRow) (d : string) (p : PERRow) :
  find (fun p => per_date p =? d) rawPERs = Some p ->
  per_date p = d /\ joined_pe rawPERs d = p_e_ratio p ||| int 0.
Proof.
  intro E. unfold joined_pe. rewrite E. split; [|reflexivity].
  apply find_some in E. apply String.eqb_eq. apply E.
Qed.

(** What a successful call returns, in terms of the reversed responses. *)
Lemma fetchRealStockData_ok (symbol : string) (res : ApiResponse)
  (prices : list PriceRow) (pers : list PERRow) :
  priceJson_data res = Some prices -> prices <> [] ->
  perJson_data res = Some pers ->
  exists s,
    fetchRealStockData symbol res = Ok s
    /\ Some (currentPrice s) = option_map price_close (hd_error (rev prices))
    /\ currentPE s = option_map p_e_ratio (hd_error (rev pers))
    /\ historyData s = join_history (rev prices) (rev pers)
    /\ valuation s = deriveBand (currentPrice s) (currentPE s) (rev pers).
Proof.
  intros Hp Hne Hr. unfold fetchRealStockData. rewrite Hp, Hr.
  destruct prices as [|p0 ps]; [congruence|].
  destruct (rev (p0 :: ps)) as [|newest older] eqn:E.
  - apply (f_equal (@List.length _)) in E. rewrite length_rev in E. discriminate.
  - eexists. split; [reflexivity|]. simpl.
    destruct (rev pers); repeat split; reflexivity.
Qed.

(** C2, as amended: the join is by exact date match, each price record
    keeping its date and close, and a price record whose date no P/E record
    carries gets the P/E value 0; a record with a match gets the P/E of the
    first match (the most recent one), or 0 when that P/E is itself zero. *)
Theorem join_by_date (symbol : string) (res : ApiResponse)
  (prices : list PriceRow) (pers : list PERRow) :
  priceJson_data res = Some prices -> prices <> [] ->
  perJson_data res = Some pers ->
  exists s,
    fetchRealStockData symbol res = Ok s
    /\ map date (historyData s) = map price_date (rev prices)
    /\ map close (historyData s) = map price_close (rev prices)
    /\ forall h, In h (historyData s) ->
         ((forall p, In p pers -> per_date p <> date h) -> pe h = int 0)
         /\ (forall p, find (fun p => per_date p =? date h) (rev pers) = Some p ->
               per_date p = date h /\ pe h = p_e_ratio p ||| int 0).
Proof.
  intros Hp Hne Hr.
  destruct (fetchRealStockData_ok symbol res Hp Hne Hr)
    as (s & Hs & _ & _ & Hh & _).
  exists s. split; [exact Hs|]. rewrite Hh. unfold join_history.
  rewrite !map_map. simpl. repeat split; try reflexivity.
  - intro Hmiss. apply in_map_iff in H. destruct H as (d & <- & _). simpl.
    apply joined_pe_miss. intros p Hin. apply Hmiss.
    apply in_rev. exact Hin.
  - apply in_map_iff in H. destruct H as (d & <- & _). simpl in *.
    apply joined_pe_hit in H0. apply H0.
  - apply in_map_iff in H. destruct H as (d & <- & _). simpl in *.
    apply joined_pe_hit in H0. apply H0.
Qed.

Lemma join_by_date_witness :
  exists s,
    fetchRealStockData "2330" (response sample_prices sample_pers_short) = Ok s
    /\ map date (historyData s) = ["2024-01-03"; "2024-01-02"]
    /\ map close (historyData s) = [int 150; int 148]
    /\ map pe (historyData s) = [int 15; int 0].
Proof.
  destruct (join_by_date "2330" (response sample_prices sample_pers_short)
              (prices := sample_prices) (pers := sample_pers_short))
    as (s & Hs & Hd & Hc & _).
  - reflexivity.
  - discriminate.
  - reflexivity.
  - exists s. split; [exact Hs|]. split; [exact Hd|]. split; [exact Hc|].
    vm_compute in Hs. injection Hs as <-. reflexivity.
Defined.

(** C2, the claim as stated fails: 2024-01-02 has a price record and no P/E
    record, and its joined P/E is the number 0, the same value a record
    with a P/E of zero would get; no absent marker is produced. *)
Lemma join_miss_is_zero :
  exists s h,
    fetchRealStockData "2330" (response sample_prices sample_pers_short) = Ok s
    /\ nth_error (historyData s) 1 = Some h
    /\ date h = "2024-01-02"
    /\ existsb (fun p => per_date p =? "2024-01-02") sample_pers_short = false
    /\ pe h = int 0
    /\ (pe h === int 0) = true.
Proof.
  eexists. eexists. split; [reflexivity|].
  split; [reflexivity|]. repeat split.
Qed.

(** ** [fetchRealStockData]: the band *)

Lemma deriveBand_enough (cp : number) (latest : option number)
  (rawPERs : list PERRow) :
  let v := validPEs_of rawPERs in
  let n := List.length v in
  (10 < n)%nat ->
  minPE (deriveBand cp latest rawPERs) = nth (n / 10) v JS.NaN
  /\ maxPE (deriveBand cp latest rawPERs) = nth (n * 9 / 10) v JS.NaN
  /\ eps (deriveBand cp latest rawPERs) = cp / validCurrentPE latest v.
Proof.
  intros v n H. unfold deriveBand. fold v. fold n.
  apply Nat.ltb_lt in H. rewrite H. cbn [minPE maxPE eps].
  rewrite !array_get_rank by lia. fold n.
  rewrite tenth_index, nine_tenths_index. repeat split.
Qed.

Lemma deriveBand_default (cp : number) (latest : option number)
  (rawPERs : list PERRow) :
  (List.length (validPEs_of rawPERs) <= 10)%nat ->
  deriveBand cp latest rawPERs
  = {| minPE := int 10; maxPE := int 20;
       cheapPrice := cp / int 15 * int 10;
       fairPrice := (cp / int 15 * int 10 + cp / int 15 * int 20) / int 2;
       expensivePrice := cp / int 15 * int 20;
       eps := cp / int 15 |}.
Proof.
  intro H. unfold deriveBand.
  assert (E : (10 <? List.length (validPEs_of rawPERs))%nat = false)
    by (apply Nat.ltb_ge; exact H).
  rewrite E. reflexivity.
Qed.

Lemma deriveBand_prices (cp : number) (latest : option number)
  (rawPERs : list PERRow) :
  let b := deriveBand cp latest rawPERs in
  cheapPrice b = eps b * minPE b
  /\ expensivePrice b = eps b * maxPE b
  /\ fairPrice b = (cheapPrice b + expensivePrice b) / int 2.
Proof.
  unfold deriveBand.
  destruct (10 <? List.length (validPEs_of rawPERs))%nat; repeat split.
Qed.

Lemma smallest_first (v : list number) :
  StronglySorted le_true v -> Forall finite v ->
  Forall (le_true (nth 0 v JS.NaN)) v.
Proof.
  intros Hs Hf. destruct Hs as [|x t Hs Hx]; [constructor|].
  inversion Hf; subst. simpl. constructor; [|exact Hx].
  apply le_true_refl; assumption.
Qed.

Lemma between_truthy (hi : Q) (a : number) :
  strictly_between 0 hi a -> JS.truthy a = true.
Proof.
  destruct a as [q| | |]; simpl; try contradiction.
  intros [H _]. rewrite (Qsign_pos H). reflexivity.
Qed.

Lemma validCurrentPE_cases (latest : option number) (v : list number) :
  match latest with
  | Some l =>
      if JS.truthy l then validCurrentPE latest v = l
      else validCurrentPE latest v = nth 0 v JS.NaN
  | None => validCurrentPE latest v = nth 0 v JS.NaN
  end.
Proof.
  unfold validCurrentPE, JS.or_else.
  destruct latest as [l|]; [destruct (JS.truthy l)|];
    try reflexivity; apply (array_get_int v (k := 0)); lia.
Qed.

(** C3, as amended: with more than ten surviving observations (those
    strictly between 0 and 200, sorted ascending), the band's low and high
    P/E are the sorted values at the zero-based indices floor(N/10) and
    floor(9N/10), and the EPS is the current price over the latest P/E when
    that one is present and not zero, and over the smallest surviving
    observation when the latest P/E is missing or zero. *)
Theorem percentile_band (cp : number) (latest : option number)
  (rawPERs : list PERRow) :
  let v := validPEs_of rawPERs in
  let n := List.length v in
  let b := deriveBand cp latest rawPERs in
  (10 < n)%nat ->
  Permutation v (filter plausible (map p_e_ratio rawPERs))
  /\ Forall (strictly_between 0 200) v
  /\ StronglySorted le_true v
  /\ minPE b = nth (n / 10) v JS.NaN
  /\ maxPE b = nth (n * 9 / 10) v JS.NaN
  /\ Forall (le_true (nth 0 v JS.NaN)) v
  /\ match latest with
     | Some l =>
         if JS.truthy l then eps b = cp / l
         else eps b = cp / nth 0 v JS.NaN
     | None => eps b = cp / nth 0 v JS.NaN
     end.
Proof.
  intros v n b H.
  destruct (deriveBand_enough cp latest rawPERs H) as (Hmin & Hmax & Heps).
  split; [apply validPEs_perm|].
  split; [apply validPEs_between|].
  split; [apply validPEs_sorted|].
  split; [exact Hmin|]. split; [exact Hmax|].
  split; [apply smallest_first; [apply validPEs_sorted | apply validPEs_finite]|].
  unfold b. rewrite Heps. fold v.
  pose proof (validCurrentPE_cases latest v) as Hc.
  destruct latest as [l|]; [destruct (JS.truthy l)|]; rewrite Hc; reflexivity.
Qed.

Lemma percentile_band_witness :
  let b := deriveBand (int 150) (Some (int 15)) (rev sample_pers) in
  let c := deriveBand (int 150) None pers_100_to_1 in
  validPEs_of (rev sample_pers)
    = [int 12; int 14; int 15; int 16; int 18; int 20;
       int 22; int 24; int 26; int 28; int 30; int 32]
  /\ minPE b = int 14 /\ maxPE b = int 30 /\ eps b = int 10
  /\ List.length (validPEs_of pers_100_to_1) = 100%nat
  /\ hd_error (validPEs_of pers_100_to_1) = Some (int 1)
  /\ minPE c = int 11 /\ maxPE c = int 91 /\ eps c = int 150.
Proof.
  pose proof (percentile_band (int 150) (Some (int 15)) (rev sample_pers)) as H.
  pose proof (percentile_band (int 150) None pers_100_to_1) as H'.
  cbv zeta in H, H'.
  assert (L : (10 < List.length (validPEs_of (rev sample_pers)))%nat)
    by (vm_compute; lia).
  assert (L' : (10 < List.length (validPEs_of pers_100_to_1))%nat)
    by (vm_compute; lia).
  destruct (H L) as (_ & _ & _ & Hmin & Hmax & _ & Heps).
  destruct (H' L') as (_ & _ & _ & Hmin' & Hmax' & _ & Heps').
  cbv zeta. split; [reflexivity|].
  split; [rewrite Hmin; reflexivity|].
  split; [rewrite Hmax; reflexivity|].
  split; [transitivity (int 150 / int 15); [exact Heps | reflexivity]|].
  split; [vm_compute; reflexivity|]. split; [vm_compute; reflexivity|].
  split; [rewrite Hmin'; vm_compute; reflexivity|].
  split; [rewrite Hmax'; vm_compute; reflexivity|].
  rewrite Heps'. vm_compute. reflexivity.
Defined.

(** C3, the claim as stated fails: FinMind reports a latest P/E of 0 in the
    sample, eleven observations survive the filter, and the EPS is the
    price over the smallest of them (150 / 12), not the price over the
    latest P/E that is present (150 / 0). *)
Lemma latest_zero_is_skipped :
  exists s,
    fetchRealStockData "2330" (response sample_prices sample_pers_zero) = Ok s
    /\ currentPrice s = int 150
    /\ currentPE s = Some (int 0)
    /\ List.length (validPEs_of (rev sample_pers_zero)) = 11%nat
    /\ eps (valuation s) = int 150 / int 12
    /\ int 150 / int 0 = JS.PInf
    /\ eps (valuation s) <> currentPrice s / int 0.
Proof.
  eexists. split; [reflexivity|]. repeat split. discriminate.
Qed.



(** C10: the divisor behind the EPS is never zero.  With more than ten
    surviving observations it is the latest P/E when that is a number other
    than zero, negative ones included, and otherwise the smallest surviving
    observation, which lies strictly between 0 and 200; with ten or fewer
    it is the constant 15.  A positive price over a negative latest P/E
    gives a negative EPS. *)
Theorem eps_divisor_nonzero (cp : number) (latest : option number)
  (rawPERs : list PERRow) :
  let v := validPEs_of rawPERs in
  let b := deriveBand cp latest rawPERs in
  ((10 < List.length v)%nat ->
     eps b = cp / validCurrentPE latest v
     /\ ~ absent_or_zero (validCurrentPE latest v)
     /\ strictly_between 0 200 (nth 0 v JS.NaN)
     /\ match latest with
        | Some l =>
            (absent_or_zero l -> validCurrentPE latest v = nth 0 v JS.NaN)
            /\ (~ absent_or_zero l -> validCurrentPE latest v = l)
        | None => validCurrentPE latest v = nth 0 v JS.NaN
        end
     /\ forall p l, cp = JS.Fin p -> latest = Some (JS.Fin l) ->
          (0 < p)%Q -> (l < 0)%Q ->
          exists e, eps b = JS.Fin e /\ (e < 0)%Q)
  /\ ((List.length v <= 10)%nat ->
        eps b = cp / int 15 /\ ~ absent_or_zero (int 15)).
Proof.
  intros v b. split.
  - intro H.
    destruct (deriveBand_enough cp latest rawPERs H) as (_ & _ & Heps).
    fold v in Heps. fold b in Heps.
    assert (H0 : strictly_between 0 200 (nth 0 v JS.NaN)).
    { pose proof (validPEs_between rawPERs) as Hb. fold v in Hb.
      rewrite Forall_forall in Hb. apply Hb. apply nth_In. lia. }
    assert (Hfalsy : forall a, absent_or_zero a <-> JS.truthy a = false).
    { intros [q| | |]; simpl.
      - symmetry. apply truthy_Fin.
      - split; [contradiction | discriminate].
      - split; [contradiction | discriminate].
      - split; auto. }
    pose proof (validCurrentPE_cases latest v) as Hc.
    split; [exact Heps|]. split; [|split; [exact H0|split]].
    + rewrite Hfalsy. apply not_false_iff_true.
      destruct latest as [l|].
      * destruct (JS.truthy l) eqn:E; rewrite Hc;
          [exact E | apply (between_truthy _ _ H0)].
      * rewrite Hc. apply (between_truthy _ _ H0).
    + destruct latest as [l|]; [|exact Hc]. split; intro Hl.
      * apply Hfalsy in Hl. rewrite Hl in Hc. exact Hc.
      * rewrite Hfalsy in Hl. apply not_false_iff_true in Hl.
        rewrite Hl in Hc. exact Hc.
    + intros p l -> -> Hp Hl. rewrite Heps.
      assert (Hnz : ~ (l == 0)%Q) by lra.
      assert (Ht : JS.truthy (JS.Fin l) = true) by (apply truthy_Fin_true; exact Hnz).
      cbv beta iota in Hc. rewrite Ht in Hc. rewrite Hc.
      rewrite (div_Fin p Hnz). eexists. split; [reflexivity|].
      rewrite Qred_correct. unfold Qdiv.
      setoid_replace (p * / l)%Q with (- (p * / - l))%Q.
      * assert (0 < p * / - l)%Q; [|lra].
        apply Qmult_lt_0_compat; [exact Hp|]. apply Qinv_lt_0_compat. lra.
      * field. exact Hnz.
  - intro H. unfold b. rewrite (deriveBand_default _ _ _ H). cbn [eps].
    split; [reflexivity|]. simpl. discriminate.
Qed.

Lemma eps_divisor_nonzero_witness :
  let v := validPEs_of (rev sample_pers_negative) in
  let b := deriveBand (int 150) (Some (int (-5))) (rev sample_pers_negative) in
  List.length v = 11%nat
  /\ validCurrentPE (Some (int (-5))) v = int (-5)
  /\ eps b = int (-30)
  /\ validCurrentPE (Some (int 0)) v = int 12
  /\ validCurrentPE None v = int 12.
Proof.
  cbv zeta.
  destruct (eps_divisor_nonzero (int 150) (Some (int (-5)))
              (rev sample_pers_negative)) as [H _].
  assert (L : (10 < List.length (validPEs_of (rev sample_pers_negative)))%nat)
    by (vm_compute; lia).
  destruct (H L) as (Heps & _ & _ & _ & _).
  split; [reflexivity|]. split; [reflexivity|].
  split; [rewrite Heps; reflexivity|]. split; reflexivity.
Defined.

(** ** [valuationStatus] *)

Lemma absent_or_zero_falsy (a : number) :
  absent_or_zero a <-> JS.truthy a = false.
Proof.
  destruct a as [q| | |]; simpl.
  - symmetry. apply truthy_Fin.
  - split; [contradiction | discriminate].
  - split; [contradiction | discriminate].
  - split; auto.
Qed.

Lemma present_truthy (a : number) :
  ~ absent_or_zero a <-> JS.truthy a = true.
Proof.
  rewrite absent_or_zero_falsy. apply not_false_iff_true.
Qed.

(** C5, as amended: no snapshot, or a cheap or expensive price that is
    absent or zero, gives NoData; otherwise the status is Cheap when the
    price is at most 0.4 cheap + 0.6 fair, else Expensive when it is at
    least 0.4 fair + 0.6 expensive, else Fair.  For the prices 80, 100 and
    120 the two thresholds are 92 and 112: 92 is Cheap, 112 is Expensive,
    100 and 108 are Fair. *)
Theorem classification (s : StockData) :
  let v := valuation s in
  let cp := currentPrice s in
  valuationStatus None = NoData
  /\ (absent_or_zero (cheapPrice v) \/ absent_or_zero (expensivePrice v) ->
      valuationStatus (Some s) = NoData)
  /\ (~ absent_or_zero (cheapPrice v) -> ~ absent_or_zero (expensivePrice v) ->
      ((cp <=? cheapPrice v * dec 4 10 + fairPrice v * dec 6 10) = true ->
         valuationStatus (Some s) = Cheap)
      /\ ((cp <=? cheapPrice v * dec 4 10 + fairPrice v * dec 6 10) = false ->
          (cp >=? fairPrice v * dec 4 10 + expensivePrice v * dec 6 10) = true ->
         valuationStatus (Some s) = Expensive)
      /\ ((cp <=? cheapPrice v * dec 4 10 + fairPrice v * dec 6 10) = false ->
          (cp >=? fairPrice v * dec 4 10 + expensivePrice v * dec 6 10) = false ->
         valuationStatus (Some s) = Fair))
  /\ (cheapPrice v = int 80 -> fairPrice v = int 100 ->
      expensivePrice v = int 120 ->
      lowerThreshold v = int 92 /\ upperThreshold v = int 112
      /\ (cp = int 92 -> valuationStatus (Some s) = Cheap)
      /\ (cp = int 112 -> valuationStatus (Some s) = Expensive)
      /\ (cp = int 100 -> valuationStatus (Some s) = Fair)
      /\ (cp = int 108 -> valuationStatus (Some s) = Fair)).
Proof.
  intros v cp. split; [reflexivity|]. split; [|split].
  - rewrite !absent_or_zero_falsy. intros [H|H]; unfold valuationStatus;
      fold v; rewrite H; [reflexivity|].
    cbn [negb]. rewrite orb_true_r. reflexivity.
  - rewrite !present_truthy. intros Hc He.
    unfold valuationStatus, lowerThreshold, upperThreshold. fold v. fold cp.
    rewrite Hc, He. cbn [negb orb].
    repeat split; intros H1; try intros H2; rewrite H1; try rewrite H2; reflexivity.
  - intros Hc Hf He.
    unfold valuationStatus, lowerThreshold, upperThreshold. fold v. fold cp.
    rewrite Hc, Hf, He.
    repeat split; intros ->; reflexivity.
Qed.

Lemma classification_witness :
  valuationStatus (Some (snapshot (int 92) example_band)) = Cheap
  /\ valuationStatus (Some (snapshot (int 112) example_band)) = Expensive
  /\ valuationStatus (Some (snapshot (int 100) example_band)) = Fair
  /\ valuationStatus (Some (snapshot (int 108) example_band)) = Fair
  /\ valuationStatus
       (Some (snapshot (int 92) (deriveBand (int 0) None []))) = NoData.
Proof.
  split; [|split; [|split; [|split]]].
  - destruct (classification (snapshot (int 92) example_band))
      as (_ & _ & _ & H).
    destruct H as (_ & _ & H & _); reflexivity || (apply H; reflexivity).
  - destruct (classification (snapshot (int 112) example_band))
      as (_ & _ & _ & H).
    destruct H as (_ & _ & _ & H & _); reflexivity || (apply H; reflexivity).
  - destruct (classification (snapshot (int 100) example_band))
      as (_ & _ & _ & H).
    destruct H as (_ & _ & _ & _ & H & _); reflexivity || (apply H; reflexivity).
  - destruct (classification (snapshot (int 108) example_band))
      as (_ & _ & _ & H).
    destruct H as (_ & _ & _ & _ & _ & H); reflexivity || (apply H; reflexivity).
  - destruct (classification (snapshot (int 92) (deriveBand (int 0) None [])))
      as (_ & H & _).
    apply H. left. vm_compute. reflexivity.
Defined.

(** C5, the claim as stated fails in its example: for the prices 80, 100
    and 120 the upper threshold is 0.4 * 100 + 0.6 * 120 = 112, not 108,
    and a current price of 108 is Fair, not Expensive. *)
Lemma price_108_is_fair :
  lowerThreshold example_band = int 92
  /\ upperThreshold example_band = int 112
  /\ valuationStatus (Some (snapshot (int 108) example_band)) = Fair.
Proof.
  repeat split.
Qed.

(** ** [cursorPosition] *)

Lemma min_max_clamp (x : number) :
  JS.Math_min (JS.Math_max x (int 0)) (int 100) = clamp (int 0) (int 100) x.
Proof.
  destruct x as [q| | |]; try reflexivity.
  unfold clamp, JS.Math_max, JS.Math_min, JS.gt, JS.lt, int, JS.of_Z.
  cbn [JS.compare].
  destruct (q ?= inject_Z 0)%Q eqn:E0; cbn [JS.compare].
  - rewrite <- (Qcompare_antisym q (inject_Z 100)).
    destruct (q ?= inject_Z 100)%Q; reflexivity.
  - reflexivity.
  - rewrite <- (Qcompare_antisym q (inject_Z 100)).
    destruct (q ?= inject_Z 100)%Q; reflexivity.
Qed.

Lemma clamp_bounds (x : number) :
  x <> JS.NaN ->
  le_true (int 0) (clamp (int 0) (int 100) x)
  /\ le_true (clamp (int 0) (int 100) x) (int 100).
Proof.
  intro Hx. unfold clamp, le_true.
  destruct x as [q| | |]; try (split; reflexivity); [|congruence].
  destruct (JS.Fin q <? int 0) eqn:E0; [split; reflexivity|].
  destruct (JS.Fin q >? int 100) eqn:E1; [split; reflexivity|].
  unfold int, JS.of_Z, JS.gt in *.
  apply lt_Fin_false in E0, E1. split; apply le_Fin; assumption.
Qed.

Lemma Qsign_Eq (q : Q) : JS.Qsign q = Eq <-> (q == 0)%Q.
Proof.
  unfold JS.Qsign. symmetry. apply Qeq_alt.
Qed.

Lemma cursorFormula_NaN (s : StockData) (p c e : Q) :
  currentPrice s = JS.Fin p ->
  cheapPrice (valuation s) = JS.Fin c ->
  expensivePrice (valuation s) = JS.Fin e ->
  cursorFormula s = JS.NaN
  <-> (e * (12 # 10) - c * (8 # 10) == 0 /\ p - c * (8 # 10) == 0)%Q.
Proof.
  intros Hp Hc He. unfold cursorFormula. rewrite Hp, Hc, He.
  unfold dec. cbn [JS.mul]. rewrite !sub_Fin. cbn [JS.div].
  destruct (JS.Qsign (Qred (Qred (e * (12 # 10)) - Qred (c * (8 # 10)))))
    eqn:Er.
  - apply Qsign_Eq in Er. rewrite !Qred_correct in Er.
    destruct (JS.Qsign (Qred (p - Qred (c * (8 # 10))))) eqn:En.
    + apply Qsign_Eq in En. rewrite !Qred_correct in En.
      split; [intros _; split; assumption | reflexivity].
    + split; [discriminate|]. intros [_ H].
      assert (En' : JS.Qsign (Qred (p - Qred (c * (8 # 10)))) = Eq)
        by (apply Qsign_Eq; rewrite !Qred_correct; exact H).
      congruence.
    + split; [discriminate|]. intros [_ H].
      assert (En' : JS.Qsign (Qred (p - Qred (c * (8 # 10)))) = Eq)
        by (apply Qsign_Eq; rewrite !Qred_correct; exact H).
      congruence.
  - split; [discriminate|]. intros [H _].
    assert (Er' : JS.Qsign (Qred (Qred (e * (12 # 10)) - Qred (c * (8 # 10)))) = Eq)
      by (apply Qsign_Eq; rewrite !Qred_correct; exact H).
    congruence.
  - split; [discriminate|]. intros [H _].
    assert (Er' : JS.Qsign (Qred (Qred (e * (12 # 10)) - Qred (c * (8 # 10)))) = Eq)
      by (apply Qsign_Eq; rewrite !Qred_correct; exact H).
    congruence.
Qed.

Lemma cursorPosition_cases (s : StockData) :
  (absent_or_zero (cheapPrice (valuation s)) ->
     cursorPosition (Some s) = int 50)
  /\ (~ absent_or_zero (cheapPrice (valuation s)) ->
     cursorPosition (Some s) = clamp (int 0) (int 100) (cursorFormula s)).
Proof.
  unfold cursorPosition. split; intro H.
  - apply absent_or_zero_falsy in H. rewrite H. reflexivity.
  - apply present_truthy in H. rewrite H. cbn [negb]. apply min_max_clamp.
Qed.

Lemma fifty_bounds : le_true (int 0) (int 50) /\ le_true (int 50) (int 100).
Proof.
  split; reflexivity.
Qed.

(** The cursor of a band whose prices are a common factor times two
    positive, ordered P/E values. *)
Lemma cursor_bounds_scaled (s : StockData) (p c e E m M : Q) :
  currentPrice s = JS.Fin p ->
  cheapPrice (valuation s) = JS.Fin c ->
  expensivePrice (valuation s) = JS.Fin e ->
  (c == E * m)%Q -> (e == E * M)%Q -> (0 < m)%Q -> (m <= M)%Q ->
  le_true (int 0) (cursorPosition (Some s))
  /\ le_true (cursorPosition (Some s)) (int 100).
Proof.
  intros Hp Hc He Ec Ee Hm HM.
  destruct (cursorPosition_cases s) as [Hz Hnz].
  destruct (Qeq_dec c 0) as [Z|NZ].
  - rewrite Hz; [apply fifty_bounds|]. rewrite Hc. exact Z.
  - rewrite Hnz by (rewrite Hc; exact NZ).
    apply clamp_bounds. intro Hn.
    apply (cursorFormula_NaN s Hp Hc He) in Hn. destruct Hn as [Hr _].
    apply NZ. rewrite Ec in *. rewrite Ee in Hr.
    assert (HE : (E * (M * (12 # 10) - m * (8 # 10)) == 0)%Q) by (rewrite <- Hr; ring).
    destruct (Qmult_integral _ _ HE) as [H0|H0]; [rewrite H0; ring|].
    exfalso. lra.
Qed.

(** C6: for a snapshot with a derived band, that is one whose cheap and
    expensive prices are a non-zero EPS times a low and a high P/E with
    0 < low <= high, the cursor position is the position formula clamped to
    the interval from 0 to 100, and it lies in that interval however far
    the current price is from the band. *)
Theorem cursor_position (s : StockData) (p E m M : Q) :
  let v := valuation s in
  currentPrice s = JS.Fin p -> eps v = JS.Fin E ->
  minPE v = JS.Fin m -> maxPE v = JS.Fin M ->
  cheapPrice v = eps v * minPE v ->
  expensivePrice v = eps v * maxPE v ->
  ~ (E == 0)%Q -> (0 < m)%Q -> (m <= M)%Q ->
  cursorPosition (Some s)
  = clamp (int 0) (int 100)
      ((currentPrice s - cheapPrice v * dec 8 10)
       / (expensivePrice v * dec 12 10 - cheapPrice v * dec 8 10)
       * int 100)
  /\ le_true (int 0) (cursorPosition (Some s))
  /\ le_true (cursorPosition (Some s)) (int 100).
Proof.
  intros v Hp HE Hm HM Hc He NE Lm LM.
  rewrite HE, Hm in Hc. rewrite HE, HM in He. cbn [JS.mul] in Hc, He.
  split.
  - apply cursorPosition_cases. fold v. rewrite Hc. cbn [absent_or_zero].
    rewrite Qred_correct. intro Z.
    destruct (Qmult_integral _ _ Z) as [H0|H0]; [exact (NE H0) | lra].
  - apply (cursor_bounds_scaled s (p := p) (E := E) (m := m) (M := M) Hp Hc He);
      try assumption; apply Qred_correct.
Qed.

Lemma cursor_position_witness :
  cursorPosition (Some (snapshot (int 100) example_band)) = int 45
  /\ cursorPosition (Some (snapshot (int 100000) example_band)) = int 100
  /\ cursorPosition (Some (snapshot (int (-100000)) example_band)) = int 0.
Proof.
  assert (N : ~ (10 == 0)%Q) by discriminate.
  assert (L1 : (0 < 8)%Q) by reflexivity.
  assert (L2 : (8 <= 12)%Q) by discriminate.
  split; [|split].
  - destruct (@cursor_position (snapshot (int 100) example_band) 100 10 8 12
                eq_refl eq_refl eq_refl eq_refl eq_refl eq_refl N L1 L2)
      as [H _].
    rewrite H. reflexivity.
  - destruct (@cursor_position (snapshot (int 100000) example_band)
                100000 10 8 12
                eq_refl eq_refl eq_refl eq_refl eq_refl eq_refl N L1 L2)
      as [H _].
    rewrite H. reflexivity.
  - destruct (@cursor_position (snapshot (int (-100000)) example_band)
                (-100000) 10 8 12
                eq_refl eq_refl eq_refl eq_refl eq_refl eq_refl N L1 L2)
      as [H _].
    rewrite H. reflexivity.
Defined.

(** Outside the derived bands the guard of [cursorPosition] decides: on a
    trading day that closes at 0 the band has a cheap price of 0 and the
    cursor is 50, where the position formula has no value (0 / 0); a
    snapshot with cheap price 0, expensive price 100 and price 30 has the
    cursor at 50, where the clamped formula gives 25. *)
Lemma zero_cheap_price_cursor :
  (exists s,
     fetchRealStockData "2330" (response sample_prices_zero sample_pers_short)
       = Ok s
     /\ cheapPrice (valuation s) = int 0
     /\ cursorPosition (Some s) = int 50
     /\ clamp (int 0) (int 100) (cursorFormula s) = JS.NaN)
  /\ cursorPosition (Some (snapshot (int 30) zero_cheap_band)) = int 50
  /\ clamp (int 0) (int 100) (cursorFormula (snapshot (int 30) zero_cheap_band))
     = int 25.
Proof.
  split; [|split; reflexivity].
  eexists. split; [reflexivity|]. repeat split.
Qed.

(** ** The band invariant on the live path *)

Lemma rank_indices (n : nat) :
  (0 < n)%nat -> (n / 10 <= n * 9 / 10)%nat /\ (n * 9 / 10 < n)%nat.
Proof.
  intro H. split.
  - apply Nat.Div0.div_le_mono. lia.
  - apply Nat.Div0.div_lt_upper_bound. lia.
Qed.

Lemma deriveBand_ok (cp : number) (latest : option number)
  (rawPERs : list PERRow) :
  band_ok (deriveBand cp latest rawPERs).
Proof.
  unfold band_ok. split; [|apply deriveBand_prices].
  destruct (Nat.lt_ge_cases 10 (List.length (validPEs_of rawPERs))) as [H|H].
  - destruct (deriveBand_enough cp latest rawPERs H) as (-> & -> & _).
    destruct (rank_indices (n := List.length (validPEs_of rawPERs))) as [H1 H2];
      [lia|].
    apply sorted_nth; try assumption.
    + apply validPEs_sorted.
    + apply validPEs_finite.
  - rewrite (deriveBand_default _ _ _ H). reflexivity.
Qed.

Lemma fetchRealStockData_band (symbol : string) (res : ApiResponse)
  (s : StockData) :
  fetchRealStockData symbol res = Ok s ->
  exists latest rawPERs,
    valuation s = deriveBand (currentPrice s) latest rawPERs.
Proof.
  unfold fetchRealStockData.
  destruct (priceJson_data res) as [[|p0 ps]|]; try discriminate.
  destruct (perJson_data res) as [pers|]; try discriminate.
  destruct (rev (p0 :: ps)) as [|newest older]; try discriminate.
  intro H. injection H as <-. simpl. eexists. eexists. reflexivity.
Qed.

(** ** The generator *)

Lemma round2_ge (k : Z) (q : Q) :
  (0 <= k)%Z -> (inject_Z k / 100 <= q)%Q -> (inject_Z k / 100 <= JS.round2 q)%Q.
Proof.
  intros Hk Hq.
  assert (H0 : (0 <= inject_Z k)%Q)
    by (change 0%Q with (inject_Z 0); rewrite <- Zle_Qle; exact Hk).
  assert (Hpos : (0 <= q)%Q).
  { apply Qle_trans with (inject_Z k / 100)%Q; [|exact Hq].
    apply Qle_shift_div_l; [reflexivity|]. lra. }
  unfold JS.round2.
  destruct (Qle_bool (inject_Z (10 ^ 21)) (Qabs q)).
  - rewrite Qred_correct. exact Hq.
  - rewrite Qred_correct.
    assert (Hn : (k <= Qfloor (Qabs q * 100 + (1 # 2)))%Z).
    { rewrite <- (Qfloor_Z k). apply Qfloor_resp_le.
      rewrite (Qabs_pos q Hpos).
      apply Qle_trans with (q * 100)%Q; [|lra].
      setoid_replace (inject_Z k) with (inject_Z k / 100 * 100)%Q by field.
      apply Qmult_le_compat_r; [exact Hq | discriminate]. }
    destruct (JS.Qsign q) eqn:Es.
    + apply Qle_shift_div_l; [reflexivity|].
      setoid_replace (inject_Z k / 100 * 100)%Q with (inject_Z k) by field.
      rewrite <- Zle_Qle. exact Hn.
    + unfold JS.Qsign in Es. apply Qlt_alt in Es. lra.
    + apply Qle_shift_div_l; [reflexivity|].
      setoid_replace (inject_Z k / 100 * 100)%Q with (inject_Z k) by field.
      rewrite <- Zle_Qle. exact Hn.
Qed.

Lemma generateStep_ok (env : Env) (days i : nat) (price : number) :
  random_in_range env -> finite price ->
  at_least 10 (fst (generateStep env days i price))
  /\ mock_item_ok (snd (generateStep env days i price)).
Proof.
  intros Hr Hp. destruct price as [p| | |]; try contradiction.
  unfold generateStep, Math_random, Math_sin, dec, int, JS.of_nat, JS.of_Z.
  cbn [JS.mul JS.add]. rewrite sub_Fin. cbn [JS.mul JS.add].
  set (x := Qred (p + _)).
  assert (Hy : exists y,
             (if JS.Fin x <? JS.Fin (inject_Z 10) then JS.Fin (inject_Z 10)
              else JS.Fin x) = JS.Fin y /\ (10 <= y)%Q).
  { destruct (JS.Fin x <? JS.Fin (inject_Z 10)) eqn:E.
    - exists (inject_Z 10). split; [reflexivity|]. apply Qle_refl.
    - exists x. split; [reflexivity|]. apply lt_Fin_false in E. exact E. }
  destruct Hy as (y & -> & Hy). cbn [fst snd]. split; [exact Hy|].
  unfold mock_item_ok. cbn [close pe JS.toFixed2]. split.
  - cbn [at_least]. apply Qle_trans with (inject_Z 1000 / 100)%Q; [vm_compute; discriminate|].
    apply round2_ge; [lia|].
    apply Qle_trans with 10%Q; [vm_compute; discriminate | exact Hy].
  - destruct (Hr (2 * i + 1)%nat) as [R0 R1].
    set (r := random env (2 * i + 1)) in *.
    assert (Hd : (20 <= Qred (inject_Z 20 + Qred (r * inject_Z 5))
                  /\ Qred (inject_Z 20 + Qred (r * inject_Z 5)) < 25)%Q).
    { change (inject_Z 20) with 20%Q. change (inject_Z 5) with 5%Q.
      split; do 2 rewrite Qred_correct; lra. }
    rewrite div_Fin by lra. cbn [JS.toFixed2 above].
    apply Qlt_le_trans with (inject_Z 40 / 100)%Q; [reflexivity|].
    apply round2_ge; [lia|]. rewrite Qred_correct.
    apply Qle_shift_div_l; [lra|].
    apply Qle_trans with 10%Q; [|exact Hy].
    setoid_replace (inject_Z 40 / 100)%Q with (4 # 10)%Q by reflexivity.
    lra.
Qed.

Lemma at_least_finite (lo : Q) (a : number) : at_least lo a -> finite a.
Proof.
  destruct a; simpl; auto.
Qed.

Lemma above_finite (lo : Q) (a : number) : above lo a -> finite a.
Proof.
  destruct a; simpl; auto.
Qed.

Lemma generateLoop_ok (env : Env) (days n : nat) :
  random_in_range env ->
  forall (i : nat) (price : number) (data : list HistoryItem),
    finite price -> Forall mock_item_ok data ->
    Forall mock_item_ok (generateLoop env days n i price data).
Proof.
  intro Hr. induction n as [|n IH]; intros i price data Hp Hd;
    cbn [generateLoop].
  - exact Hd.
  - destruct (@generateStep_ok env days i price Hr Hp) as [H1 H2].
    destruct (generateStep env days i price) as [price' item].
    cbn [fst snd] in H1, H2. apply IH.
    + apply at_least_finite with 10%Q. exact H1.
    + apply Forall_app. split; [exact Hd|]. constructor; [exact H2|constructor].
Qed.

Lemma generateLoop_length (env : Env) (days n : nat) :
  forall (i : nat) (price : number) (data : list HistoryItem),
    List.length (generateLoop env days n i price data)
    = (List.length data + n)%nat.
Proof.
  induction n as [|n IH]; intros i price data; cbn [generateLoop].
  - lia.
  - destruct (generateStep env days i price) as [price' item].
    rewrite IH, length_app. simpl. lia.
Qed.

Lemma generatePrices_length (env : Env) (seed : Z) (days : nat) :
  List.length (generatePrices env seed days) = days.
Proof.
  unfold generatePrices. rewrite length_rev, generateLoop_length. reflexivity.
Qed.

Lemma generatePrices_ok (env : Env) (seed : Z) (days : nat) :
  random_in_range env ->
  Forall mock_item_ok (generatePrices env seed days).
Proof.
  intro Hr. unfold generatePrices. apply Forall_rev.
  apply generateLoop_ok; [exact Hr | exact I | constructor].
Qed.

Lemma nth_Forall (P : number -> Prop) (l : list number) (i : nat) :
  Forall P l -> (i < List.length l)%nat -> P (nth i l JS.NaN).
Proof.
  intros H Hi. rewrite Forall_forall in H. apply H. apply nth_In. exact Hi.
Qed.

(** What the generator's snapshot is made of. *)
Lemma getMockData_ok (env : Env) (symbol : string) :
  random_in_range env ->
  exists s newest older,
    getMockData env symbol = Ok s
    /\ isReal s = false
    /\ historyData s = generatePrices env (seed_of symbol) mockDays
    /\ historyData s = newest :: older
    /\ currentPrice s = close newest
    /\ eps (valuation s) = close newest / pe newest
    /\ mock_item_ok newest
    /\ above 0 (minPE (valuation s))
    /\ above 0 (maxPE (valuation s))
    /\ mock_band_ok (valuation s).
Proof.
  intro Hr. unfold getMockData. cbv zeta.
  pose proof (generatePrices_length env (seed_of symbol) mockDays) as Hlen.
  pose proof (generatePrices_ok (seed_of symbol) mockDays Hr) as Hok.
  destruct (generatePrices env (seed_of symbol) mockDays) as [|newest older]
    eqn:E; [discriminate|].
  set (hist := newest :: older) in *.
  set (peValues := JS.sort ascending (map pe hist)).
  assert (Hpos : Forall (above 0) peValues).
  { apply sort_Forall. apply Forall_forall. intros a Ha.
    apply in_map_iff in Ha. destruct Ha as (h & <- & Hh).
    rewrite Forall_forall in Hok. apply (Hok h Hh). }
  assert (Hfin : Forall finite (map pe hist)).
  { apply Forall_forall. intros a Ha.
    apply in_map_iff in Ha. destruct Ha as (h & <- & Hh).
    rewrite Forall_forall in Hok. apply above_finite with 0%Q. apply (Hok h Hh). }
  assert (Hn : List.length peValues = mockDays).
  { unfold peValues. rewrite sort_length, length_map. exact Hlen. }
  assert (Hnewest : mock_item_ok newest) by (inversion Hok; assumption).
  destruct (rank_indices (n := List.length peValues)) as [I1 I2];
    [rewrite Hn; unfold mockDays; lia|].
  eexists. exists newest, older.
  split; [reflexivity|]. cbn [isReal historyData currentPrice valuation eps
    minPE maxPE].
  rewrite !array_get_rank by lia. rewrite tenth_index, nine_tenths_index.
  split; [reflexivity|]. split; [reflexivity|]. split; [reflexivity|].
  split; [reflexivity|]. split; [reflexivity|]. split; [exact Hnewest|].
  assert (Hmin : above 0 (nth (List.length peValues / 10) peValues JS.NaN))
    by (apply nth_Forall; [exact Hpos | lia]).
  assert (Hmax : above 0 (nth (List.length peValues * 9 / 10) peValues JS.NaN))
    by (apply nth_Forall; [exact Hpos | lia]).
  split; [exact Hmin|]. split; [exact Hmax|].
  unfold mock_band_ok. cbn [minPE maxPE cheapPrice expensivePrice fairPrice eps].
  split; [|split; [reflexivity|split; reflexivity]].
  apply sorted_nth; try assumption.
  - apply sort_sorted. exact Hfin.
  - apply sort_Forall. exact Hfin.
Qed.

(** ** Every band a search produces *)

Lemma fetchRealStockData_band_ok (symbol : string) (res : ApiResponse)
  (s : StockData) :
  fetchRealStockData symbol res = Ok s -> band_ok (valuation s).
Proof.
  intro H.
  destruct (@fetchRealStockData_band symbol res s H) as (latest & rawPERs & Hv).
  rewrite Hv. apply deriveBand_ok.
Qed.

(** The two multiples of every derived band are positive rationals. *)
Lemma deriveBand_multiples (cp : number) (latest : option number)
  (rawPERs : list PERRow) :
  let b := deriveBand cp latest rawPERs in
  exists m M, minPE b = JS.Fin m /\ maxPE b = JS.Fin M
              /\ (0 < m)%Q /\ (0 < M)%Q.
Proof.
  intro b.
  destruct (Nat.lt_ge_cases 10 (List.length (validPEs_of rawPERs))) as [H|H].
  - destruct (deriveBand_enough cp latest rawPERs H) as (Hmin & Hmax & _).
    fold b in Hmin, Hmax.
    destruct (rank_indices (n := List.length (validPEs_of rawPERs))) as [I1 I2];
      [lia|].
    pose proof (nth_Forall (validPEs_between rawPERs)
                  (i := List.length (validPEs_of rawPERs) / 10)) as B1.
    pose proof (nth_Forall (validPEs_between rawPERs)
                  (i := List.length (validPEs_of rawPERs) * 9 / 10)) as B2.
    rewrite <- Hmin in B1. rewrite <- Hmax in B2.
    destruct (minPE b) as [m| | |]; try (exfalso; apply B1; lia).
    destruct (maxPE b) as [M| | |]; try (exfalso; apply B2; lia).
    exists m, M. cbn [strictly_between] in B1, B2.
    split; [reflexivity|]. split; [reflexivity|].
    split; [apply B1 | apply B2]; lia.
  - unfold b. rewrite (deriveBand_default _ _ _ H). cbn [minPE maxPE].
    exists 10%Q, 20%Q. split; [reflexivity|]. split; [reflexivity|].
    split; reflexivity.
Qed.

(** The EPS of every derived band is the price over a divisor that is
    neither zero nor [NaN]. *)
Lemma deriveBand_divisor (cp : number) (latest : option number)
  (rawPERs : list PERRow) :
  exists d, eps (deriveBand cp latest rawPERs) = cp / d /\ JS.truthy d = true.
Proof.
  destruct (Nat.lt_ge_cases 10 (List.length (validPEs_of rawPERs))) as [H|H].
  - destruct (deriveBand_enough cp latest rawPERs H) as (_ & _ & He).
    exists (validCurrentPE latest (validPEs_of rawPERs)).
    split; [exact He|].
    pose proof (validCurrentPE_cases latest (validPEs_of rawPERs)) as Hc.
    assert (T0 : JS.truthy (nth 0 (validPEs_of rawPERs) JS.NaN) = true).
    { apply between_truthy with 200%Q.
      apply (nth_Forall (validPEs_between rawPERs)). lia. }
    destruct latest as [l|]; [|rewrite Hc; exact T0].
    destruct (JS.truthy l) eqn:T; rewrite Hc; [exact T | exact T0].
  - rewrite (deriveBand_default _ _ _ H). cbn [eps].
    exists (int 15). split; reflexivity.
Qed.

Lemma fetchRealStockData_divisor (symbol : string) (res : ApiResponse)
  (s : StockData) :
  fetchRealStockData symbol res = Ok s ->
  exists d, eps (valuation s) = currentPrice s / d /\ JS.truthy d = true.
Proof.
  intro H.
  destruct (@fetchRealStockData_band symbol res s H) as (latest & rawPERs & Hv).
  rewrite Hv. apply deriveBand_divisor.
Qed.

Lemma fetchRealStockData_positive (symbol : string) (res : ApiResponse)
  (s : StockData) :
  fetchRealStockData symbol res = Ok s ->
  above 0 (minPE (valuation s)) /\ above 0 (maxPE (valuation s)).
Proof.
  intro H.
  destruct (@fetchRealStockData_band symbol res s H) as (latest & rawPERs & Hv).
  rewrite Hv.
  destruct (deriveBand_multiples (currentPrice s) latest rawPERs)
    as (m & M & Hm & HM & Pm & PM).
  rewrite Hm, HM. split; assumption.
Qed.

(** C7, as amended: a search for a symbol always ends with a snapshot whose
    band has positive P/E bounds, low P/E <= high P/E, cheap price =
    EPS * low P/E and expensive price = EPS * high P/E.  The fair price of
    a band from the FinMind history or from the fixed fallback is
    (cheap price + expensive price) / 2, and its EPS is the price over a
    divisor that is neither zero nor [NaN]; the fair price of the
    generator's band is EPS * (low P/E + high P/E) / 2, and its EPS is
    positive. *)
Theorem band_invariants (env : Env) (net : string -> option ApiResponse)
  (symbol : string) (st : AppState) :
  random_in_range env -> symbol <> "" ->
  (exists s,
     stockData (handleSearch env net (Some symbol) st) = Some s
     /\ above 0 (minPE (valuation s)) /\ above 0 (maxPE (valuation s))
     /\ (isReal s = true /\ band_ok (valuation s)
         \/ isReal s = false /\ mock_band_ok (valuation s)))
  /\ (forall res s,
        fetchRealStockData symbol res = Ok s ->
        isReal s = true
        /\ above 0 (minPE (valuation s)) /\ above 0 (maxPE (valuation s))
        /\ band_ok (valuation s)
        /\ exists d, eps (valuation s) = currentPrice s / d
                     /\ JS.truthy d = true)
  /\ (exists s,
        getMockData env symbol = Ok s
        /\ isReal s = false
        /\ above 0 (minPE (valuation s)) /\ above 0 (maxPE (valuation s))
        /\ mock_band_ok (valuation s)
        /\ above 0 (eps (valuation s))).
Proof.
  intros Hr Hs.
  assert (Hlive : forall res s,
             fetchRealStockData symbol res = Ok s ->
             isReal s = true
             /\ above 0 (minPE (valuation s)) /\ above 0 (maxPE (valuation s))
             /\ band_ok (valuation s)
             /\ exists d, eps (valuation s) = currentPrice s / d
                          /\ JS.truthy d = true).
  { intros res s H.
    destruct (fetchRealStockData_positive _ _ H) as [Pm PM].
    split; [|split; [exact Pm|split; [exact PM|split]]].
    - unfold fetchRealStockData in H.
      destruct (priceJson_data res) as [[|p0 ps]|]; try discriminate H.
      destruct (perJson_data res) as [pers|]; try discriminate H.
      destruct (rev (p0 :: ps)) as [|n0 o0]; try discriminate H.
      injection H as <-. reflexivity.
    - apply (@fetchRealStockData_band_ok symbol res s H).
    - apply (@fetchRealStockData_divisor symbol res s H). }
  destruct (@getMockData_ok env symbol Hr)
    as (m & newest & older & Hm & Hreal & _ & _ & _ & Heps & Hitem & Pmin
        & Pmax & Hband).
  assert (Peps : above 0 (eps (valuation m))).
  { rewrite Heps. destruct Hitem as [Hc Hq].
    destruct (close newest) as [c| | |]; try contradiction.
    destruct (pe newest) as [q| | |]; try contradiction.
    cbn [at_least above] in Hc, Hq. rewrite div_Fin by lra.
    cbn [above]. rewrite Qred_correct. apply Qlt_shift_div_l; lra. }
  split; [|split; [exact Hlive|]].
  - unfold handleSearch.
    apply String.eqb_neq in Hs. rewrite Hs. cbv iota. rewrite Hs.
    destruct (net symbol) as [res|].
    + destruct (fetchRealStockData symbol res) as [s|msg] eqn:E.
      * exists s. split; [reflexivity|].
        destruct (Hlive res s E) as (R & Pm & PM & B & _).
        split; [exact Pm|]. split; [exact PM|]. left. split; assumption.
      * rewrite Hm. exists m. split; [reflexivity|].
        split; [exact Pmin|]. split; [exact Pmax|]. right. split; assumption.
    + rewrite Hm. exists m. split; [reflexivity|].
      split; [exact Pmin|]. split; [exact Pmax|]. right. split; assumption.
  - exists m. split; [exact Hm|]. split; [exact Hreal|].
    split; [exact Pmin|]. split; [exact Pmax|]. split; [exact Hband | exact Peps].
Qed.

Lemma band_invariants_witness :
  (exists s,
     stockData (handleSearch (sample_env 0 1) offline (Some "2330") initialState)
       = Some s
     /\ above 0 (minPE (valuation s)))
  /\ (exists s,
        stockData (handleSearch (sample_env 0 1) online (Some "2330") initialState)
          = Some s
        /\ isReal s = true /\ band_ok (valuation s)).
Proof.
  assert (Hr : forall start tick, random_in_range (sample_env start tick)).
  { intros start tick k. simpl. split; [discriminate | reflexivity]. }
  split.
  - destruct (@band_invariants (sample_env 0 1) offline "2330" initialState
                (Hr 0%Z 1%Z))
      as ((s & Hs & Hb & _) & _ & _); [discriminate|].
    exists s. split; [exact Hs | exact Hb].
  - destruct (@band_invariants (sample_env 0 1) online "2330" initialState
                (Hr 0%Z 1%Z))
      as ((s & Hs & _) & Hlive & _); [discriminate|].
    exists s. split; [exact Hs|].
    assert (E : fetchRealStockData "2330" (response sample_prices sample_pers)
                = Ok s).
    { vm_compute in Hs. injection Hs as <-. reflexivity. }
    destruct (Hlive _ _ E) as (R & _ & _ & B & _). split; assumption.
Defined.

(** C7, the claim as stated fails on the generator's path: its fair price
    is EPS * (low P/E + high P/E) / 2, which the doubles of the code do not
    always round to the same number as (cheap price + expensive price) / 2.
    For a newest record with the close 500 and the P/E 20.25 and the ranked
    P/Es 20 and 21.5 the fair price is 512.3456790123456 and the midpoint of
    the cheap and the expensive price is 512.3456790123457. *)
Lemma mock_fair_price_off_midpoint :
  F64.fairPrice (F64.mockValuation 500 20.25 20 21.5)
    = 512.3456790123456%float
  /\ ((F64.cheapPrice (F64.mockValuation 500 20.25 20 21.5)
       + F64.expensivePrice (F64.mockValuation 500 20.25 20 21.5)) / 2)%float
     = 512.3456790123457%float
  /\ PrimFloat.eqb
       (F64.fairPrice (F64.mockValuation 500 20.25 20 21.5))
       ((F64.cheapPrice (F64.mockValuation 500 20.25 20 21.5)
         + F64.expensivePrice (F64.mockValuation 500 20.25 20 21.5)) / 2)
     = false.
Proof.
  vm_compute. split; [reflexivity|]. split; reflexivity.
Qed.

(** ** The generator: what depends on what *)

Lemma seed_of_sum (symbol : string) :
  seed_of symbol = charCodeSum symbol /\ (0 <= seed_of symbol)%Z.
Proof.
  unfold seed_of, charCodeSum.
  assert (E : forall l a,
             fold_left (fun acc char => (acc + charCode char)%Z) l a
             = (a + fold_right (fun char acc => (charCode char + acc)%Z) 0%Z l)%Z
             /\ (0 <= fold_right (fun char acc => (charCode char + acc)%Z) 0%Z l)%Z).
  { induction l as [|c t IH]; intro a; cbn [fold_left fold_right].
    - split; lia.
    - destruct (IH (a + charCode c)%Z) as [-> Hpos].
      assert (0 <= charCode c)%Z by (unfold charCode; lia).
      split; lia. }
  destruct (E (list_ascii_of_string symbol) 0%Z) as [-> Hpos]. split; [lia | exact Hpos].
Qed.

Lemma basePrice_range (symbol : string) :
  basePrice (seed_of symbol) = int (500 + seed_of symbol mod 200)
  /\ (500 <= 500 + seed_of symbol mod 200 < 700)%Z.
Proof.
  destruct (seed_of_sum symbol) as [_ Hpos].
  unfold basePrice, JS.rem. rewrite Z.rem_mod_nonneg by lia.
  split; [reflexivity|].
  pose proof (Z.mod_pos_bound (seed_of symbol) 200). lia.
Qed.

Lemma Math_sin_ext (env1 env2 : Env) (a : number) :
  (forall q, sin env1 q = sin env2 q) -> Math_sin env1 a = Math_sin env2 a.
Proof.
  intro H. destruct a; simpl; try reflexivity. rewrite H. reflexivity.
Qed.

(** The price carried to the next iteration, the close and the P/E of a
    record depend on the sine and on the two random draws of the iteration
    only. *)
Lemma generateStep_values (env1 env2 : Env) (days1 days2 i : nat)
  (price : number) :
  (forall q, sin env1 q = sin env2 q) ->
  random env1 (2 * i) = random env2 (2 * i) ->
  random env1 (2 * i + 1) = random env2 (2 * i + 1) ->
  fst (generateStep env1 days1 i price) = fst (generateStep env2 days2 i price)
  /\ close (snd (generateStep env1 days1 i price))
     = close (snd (generateStep env2 days2 i price))
  /\ pe (snd (generateStep env1 days1 i price))
     = pe (snd (generateStep env2 days2 i price)).
Proof.
  intros Hs Hr0 Hr1. unfold generateStep, Math_random. cbn [fst snd close pe].
  rewrite (Math_sin_ext env1 env2 _ Hs), Hr0, Hr1. repeat split.
Qed.

Lemma generateStep_date (env : Env) (days i : nat) (price : number) :
  date (snd (generateStep env days i price)) = mockDate env days i.
Proof.
  reflexivity.
Qed.

Lemma generateLoop_values (env1 env2 : Env) (days1 days2 n : nat) :
  (forall q, sin env1 q = sin env2 q) ->
  forall (i : nat) (price : number) (data1 data2 : list HistoryItem),
    (forall k, (k < 2 * (i + n))%nat -> random env1 k = random env2 k) ->
    map close data1 = map close data2 -> map pe data1 = map pe data2 ->
    map close (generateLoop env1 days1 n i price data1)
    = map close (generateLoop env2 days2 n i price data2)
    /\ map pe (generateLoop env1 days1 n i price data1)
       = map pe (generateLoop env2 days2 n i price data2).
Proof.
  intros Hs. induction n as [|n IH]; intros i price data1 data2 Hr Hc Hp;
    cbn [generateLoop].
  - split; assumption.
  - destruct (@generateStep_values env1 env2 days1 days2 i price Hs)
      as (H1 & H2 & H3); try (apply Hr; lia).
    destruct (generateStep env1 days1 i price) as [p1 item1].
    destruct (generateStep env2 days2 i price) as [p2 item2].
    cbn [fst snd] in H1, H2, H3. subst p2. apply IH.
    + intros k Hk. apply Hr. lia.
    + rewrite !map_app, Hc. cbn [map]. rewrite H2. reflexivity.
    + rewrite !map_app, Hp. cbn [map]. rewrite H3. reflexivity.
Qed.

Lemma generateLoop_dates (env : Env) (days n : nat) :
  forall (i : nat) (price : number) (data : list HistoryItem),
    map date (generateLoop env days n i price data)
    = (map date data ++ map (mockDate env days) (seq i n))%list.
Proof.
  induction n as [|n IH]; intros i price data; cbn [generateLoop seq map].
  - rewrite app_nil_r. reflexivity.
  - pose proof (generateStep_date env days i price) as Hd.
    destruct (generateStep env days i price) as [price' item].
    cbn [snd] in Hd. rewrite IH, map_app, <- app_assoc. cbn [map app].
    rewrite Hd. reflexivity.
Qed.

Lemma getMockData_history (env : Env) (symbol : string) :
  exists s,
    getMockData env symbol = Ok s
    /\ historyData s = generatePrices env (seed_of symbol) mockDays.
Proof.
  unfold getMockData. cbv zeta.
  pose proof (generatePrices_length env (seed_of symbol) mockDays) as Hlen.
  destruct (generatePrices env (seed_of symbol) mockDays) as [|newest older];
    [discriminate Hlen|].
  eexists. split; reflexivity.
Qed.

Lemma mockDate_day (env : Env) (days i : nat) :
  mockDate env days i
  = dateOfDay (now env i / msPerDay - (Z.of_nat days - Z.of_nat i)).
Proof.
  unfold mockDate, isoDate. f_equal.
  replace (now env i - (Z.of_nat days - Z.of_nat i) * msPerDay)%Z
    with (now env i + - (Z.of_nat days - Z.of_nat i) * msPerDay)%Z by ring.
  rewrite Z.div_add by discriminate. ring.
Qed.

Lemma generatePrices_dates (env : Env) (seed : Z) (days : nat) :
  map date (generatePrices env seed days)
  = rev (map (fun i => dateOfDay (now env i / msPerDay
                                  - (Z.of_nat days - Z.of_nat i)))
           (seq 0 days)).
Proof.
  unfold generatePrices. rewrite map_rev, generateLoop_dates. cbn [map app].
  f_equal. apply map_ext. intro i. apply mockDate_day.
Qed.

(** C9, as amended: two calls of the generator for the same symbol, in
    whatever environments, use the same seed (the sum of the symbol's
    character codes) and the same base price 500 + seed mod 200, and
    produce 1095 records each, the record of iteration i dated 1095 - i
    days before the day the clock reads at that iteration.  When the two
    calls draw the same random numbers in the loop the closes (and the P/E
    values) are the same sequence, whatever the clocks read; when the
    clocks read the same days the dates are the same, whatever the random
    numbers. *)
Theorem mock_determinism (symbol : string) (env1 env2 : Env) :
  (forall q, sin env1 q = sin env2 q) ->
  let seed := seed_of symbol in
  let h1 := generatePrices env1 seed mockDays in
  let h2 := generatePrices env2 seed mockDays in
  (exists s1 s2,
     getMockData env1 symbol = Ok s1 /\ historyData s1 = h1
     /\ getMockData env2 symbol = Ok s2 /\ historyData s2 = h2)
  /\ seed = charCodeSum symbol
  /\ basePrice seed = int (500 + seed mod 200)
  /\ h1 = rev (generateLoop env1 mockDays mockDays 0 (basePrice seed) [])
  /\ h2 = rev (generateLoop env2 mockDays mockDays 0 (basePrice seed) [])
  /\ List.length h1 = 1095%nat /\ List.length h2 = 1095%nat
  /\ map date h1
     = rev (map (fun i => dateOfDay (now env1 i / msPerDay
                                     - (1095 - Z.of_nat i)))
              (seq 0 1095))
  /\ ((forall k, (k < 2 * 1095)%nat -> random env1 k = random env2 k) ->
      map close h1 = map close h2 /\ map pe h1 = map pe h2)
  /\ ((forall k, (k < 1095)%nat ->
                 (now env1 k / msPerDay = now env2 k / msPerDay)%Z) ->
      map date h1 = map date h2).
Proof.
  intros Hs seed h1 h2. split.
  { destruct (getMockData_history env1 symbol) as (s1 & H1 & E1).
    destruct (getMockData_history env2 symbol) as (s2 & H2 & E2).
    exists s1, s2. split; [exact H1|]. split; [exact E1|].
    split; [exact H2 | exact E2]. }
  split; [apply seed_of_sum|].
  split; [apply basePrice_range|].
  split; [reflexivity|]. split; [reflexivity|].
  split; [apply generatePrices_length|]. split; [apply generatePrices_length|].
  split; [apply (generatePrices_dates env1 seed mockDays)|]. split.
  - intro Hr. unfold h1, h2, generatePrices. rewrite !map_rev.
    destruct (@generateLoop_values env1 env2 mockDays mockDays mockDays Hs
                0%nat (basePrice seed) [] [] Hr eq_refl eq_refl) as [Hc Hp].
    rewrite Hc, Hp. split; reflexivity.
  - intros Hn. unfold h1, h2. rewrite !generatePrices_dates. f_equal.
    apply map_ext_in. intros i Hi. apply in_seq in Hi.
    rewrite Hn; [reflexivity|]. unfold mockDays in Hi. lia.
Qed.

Lemma sample_clock_day (tick : Z) (k : nat) :
  (0 <= tick <= 7)%Z -> (k < 1095)%nat ->
  (now (sample_env jan3 tick) k / msPerDay = 19725)%Z.
Proof.
  intros Ht Hk. cbn [now sample_env].
  change jan3 with (19725 * msPerDay)%Z.
  rewrite Z.div_add_l by discriminate.
  rewrite Z.div_small; [reflexivity|]. unfold msPerDay. nia.
Qed.

Lemma mock_determinism_witness :
  map close (generatePrices (sample_env jan3 1) (seed_of "2330") mockDays)
  = map close (generatePrices (sample_env jan4 7) (seed_of "2330") mockDays)
  /\ map date (generatePrices (sample_env jan3 1) (seed_of "2330") mockDays)
     = map date (generatePrices (sample_env jan3 7) (seed_of "2330") mockDays)
  /\ seed_of "2330" = 200%Z
  /\ basePrice (seed_of "2330") = int 500.
Proof.
  split; [|split; [|split; reflexivity]].
  - pose proof (@mock_determinism "2330" (sample_env jan3 1) (sample_env jan4 7)
                  (fun q => eq_refl)) as H.
    cbv zeta in H.
    destruct H as (_ & _ & _ & _ & _ & _ & _ & _ & Hc & _).
    exact (proj1 (Hc (fun k _ => eq_refl))).
  - pose proof (@mock_determinism "2330" (sample_env jan3 1) (sample_env jan3 7)
                  (fun q => eq_refl)) as H.
    cbv zeta in H.
    destruct H as (_ & _ & _ & _ & _ & _ & _ & _ & _ & Hd).
    apply Hd. intros k Hk. rewrite !sample_clock_day by lia. reflexivity.
Defined.

(** C9, the claim as stated fails: two calls for the same symbol, with the
    same random numbers, one on 2024-01-03 and one a day later, agree on
    the closes and differ in the dates; the newest record is dated
    2024-01-02 in the first and 2024-01-03 in the second. *)
Lemma dates_follow_the_clock :
  let h1 := generatePrices (sample_env jan3 1) (seed_of "2330") mockDays in
  let h2 := generatePrices (sample_env jan4 1) (seed_of "2330") mockDays in
  map close h1 = map close h2
  /\ hd_error (map date h1) = Some "2024-01-02"
  /\ hd_error (map date h2) = Some "2024-01-03"
  /\ map date h1 <> map date h2.
Proof.
  cbv zeta.
  assert (H1 : hd_error (map date (generatePrices (sample_env jan3 1)
                                     (seed_of "2330") mockDays))
               = Some "2024-01-02")
    by (rewrite generatePrices_dates; vm_compute; reflexivity).
  assert (H2 : hd_error (map date (generatePrices (sample_env jan4 1)
                                     (seed_of "2330") mockDays))
               = Some "2024-01-03")
    by (rewrite generatePrices_dates; vm_compute; reflexivity).
  split; [|split; [exact H1|split; [exact H2|]]].
  - unfold generatePrices. rewrite !map_rev.
    destruct (@generateLoop_values (sample_env jan3 1) (sample_env jan4 1)
                mockDays mockDays mockDays (fun q => eq_refl)
                0%nat (basePrice (seed_of "2330")) [] []
                (fun k _ => eq_refl) eq_refl eq_refl) as [Hc _].
    rewrite Hc. reflexivity.
  - intro E. rewrite E in H1. rewrite H1 in H2. discriminate H2.
Qed.

(** ** The bands of the system are derived bands *)

(** A band in the sense of C6: prices that are a non-zero EPS times two
    positive, ordered P/E values. *)
Lemma deriveBand_shape (p : Q) (latest : option number)
  (rawPERs : list PERRow) :
  ~ (p == 0)%Q -> (forall l, latest = Some l -> finite l) ->
  let b := deriveBand (JS.Fin p) latest rawPERs in
  exists E m M,
    eps b = JS.Fin E /\ minPE b = JS.Fin m /\ maxPE b = JS.Fin M
    /\ ~ (E == 0)%Q /\ (0 < m)%Q /\ (m <= M)%Q.
Proof.
  intros Hp Hl b.
  assert (Hdiv : forall d, ~ (d == 0)%Q ->
            exists E, JS.Fin p / JS.Fin d = JS.Fin E /\ ~ (E == 0)%Q).
  { intros d Hd. rewrite (div_Fin p Hd). eexists. split; [reflexivity|].
    rewrite Qred_correct. intro Z. apply Hp.
    setoid_replace p with (p / d * d)%Q by (field; exact Hd).
    rewrite Z. ring. }
  destruct (Nat.lt_ge_cases 10 (List.length (validPEs_of rawPERs))) as [H|H].
  - destruct (deriveBand_enough (JS.Fin p) latest rawPERs H)
      as (Hmin & Hmax & Heps).
    fold b in Hmin, Hmax, Heps.
    destruct (rank_indices (n := List.length (validPEs_of rawPERs))) as [I1 I2];
      [lia|].
    pose proof (sorted_nth JS.NaN (validPEs_sorted rawPERs)
                  (validPEs_finite rawPERs) I1 I2) as Hle.
    pose proof (nth_Forall (validPEs_between rawPERs)
                  (i := List.length (validPEs_of rawPERs) / 10)) as B1.
    pose proof (nth_Forall (validPEs_between rawPERs)
                  (i := List.length (validPEs_of rawPERs) * 9 / 10)) as B2.
    pose proof (nth_Forall (validPEs_between rawPERs) (i := 0)) as B0.
    rewrite <- Hmin in Hle, B1. rewrite <- Hmax in Hle, B2.
    assert (Hd : exists d, validCurrentPE latest (validPEs_of rawPERs) = JS.Fin d
                           /\ ~ (d == 0)%Q).
    { pose proof (validCurrentPE_cases latest (validPEs_of rawPERs)) as Hc.
      assert (H0 : exists d, nth 0 (validPEs_of rawPERs) JS.NaN = JS.Fin d
                             /\ ~ (d == 0)%Q).
      { destruct (nth 0 (validPEs_of rawPERs) JS.NaN) as [d| | |];
          try (exfalso; apply B0; lia).
        exists d. split; [reflexivity|]. cbn [strictly_between] in B0.
        assert (0 < d)%Q by (apply B0; lia). lra. }
      destruct latest as [l|]; [|rewrite Hc; exact H0].
      destruct (JS.truthy l) eqn:T; [|rewrite Hc; exact H0].
      rewrite Hc. specialize (Hl l eq_refl).
      destruct l as [d| | |]; try contradiction.
      exists d. split; [reflexivity|]. apply truthy_Fin_true. exact T. }
    destruct Hd as (d & Hd & Nd). rewrite Hd in Heps.
    destruct (Hdiv d Nd) as (E & HE & NE). rewrite HE in Heps.
    destruct (minPE b) as [m| | |]; try (exfalso; apply B1; lia).
    destruct (maxPE b) as [M| | |]; try (exfalso; apply B2; lia).
    exists E, m, M. cbn [strictly_between] in B1.
    repeat split; try assumption; try reflexivity.
    + apply B1. lia.
    + apply le_Fin. exact Hle.
  - unfold b. rewrite (deriveBand_default _ _ _ H). cbn [eps minPE maxPE].
    destruct (Hdiv 15%Q) as (E & HE & NE); [discriminate|].
    exists E, 10%Q, 20%Q. repeat split; try assumption; try reflexivity.
    discriminate.
Qed.

(** The cursor of every snapshot [fetchRealStockData] returns for a price
    that is a number other than zero is the clamped formula, within 0 and
    100. *)
Lemma live_cursor (symbol : string) (res : ApiResponse) (s : StockData)
  (p : Q) :
  fetchRealStockData symbol res = Ok s ->
  currentPrice s = JS.Fin p -> ~ (p == 0)%Q ->
  (forall l, currentPE s = Some l -> finite l) ->
  cursorPosition (Some s) = clamp (int 0) (int 100) (cursorFormula s)
  /\ le_true (int 0) (cursorPosition (Some s))
  /\ le_true (cursorPosition (Some s)) (int 100).
Proof.
  intros Hs Hp Np Hl.
  assert (Hv : valuation s
               = deriveBand (currentPrice s) (currentPE s)
                   (match perJson_data res with Some pers => rev pers | None => [] end)).
  { unfold fetchRealStockData in Hs.
    destruct (priceJson_data res) as [[|p0 ps]|]; try discriminate Hs.
    destruct (perJson_data res) as [pers|]; try discriminate Hs.
    destruct (rev (p0 :: ps)) as [|n0 o0]; try discriminate Hs.
    injection Hs as <-. reflexivity. }
  rewrite Hp in Hv.
  destruct (@deriveBand_shape p (currentPE s)
              (match perJson_data res with Some pers => rev pers | None => [] end)
              Np Hl) as (E & m & M & HE & Hm & HM & NE & Lm & LM).
  destruct (deriveBand_prices (JS.Fin p) (currentPE s)
              (match perJson_data res with Some pers => rev pers | None => [] end))
    as (Hc & He & _).
  rewrite <- Hv in HE, Hm, HM, Hc, He.
  rewrite HE, Hm in Hc. rewrite HE, HM in He. cbn [JS.mul] in Hc, He.
  split.
  - apply cursorPosition_cases. rewrite Hc. cbn [absent_or_zero].
    rewrite Qred_correct. intro Z.
    destruct (Qmult_integral _ _ Z) as [H0|H0]; [exact (NE H0) | lra].
  - apply (cursor_bounds_scaled s (p := p) (E := E) (m := m) (M := M) Hp Hc He);
      try assumption; apply Qred_correct.
Qed.

(** The same for the snapshots of the generator. *)
Lemma mock_cursor (env : Env) (symbol : string) :
  random_in_range env ->
  exists s,
    getMockData env symbol = Ok s
    /\ cursorPosition (Some s) = clamp (int 0) (int 100) (cursorFormula s)
    /\ le_true (int 0) (cursorPosition (Some s))
    /\ le_true (cursorPosition (Some s)) (int 100).
Proof.
  intro Hr.
  destruct (@getMockData_ok env symbol Hr)
    as (s & newest & older & Hs & _ & _ & _ & Hcp & Heps & [Hc Hq] & Hmin & Hmax
        & Hle & Hcheap & Hexp & _).
  exists s. split; [exact Hs|].
  destruct (close newest) as [c| | |]; try contradiction.
  destruct (pe newest) as [q| | |]; try contradiction.
  cbn [at_least above] in Hc, Hq.
  rewrite div_Fin in Heps by lra.
  destruct (minPE (valuation s)) as [m| | |]; try contradiction.
  destruct (maxPE (valuation s)) as [M| | |]; try contradiction.
  cbn [above] in Hmin, Hmax. apply le_Fin in Hle.
  rewrite Heps in Hcheap, Hexp. cbn [JS.mul] in Hcheap, Hexp.
  assert (NE : ~ (Qred (c / q) == 0)%Q).
  { rewrite Qred_correct. intro Z.
    assert (c == 0)%Q; [|lra].
    setoid_replace c with (c / q * q)%Q by (field; lra). rewrite Z. ring. }
  split.
  - apply cursorPosition_cases. rewrite Hcheap. cbn [absent_or_zero].
    rewrite Qred_correct. intro Z.
    destruct (Qmult_integral _ _ Z) as [H0|H0]; [exact (NE H0) | lra].
  - apply (cursor_bounds_scaled s (p := c) (E := Qred (c / q)) (m := m) (M := M)
             Hcp Hcheap Hexp); try assumption; apply Qred_correct.
Qed.

(** ** The modelled built-ins on known values *)

Example isoDate_known :
  isoDate 0 = "1970-01-01"
  /\ isoDate (-1) = "1969-12-31"
  /\ isoDate 951782400000 = "2000-02-29"
  /\ isoDate 1709164800000 = "2024-02-29"
  /\ isoDate (jan3 + 86399999) = "2024-01-03"
  /\ isoDate 253402300800000 = "+010000-01-01".
Proof.
  repeat split.
Qed.

Example toFixed2_known :
  JS.toFixed2 (dec 1006 1000) = dec 101 100
  /\ JS.toFixed2 (dec 1234567 1000) = dec 123457 100
  /\ JS.toFixed2 (dec (-1006) 1000) = dec (-101) 100
  /\ JS.toFixed2 (int 7) = int 7.
Proof.
  repeat split.
Qed.

Example number_known :
  int 1 / int 0 = JS.PInf
  /\ int (-1) / int 0 = JS.NInf
  /\ int 0 / int 0 = JS.NaN
  /\ (JS.NaN <=? JS.NaN) = false
  /\ JS.Math_min (JS.Math_max JS.NaN (int 0)) (int 100) = JS.NaN
  /\ JS.sort ascending [int 3; dec 5 2; int 1; int 2] = [int 1; int 2; dec 5 2; int 3].
Proof.
  repeat split.
Qed.

(** ** The band and the status in terms of the reference P/E *)

Lemma le_Fin_not (x y : Q) : (JS.Fin x <=? JS.Fin y) = false <-> (y < x)%Q.
Proof.
  rewrite <- not_true_iff_false, le_Fin. split; intro H.
  - apply Qnot_le_lt; exact H.
  - apply Qlt_not_le; exact H.
Qed.

Lemma mul_Fin (x y : Q) : JS.Fin x * JS.Fin y = JS.Fin (Qred (x * y)).
Proof.
  reflexivity.
Qed.

Lemma add_Fin (x y : Q) : JS.Fin x + JS.Fin y = JS.Fin (Qred (x + y)).
Proof.
  reflexivity.
Qed.

(** The band of [deriveBand] for a finite price, in rationals: the divisor
    [d] behind the EPS and the two P/E bounds. *)
Lemma deriveBand_reference (p : Q) (latest : option number)
  (rawPERs : list PERRow) :
  (forall l, latest = Some l -> finite l) ->
  let v := validPEs_of rawPERs in
  let n := List.length v in
  let b := deriveBand (JS.Fin p) latest rawPERs in
  exists d m M,
    ~ (d == 0)%Q /\ (0 < m)%Q /\ (m <= M)%Q
    /\ eps b = JS.Fin (Qred (p / d))
    /\ minPE b = JS.Fin m /\ maxPE b = JS.Fin M
    /\ ((n <= 10)%nat -> d = 15%Q /\ m = 10%Q /\ M = 20%Q)
    /\ ((10 < n)%nat ->
        validCurrentPE latest v = JS.Fin d
        /\ nth (n / 10) v JS.NaN = JS.Fin m
        /\ nth (n * 9 / 10) v JS.NaN = JS.Fin M
        /\ exists d0, nth 0 v JS.NaN = JS.Fin d0 /\ (0 < d0)%Q /\ (d0 <= m)%Q).
Proof.
  intros Hl v n b.
  destruct (Nat.lt_ge_cases 10 n) as [H|H].
  - destruct (deriveBand_enough (JS.Fin p) latest rawPERs H)
      as (Hmin & Hmax & Heps).
    fold b v n in Hmin, Hmax, Heps.
    destruct (rank_indices (n := n)) as [I1 I2]; [lia|].
    pose proof (sorted_nth JS.NaN (validPEs_sorted rawPERs)
                  (validPEs_finite rawPERs) I1 I2) as Hle.
    assert (I0 : (0 <= n / 10)%nat) by lia.
    assert (I3 : (n / 10 < n)%nat) by lia.
    pose proof (sorted_nth JS.NaN (validPEs_sorted rawPERs)
                  (validPEs_finite rawPERs) I0 I3) as Hle0.
    pose proof (nth_Forall (validPEs_between rawPERs) (i := n / 10)) as B1.
    pose proof (nth_Forall (validPEs_between rawPERs) (i := n * 9 / 10)) as B2.
    pose proof (nth_Forall (validPEs_between rawPERs) (i := 0)) as B0.
    fold v n in Hle, Hle0, B0, B1, B2.
    destruct (nth 0 v JS.NaN) as [d0| | |] eqn:E0;
      try (exfalso; apply B0; lia).
    destruct (nth (n / 10) v JS.NaN) as [m| | |] eqn:E1;
      try (exfalso; apply B1; lia).
    destruct (nth (n * 9 / 10) v JS.NaN) as [M| | |] eqn:E2;
      try (exfalso; apply B2; lia).
    cbn [strictly_between] in B0, B1, B2.
    apply le_Fin in Hle, Hle0.
    assert (P0 : (0 < d0)%Q) by (apply B0; lia).
    assert (P1 : (0 < m)%Q) by (apply B1; lia).
    assert (Hd : exists d, validCurrentPE latest v = JS.Fin d /\ ~ (d == 0)%Q).
    { pose proof (validCurrentPE_cases latest v) as Hc. rewrite E0 in Hc.
      destruct latest as [l|]; [|exists d0; split; [exact Hc | lra]].
      destruct (JS.truthy l) eqn:T; [|exists d0; split; [exact Hc | lra]].
      rewrite Hc. specialize (Hl l eq_refl).
      destruct l as [d| | |]; try contradiction.
      exists d. split; [reflexivity|]. apply truthy_Fin_true. exact T. }
    destruct Hd as (d & Hd & Nd).
    exists d, m, M. rewrite Hd in Heps. rewrite (div_Fin p Nd) in Heps.
    split; [exact Nd|]. split; [exact P1|]. split; [exact Hle|].
    split; [exact Heps|]. split; [exact Hmin|]. split; [exact Hmax|].
    split; [intro; lia|]. intros _.
    split; [exact Hd|]. split; [reflexivity|]. split; [reflexivity|].
    exists d0. split; [reflexivity|]. split; assumption.
  - exists 15%Q, 10%Q, 20%Q. unfold b.
    rewrite (deriveBand_default _ _ _ H). cbn [eps minPE maxPE].
    split; [discriminate|]. split; [reflexivity|]. split; [discriminate|].
    split; [apply (div_Fin p (y := 15)); discriminate|].
    split; [reflexivity|]. split; [reflexivity|].
    split; [intros _; repeat split | intro; lia].
Qed.

(** The prices of a band with a finite EPS and finite P/E bounds. *)
Lemma band_prices_rational (v : Valuation) (E m M : Q) :
  eps v = JS.Fin E -> minPE v = JS.Fin m -> maxPE v = JS.Fin M ->
  cheapPrice v = eps v * minPE v ->
  expensivePrice v = eps v * maxPE v ->
  fairPrice v = (cheapPrice v + expensivePrice v) / int 2 ->
  exists c f e,
    cheapPrice v = JS.Fin c /\ fairPrice v = JS.Fin f
    /\ expensivePrice v = JS.Fin e
    /\ (c == E * m)%Q /\ (e == E * M)%Q /\ (f == (E * m + E * M) / 2)%Q.
Proof.
  intros HE Hm HM Hc He Hf.
  rewrite HE, Hm, mul_Fin in Hc. rewrite HE, HM, mul_Fin in He.
  rewrite Hc, He, add_Fin in Hf.
  rewrite (div_Fin _ (y := inject_Z 2)) in Hf by discriminate.
  eexists. eexists. eexists.
  split; [exact Hc|]. split; [exact Hf|]. split; [exact He|].
  split; [apply Qred_correct|]. split; [apply Qred_correct|].
  rewrite !Qred_correct. reflexivity.
Qed.

Lemma scale_le (E a b : Q) : (0 < E)%Q -> (E * a <= E * b <-> a <= b)%Q.
Proof.
  intro H. split; intro L.
  - apply Qmult_le_l with E; assumption.
  - apply Qmult_le_l; assumption.
Qed.

Lemma scale_le_neg (E a b : Q) : (E < 0)%Q -> (E * a <= E * b <-> b <= a)%Q.
Proof.
  intro H.
  assert (P : (0 < - E)%Q) by lra.
  rewrite <- (scale_le b a P). split; intro L; lra.
Qed.

Lemma quotient_sign (p d : Q) :
  (0 < p)%Q -> ~ (d == 0)%Q ->
  (p == p / d * d)%Q
  /\ ((0 < d)%Q -> (0 < p / d)%Q) /\ ((d < 0)%Q -> (p / d < 0)%Q).
Proof.
  intros Hp Hd. split; [field; exact Hd|]. split; intro H.
  - apply Qlt_shift_div_l; [exact H | lra].
  - setoid_replace (p / d)%Q with (- (p / - d))%Q by (field; exact Hd).
    assert (0 < p / - d)%Q; [|lra].
    apply Qlt_shift_div_l; lra.
Qed.

Lemma lower_threshold_scaled (c f E m M : Q) :
  (c == E * m)%Q -> (f == (E * m + E * M) / 2)%Q ->
  (Qred (Qred (c * (4 # 10)) + Qred (f * (6 # 10)))
   == E * ((7 # 10) * m + (3 # 10) * M))%Q.
Proof.
  intros Qc Qf. rewrite !Qred_correct, Qc, Qf. field.
Qed.

Lemma upper_threshold_scaled (f e E m M : Q) :
  (e == E * M)%Q -> (f == (E * m + E * M) / 2)%Q ->
  (Qred (Qred (f * (4 # 10)) + Qred (e * (6 # 10)))
   == E * ((2 # 10) * m + (8 # 10) * M))%Q.
Proof.
  intros Qe Qf. rewrite !Qred_correct, Qe, Qf. field.
Qed.

(** The status of a snapshot whose band has the EPS [p / d]: it is decided
    by where the divisor [d] lies between the two P/E bounds. *)
Lemma status_by_reference (s : StockData) (p d m M : Q) :
  let v := valuation s in
  currentPrice s = JS.Fin p -> eps v = JS.Fin (Qred (p / d)) ->
  minPE v = JS.Fin m -> maxPE v = JS.Fin M ->
  cheapPrice v = eps v * minPE v ->
  expensivePrice v = eps v * maxPE v ->
  fairPrice v = (cheapPrice v + expensivePrice v) / int 2 ->
  (0 < p)%Q -> ~ (d == 0)%Q -> (0 < m)%Q -> (m <= M)%Q ->
  valuationStatus (Some s)
  = if Qle_bool 0 d then
      if Qle_bool d ((7 # 10) * m + (3 # 10) * M) then Cheap
      else if Qle_bool ((2 # 10) * m + (8 # 10) * M) d then Expensive
      else Fair
    else Expensive.
Proof.
  intros v Hp HE Hm HM Hc He Hf Pp Nd Pm LM.
  destruct (band_prices_rational v HE Hm HM Hc He Hf)
    as (c & f & e & Ec & Ef & Ee & Qc & Qe & Qf).
  destruct (quotient_sign Pp Nd) as (Hpd & Spos & Sneg).
  rewrite Qred_correct in Qc, Qe, Qf.
  set (E := (p / d)%Q) in *. clearbody E.
  unfold valuationStatus, lowerThreshold, upperThreshold. fold v.
  rewrite Hp, Ec, Ef, Ee. unfold dec. rewrite !mul_Fin, !add_Fin.
  assert (NE : ~ (E == 0)%Q).
  { intro Z. rewrite Z in Hpd. lra. }
  assert (Tc : JS.truthy (JS.Fin c) = true).
  { apply truthy_Fin_true. rewrite Qc. intro Z.
    destruct (Qmult_integral _ _ Z); [contradiction | lra]. }
  assert (Te : JS.truthy (JS.Fin e) = true).
  { apply truthy_Fin_true. rewrite Qe. intro Z.
    destruct (Qmult_integral _ _ Z); [contradiction | lra]. }
  rewrite Tc, Te. cbn [negb orb]. unfold JS.ge.
  assert (HL : (Qred (Qred (c * (4 # 10)) + Qred (f * (6 # 10)))
               == E * ((7 # 10) * m + (3 # 10) * M))%Q).
  { apply lower_threshold_scaled; assumption. }
  assert (HU : (Qred (Qred (f * (4 # 10)) + Qred (e * (6 # 10)))
               == E * ((2 # 10) * m + (8 # 10) * M))%Q).
  { apply upper_threshold_scaled; assumption. }
  set (L := Qred (Qred (c * (4 # 10)) + Qred (f * (6 # 10)))) in *.
  set (U := Qred (Qred (f * (4 # 10)) + Qred (e * (6 # 10)))) in *.
  assert (Hp' : (p == E * d)%Q) by (rewrite Hpd at 1; reflexivity).
  destruct (Qle_bool 0 d) eqn:Sd.
  - apply Qle_bool_iff in Sd. assert (Pd : (0 < d)%Q) by lra.
    specialize (Spos Pd).
    destruct (Qle_bool d ((7 # 10) * m + (3 # 10) * M)) eqn:B1.
    + apply Qle_bool_iff in B1.
      assert (T : (JS.Fin p <=? JS.Fin L) = true).
      { apply le_Fin. rewrite HL, Hp'. apply scale_le; assumption. }
      rewrite T. reflexivity.
    + assert (T : (JS.Fin p <=? JS.Fin L) = false).
      { apply le_Fin_not. rewrite HL, Hp'.
        apply Qnot_le_lt. intro C. apply (proj1 (scale_le _ _ Spos)) in C.
        apply Qle_bool_iff in C. congruence. }
      rewrite T.
      destruct (Qle_bool ((2 # 10) * m + (8 # 10) * M) d) eqn:B2.
      * apply Qle_bool_iff in B2.
        assert (T2 : (JS.Fin U <=? JS.Fin p) = true).
        { apply le_Fin. rewrite HU, Hp'. apply scale_le; assumption. }
        rewrite T2. reflexivity.
      * assert (T2 : (JS.Fin U <=? JS.Fin p) = false).
        { apply le_Fin_not. rewrite HU, Hp'.
          apply Qnot_le_lt. intro C. apply (proj1 (scale_le _ _ Spos)) in C.
          apply Qle_bool_iff in C. congruence. }
        rewrite T2. reflexivity.
  - assert (Pd : (d < 0)%Q).
    { apply Qnot_le_lt. intro C. apply Qle_bool_iff in C. congruence. }
    specialize (Sneg Pd).
    assert (T : (JS.Fin p <=? JS.Fin L) = false).
    { apply le_Fin_not. rewrite HL, Hp'.
      apply Qnot_le_lt. intro C. apply (proj1 (scale_le_neg _ _ Sneg)) in C. lra. }
    assert (T2 : (JS.Fin U <=? JS.Fin p) = true).
    { apply le_Fin. rewrite HU, Hp'. apply scale_le_neg; [assumption | lra]. }
    rewrite T, T2. reflexivity.
Qed.

(** ** Live snapshots: status and cursor from the P/E history alone *)

(** What a returned snapshot was computed from. *)
Lemma fetch_inversion (symbol : string) (res : ApiResponse) (s : StockData) :
  fetchRealStockData symbol res = Ok s ->
  exists prices pers newest older,
    priceJson_data res = Some prices /\ perJson_data res = Some pers
    /\ rev prices = newest :: older
    /\ s = {| source := "FinMind API"; isReal := true; symbol := symbol;
              name := match infoJson_data res with
                      | Some (info :: _) => stock_name info
                      | _ => symbol
                      end;
              currentPrice := price_close newest;
              change := JS.toFixed2
                          (price_close newest
                           - match older with
                             | prev :: _ => price_close prev
                             | [] => price_close newest
                             end);
              currentPE := option_map p_e_ratio (hd_error (rev pers));
              historyData := join_history (rev prices) (rev pers);
              valuation := deriveBand (price_close newest)
                             (option_map p_e_ratio (hd_error (rev pers)))
                             (rev pers) |}.
Proof.
  unfold fetchRealStockData. intro H.
  destruct (priceJson_data res) as [[|p0 ps]|] eqn:Ep; try discriminate H.
  destruct (perJson_data res) as [pers|] eqn:Er; try discriminate H.
  destruct (rev (p0 :: ps)) as [|newest older] eqn:Ev; try discriminate H.
  exists (p0 :: ps), pers, newest, older.
  split; [reflexivity|]. split; [reflexivity|]. split; [exact Ev|].
  injection H as <-. rewrite Ev. destruct older, (rev pers); reflexivity.
Qed.

(** The band of a returned snapshot, in rationals. *)
Lemma live_reference (symbol : string) (res : ApiResponse) (s : StockData)
  (pers : list PERRow) (p : Q) :
  fetchRealStockData symbol res = Ok s -> perJson_data res = Some pers ->
  currentPrice s = JS.Fin p ->
  (forall l, currentPE s = Some l -> finite l) ->
  let v := validPEs_of (rev pers) in
  let n := List.length v in
  let b := valuation s in
  exists d m M,
    ~ (d == 0)%Q /\ (0 < m)%Q /\ (m <= M)%Q
    /\ eps b = JS.Fin (Qred (p / d))
    /\ minPE b = JS.Fin m /\ maxPE b = JS.Fin M
    /\ cheapPrice b = eps b * minPE b
    /\ expensivePrice b = eps b * maxPE b
    /\ fairPrice b = (cheapPrice b + expensivePrice b) / int 2
    /\ ((n <= 10)%nat -> d = 15%Q /\ m = 10%Q /\ M = 20%Q)
    /\ ((10 < n)%nat ->
        validCurrentPE (currentPE s) v = JS.Fin d
        /\ exists d0, nth 0 v JS.NaN = JS.Fin d0 /\ (0 < d0)%Q /\ (d0 <= m)%Q).
Proof.
  intros Hs Hr Hp Hl v n b.
  destruct (@fetch_inversion symbol res s Hs) as (prices & pers' & newest & older & _ & Hr' & _ & Es).
  rewrite Hr in Hr'. injection Hr' as <-.
  assert (Hv : valuation s = deriveBand (JS.Fin p) (currentPE s) (rev pers)).
  { clear Hl. rewrite Es in Hp |- *.
    cbn [valuation currentPrice currentPE] in Hp |- *. rewrite Hp.
    reflexivity. }
  destruct (@deriveBand_reference p (currentPE s) (rev pers) Hl)
    as (d & m & M & Nd & Pm & LM & HE & Hm & HM & Hsmall & Hbig).
  destruct (deriveBand_prices (JS.Fin p) (currentPE s) (rev pers))
    as (Hc & He & Hf).
  unfold b. rewrite Hv.
  exists d, m, M. do 10 (split; [assumption|]).
  intro H. destruct (Hbig H) as (Hd & _ & _ & Hd0). split; assumption.
Qed.

(** The position formula of a band with the EPS [p / d]. *)
Lemma cursor_by_reference (s : StockData) (p d m M : Q) :
  let v := valuation s in
  currentPrice s = JS.Fin p -> eps v = JS.Fin (Qred (p / d)) ->
  minPE v = JS.Fin m -> maxPE v = JS.Fin M ->
  cheapPrice v = eps v * minPE v ->
  expensivePrice v = eps v * maxPE v ->
  (0 < p)%Q -> ~ (d == 0)%Q -> (0 < m)%Q -> (m <= M)%Q ->
  cursorPosition (Some s)
  = clamp (int 0) (int 100)
      (JS.Fin (Qred ((d - (8 # 10) * m) / ((12 # 10) * M - (8 # 10) * m) * 100))).
Proof.
  intros v Hp HE Hm HM Hc He Pp Nd Pm LM.
  destruct (quotient_sign Pp Nd) as (Hpd & _ & _).
  assert (NE : ~ (p / d == 0)%Q).
  { intro Z. rewrite Z in Hpd. lra. }
  rewrite HE, Hm, mul_Fin in Hc. rewrite HE, HM, mul_Fin in He.
  assert (Qc : (Qred (Qred (p / d) * m) == p / d * m)%Q)
    by (rewrite !Qred_correct; reflexivity).
  assert (Qe : (Qred (Qred (p / d) * M) == p / d * M)%Q)
    by (rewrite !Qred_correct; reflexivity).
  set (c := Qred (Qred (p / d) * m)) in *.
  set (e := Qred (Qred (p / d) * M)) in *.
  set (E := (p / d)%Q) in *. clearbody E c e.
  destruct (cursorPosition_cases s) as [_ Hnz]. fold v in Hnz.
  rewrite Hnz.
  2:{ rewrite Hc. cbn [absent_or_zero]. rewrite Qc. intro Z.
      destruct (Qmult_integral _ _ Z); [contradiction | lra]. }
  f_equal. unfold cursorFormula. fold v. rewrite Hp, Hc, He.
  unfold dec. rewrite !mul_Fin, !sub_Fin.
  assert (Nr : ~ (Qred (Qred (e * (12 # 10)) - Qred (c * (8 # 10))) == 0)%Q).
  { rewrite !Qred_correct, Qc, Qe. intro Z.
    assert (Z' : (E * ((12 # 10) * M - (8 # 10) * m) == 0)%Q)
      by (rewrite <- Z; ring).
    destruct (Qmult_integral _ _ Z'); [contradiction | lra]. }
  rewrite (div_Fin _ Nr). unfold int, JS.of_Z. rewrite mul_Fin. f_equal.
  apply Qred_complete. rewrite !Qred_correct, Qc, Qe, Hpd.
  change (inject_Z 100) with 100%Q. field. split.
  - lra.
  - intro Z.
    assert (Z' : (E * ((12 # 10) * M - (8 # 10) * m) == 0)%Q)
      by (rewrite <- Z; ring).
    destruct (Qmult_integral _ _ Z'); [contradiction | lra].
Qed.

Lemma clamp_at_most (x c : Q) :
  (x <= c)%Q -> (0 <= c)%Q -> (c <= 100)%Q ->
  le_true (clamp (int 0) (int 100) (JS.Fin x)) (JS.Fin c).
Proof.
  intros Hx H0 H1. unfold clamp, le_true, int, JS.of_Z, JS.gt.
  destruct (JS.Fin x <? JS.Fin (inject_Z 0)) eqn:E0.
  - apply le_Fin. exact H0.
  - destruct (JS.Fin (inject_Z 100) <? JS.Fin x) eqn:E1.
    + apply lt_Fin in E1. change (inject_Z 100) with 100%Q in E1. lra.
    + apply le_Fin. exact Hx.
Qed.

Lemma clamp_below (x : Q) :
  (x < 0)%Q -> clamp (int 0) (int 100) (JS.Fin x) = int 0.
Proof.
  intro H. unfold clamp.
  assert (E : (JS.Fin x <? int 0) = true) by (apply lt_Fin; exact H).
  rewrite E. reflexivity.
Qed.

(** The divisor behind the EPS of a returned snapshot with more than ten
    surviving observations. *)
Lemma live_divisor (latest : option number) (v : list number) (d : Q) :
  validCurrentPE latest v = JS.Fin d ->
  (forall l, latest = Some (JS.Fin l) -> ~ (l == 0)%Q -> d = l)
  /\ (forall l d0, latest = Some (JS.Fin l) -> (l == 0)%Q ->
        nth 0 v JS.NaN = JS.Fin d0 -> d = d0).
Proof.
  intro Hd. pose proof (validCurrentPE_cases latest v) as Hc. split.
  - intros l -> Hl. apply truthy_Fin_true in Hl. rewrite Hl in Hc.
    rewrite Hc in Hd. injection Hd as <-. reflexivity.
  - intros l d0 -> Hl H0. apply truthy_Fin in Hl. rewrite Hl in Hc.
    rewrite Hc, H0 in Hd. injection Hd as <-. reflexivity.
Qed.

Lemma clamp_at_least (x c : Q) :
  (c <= x)%Q -> (0 <= c)%Q -> (c <= 100)%Q ->
  le_true (JS.Fin c) (clamp (int 0) (int 100) (JS.Fin x)).
Proof.
  intros Hx H0 H1. unfold clamp, le_true, int, JS.of_Z, JS.gt.
  destruct (JS.Fin x <? JS.Fin (inject_Z 0)) eqn:E0.
  - apply lt_Fin in E0. change (inject_Z 0) with 0%Q in E0. lra.
  - destruct (JS.Fin (inject_Z 100) <? JS.Fin x) eqn:E1.
    + apply le_Fin. exact H1.
    + apply le_Fin. exact Hx.
Qed.

Lemma clamp_monotone (x y : Q) :
  (x <= y)%Q ->
  le_true (clamp (int 0) (int 100) (JS.Fin x))
          (clamp (int 0) (int 100) (JS.Fin y)).
Proof.
  intro H. unfold clamp, le_true, int, JS.of_Z, JS.gt.
  change (inject_Z 0) with 0%Q. change (inject_Z 100) with 100%Q.
  destruct (JS.Fin x <? JS.Fin 0) eqn:X0;
    [apply lt_Fin in X0 | apply lt_Fin_false in X0];
    (destruct (JS.Fin 100 <? JS.Fin x) eqn:X1;
     [apply lt_Fin in X1 | apply lt_Fin_false in X1]);
    (destruct (JS.Fin y <? JS.Fin 0) eqn:Y0;
     [apply lt_Fin in Y0 | apply lt_Fin_false in Y0]);
    (destruct (JS.Fin 100 <? JS.Fin y) eqn:Y1;
     [apply lt_Fin in Y1 | apply lt_Fin_false in Y1]);
    apply le_Fin; lra.
Qed.

(** X1: for a returned snapshot with a positive price, more than ten
    surviving P/E observations and a positive latest P/E, the status and
    the cursor are decided by the P/E history alone, the price cancels:
    the status is Cheap when the latest P/E lies below
    0.7 low + 0.3 high, Expensive when it lies above 0.2 low + 0.8 high,
    and Fair when it lies between the two, each by the margin; and the
    cursor is (latest - 0.8 low) / (1.2 high - 0.8 low) * 100 clamped to
    0..100, within the tolerance. *)
Theorem live_status_by_latest (symbol : string) (res : ApiResponse)
  (s : StockData) (pers : list PERRow) (p l : Q) :
  fetchRealStockData symbol res = Ok s -> perJson_data res = Some pers ->
  (10 < List.length (validPEs_of (rev pers)))%nat ->
  currentPrice s = JS.Fin p -> (0 < p)%Q ->
  currentPE s = Some (JS.Fin l) -> (0 < l)%Q ->
  exists lo hi,
    minPE (valuation s) = JS.Fin lo /\ maxPE (valuation s) = JS.Fin hi
    /\ (0 < lo)%Q /\ (lo <= hi)%Q
    /\ ((l * margin <= (7 # 10) * lo + (3 # 10) * hi)%Q ->
        valuationStatus (Some s) = Cheap)
    /\ ((((7 # 10) * lo + (3 # 10) * hi) * margin <= l)%Q ->
        (l * margin <= (2 # 10) * lo + (8 # 10) * hi)%Q ->
        valuationStatus (Some s) = Fair)
    /\ ((((2 # 10) * lo + (8 # 10) * hi) * margin <= l)%Q ->
        valuationStatus (Some s) = Expensive)
    /\ le_true
         (clamp (int 0) (int 100)
            (JS.Fin ((l - (8 # 10) * lo) / ((12 # 10) * hi - (8 # 10) * lo)
                     * 100 - tolerance)))
         (cursorPosition (Some s))
    /\ le_true
         (cursorPosition (Some s))
         (clamp (int 0) (int 100)
            (JS.Fin ((l - (8 # 10) * lo) / ((12 # 10) * hi - (8 # 10) * lo)
                     * 100 + tolerance))).
Proof.
  intros Hs Hr Hn Hp Pp Hl Pl.
  assert (Hfin : forall x, currentPE s = Some x -> finite x).
  { intros x Hx. rewrite Hl in Hx. injection Hx as <-. exact I. }
  destruct (@live_reference symbol res s pers p Hs Hr Hp Hfin)
    as (d & m & M & Nd & Pm & LM & HE & Hm & HM & Hc & He & Hf & _ & Hbig).
  destruct (Hbig Hn) as (Hd & _).
  destruct (live_divisor _ _ Hd) as [Hd1 _].
  assert (d = l) by (apply Hd1; [exact Hl | lra]). subst d.
  exists m, M. split; [exact Hm|]. split; [exact HM|].
  split; [exact Pm|]. split; [exact LM|].
  pose proof (@status_by_reference s p l m M Hp HE Hm HM Hc He Hf Pp Nd Pm LM)
    as St.
  assert (B : Qle_bool 0 l = true) by (apply Qle_bool_iff; lra).
  rewrite B in St. unfold margin, tolerance.
  split; [|split; [|split; [|split]]].
  - intro H.
    assert (B1 : Qle_bool l ((7 # 10) * m + (3 # 10) * M) = true)
      by (apply Qle_bool_iff; lra).
    rewrite B1 in St. exact St.
  - intros H1 H2.
    assert (B1 : Qle_bool l ((7 # 10) * m + (3 # 10) * M) = false).
    { apply not_true_iff_false. intro C. apply Qle_bool_iff in C. lra. }
    assert (B2 : Qle_bool ((2 # 10) * m + (8 # 10) * M) l = false).
    { apply not_true_iff_false. intro C. apply Qle_bool_iff in C. lra. }
    rewrite B1, B2 in St. exact St.
  - intro H.
    assert (B1 : Qle_bool l ((7 # 10) * m + (3 # 10) * M) = false).
    { apply not_true_iff_false. intro C. apply Qle_bool_iff in C. lra. }
    assert (B2 : Qle_bool ((2 # 10) * m + (8 # 10) * M) l = true)
      by (apply Qle_bool_iff; lra).
    rewrite B1, B2 in St. exact St.
  - rewrite (@cursor_by_reference s p l m M Hp HE Hm HM Hc He Pp Nd Pm LM).
    apply clamp_monotone. rewrite Qred_correct. lra.
  - rewrite (@cursor_by_reference s p l m M Hp HE Hm HM Hc He Pp Nd Pm LM).
    apply clamp_monotone. rewrite Qred_correct. lra.
Qed.

Lemma live_status_by_latest_witness :
  exists s,
    fetchRealStockData "2330" (response sample_prices sample_pers) = Ok s
    /\ minPE (valuation s) = int 14 /\ maxPE (valuation s) = int 30
    /\ valuationStatus (Some s) = Cheap.
Proof.
  eexists. split; [reflexivity|].
  match goal with |- context [valuation ?x] => set (s := x) end.
  assert (L : (10 < List.length (validPEs_of (rev sample_pers)))%nat)
    by (vm_compute; lia).
  destruct (@live_status_by_latest "2330" (response sample_prices sample_pers)
              s sample_pers 150 15 eq_refl eq_refl L eq_refl eq_refl eq_refl
              eq_refl)
    as (lo & hi & Hlo & Hhi & _ & _ & Hcheap & _).
  split; [reflexivity|]. split; [reflexivity|].
  vm_compute in Hlo. injection Hlo as <-.
  vm_compute in Hhi. injection Hhi as <-.
  apply Hcheap. discriminate.
Defined.

(** X2: with ten or fewer surviving P/E observations every returned
    snapshot with a positive price is Fair, its price lies strictly
    between the cheap and the expensive price, and its cursor stands
    between 43 and 44: the fixed band always surrounds the price. *)
Theorem fallback_is_fair (symbol : string) (res : ApiResponse)
  (s : StockData) (pers : list PERRow) (p : Q) :
  fetchRealStockData symbol res = Ok s -> perJson_data res = Some pers ->
  (List.length (validPEs_of (rev pers)) <= 10)%nat ->
  currentPrice s = JS.Fin p -> (0 < p)%Q ->
  valuationStatus (Some s) = Fair
  /\ le_true (int 43) (cursorPosition (Some s))
  /\ le_true (cursorPosition (Some s)) (int 44)
  /\ (cheapPrice (valuation s) <? currentPrice s) = true
  /\ (currentPrice s <? expensivePrice (valuation s)) = true.
Proof.
  intros Hs Hr Hn Hp Pp.
  destruct (@fetch_inversion symbol res s Hs)
    as (prices & pers' & newest & older & _ & Hr' & _ & Es).
  rewrite Hr in Hr'. injection Hr' as <-.
  assert (Hv : valuation s
               = deriveBand (JS.Fin p) (currentPE s) (rev pers)).
  { rewrite Es in Hp |- *.
    cbn [valuation currentPrice currentPE] in Hp |- *. rewrite Hp.
    reflexivity. }
  rewrite (deriveBand_default _ _ _ Hn) in Hv.
  assert (N15 : ~ (15 == 0)%Q) by discriminate.
  assert (HE : eps (valuation s) = JS.Fin (Qred (p / 15))).
  { rewrite Hv. cbn [eps]. apply (div_Fin p N15). }
  assert (Hm : minPE (valuation s) = JS.Fin 10) by (rewrite Hv; reflexivity).
  assert (HM : maxPE (valuation s) = JS.Fin 20) by (rewrite Hv; reflexivity).
  assert (Hc : cheapPrice (valuation s)
               = eps (valuation s) * minPE (valuation s))
    by (rewrite Hv; reflexivity).
  assert (He : expensivePrice (valuation s)
               = eps (valuation s) * maxPE (valuation s))
    by (rewrite Hv; reflexivity).
  assert (Hf : fairPrice (valuation s)
               = (cheapPrice (valuation s) + expensivePrice (valuation s))
                 / int 2)
    by (rewrite Hv; reflexivity).
  assert (P10 : (0 < 10)%Q) by reflexivity.
  assert (L20 : (10 <= 20)%Q) by discriminate.
  split; [|split; [|split; [|split]]].
  - rewrite (@status_by_reference s p 15 10 20 Hp HE Hm HM Hc He Hf Pp N15
               P10 L20).
    reflexivity.
  - rewrite (@cursor_by_reference s p 15 10 20 Hp HE Hm HM Hc He Pp N15
               P10 L20).
    reflexivity.
  - rewrite (@cursor_by_reference s p 15 10 20 Hp HE Hm HM Hc He Pp N15
               P10 L20).
    reflexivity.
  - destruct (band_prices_rational _ HE Hm HM Hc He Hf)
      as (c & f & e & Ec & _ & _ & Qc & _ & _).
    rewrite Ec, Hp. apply lt_Fin. rewrite Qc, Qred_correct.
    setoid_replace (p / 15 * 10)%Q with ((2 # 3) * p)%Q by field. lra.
  - destruct (band_prices_rational _ HE Hm HM Hc He Hf)
      as (c & f & e & _ & _ & Ee & _ & Qe & _).
    rewrite Ee, Hp. apply lt_Fin. rewrite Qe, Qred_correct.
    setoid_replace (p / 15 * 20)%Q with ((4 # 3) * p)%Q by field. lra.
Qed.

Lemma fallback_is_fair_witness :
  exists s,
    fetchRealStockData "2330" (response sample_prices sample_pers_short) = Ok s
    /\ valuationStatus (Some s) = Fair
    /\ le_true (int 43) (cursorPosition (Some s))
    /\ le_true (cursorPosition (Some s)) (int 44).
Proof.
  eexists. split; [reflexivity|].
  match goal with |- context [valuationStatus (Some ?x)] => set (s := x) end.
  assert (L : (List.length (validPEs_of (rev sample_pers_short)) <= 10)%nat)
    by (vm_compute; lia).
  destruct (@fallback_is_fair "2330" (response sample_prices sample_pers_short)
              s sample_pers_short 150 eq_refl eq_refl L eq_refl eq_refl)
    as (Hst & Hlo & Hhi & _).
  split; [exact Hst|]. split; [exact Hlo | exact Hhi].
Defined.

(** X3: for a returned snapshot with a positive price and more than ten
    surviving P/E observations whose high bound exceeds the low bound by
    at least a thousandth, a latest P/E of zero always gives the status
    Cheap, with the cursor in the left half: the EPS is then taken from
    the smallest surviving P/E, which the low bound cannot lie under. *)
Theorem zero_latest_is_cheap (symbol : string) (res : ApiResponse)
  (s : StockData) (pers : list PERRow) (p l lo hi : Q) :
  fetchRealStockData symbol res = Ok s -> perJson_data res = Some pers ->
  (10 < List.length (validPEs_of (rev pers)))%nat ->
  currentPrice s = JS.Fin p -> (0 < p)%Q ->
  currentPE s = Some (JS.Fin l) -> (l == 0)%Q ->
  minPE (valuation s) = JS.Fin lo -> maxPE (valuation s) = JS.Fin hi ->
  ((1001 # 1000) * lo <= hi)%Q ->
  valuationStatus (Some s) = Cheap
  /\ le_true (cursorPosition (Some s)) (int 50).
Proof.
  intros Hs Hr Hn Hp Pp Hl Zl Hlo Hhi Gap.
  assert (Hfin : forall x, currentPE s = Some x -> finite x).
  { intros x Hx. rewrite Hl in Hx. injection Hx as <-. exact I. }
  destruct (@live_reference symbol res s pers p Hs Hr Hp Hfin)
    as (d & m & M & Nd & Pm & LM & HE & Hm & HM & Hc & He & Hf & _ & Hbig).
  destruct (Hbig Hn) as (Hd & d0 & H0 & P0 & L0).
  destruct (live_divisor _ _ Hd) as [_ Hd2].
  assert (d = d0) by (apply (Hd2 l); assumption). subst d0.
  assert (Em : lo = m) by (rewrite Hlo in Hm; injection Hm as <-; reflexivity).
  assert (EM : hi = M) by (rewrite Hhi in HM; injection HM as <-; reflexivity).
  subst lo hi.
  split.
  - rewrite (@status_by_reference s p d m M Hp HE Hm HM Hc He Hf Pp Nd Pm LM).
    assert (B : Qle_bool 0 d = true) by (apply Qle_bool_iff; lra).
    assert (B1 : Qle_bool d ((7 # 10) * m + (3 # 10) * M) = true)
      by (apply Qle_bool_iff; lra).
    rewrite B, B1. reflexivity.
  - rewrite (@cursor_by_reference s p d m M Hp HE Hm HM Hc He Pp Nd Pm LM).
    apply (clamp_at_most (c := 50)); try discriminate.
    rewrite Qred_correct.
    setoid_replace ((d - (8 # 10) * m) / ((12 # 10) * M - (8 # 10) * m) * 100)%Q
      with ((d - (8 # 10) * m) * 100 / ((12 # 10) * M - (8 # 10) * m))%Q
      by (field; lra).
    apply Qle_shift_div_r; lra.
Qed.

Lemma zero_latest_is_cheap_witness :
  exists s,
    fetchRealStockData "2330" (response sample_prices sample_pers_zero) = Ok s
    /\ currentPE s = Some (int 0)
    /\ valuationStatus (Some s) = Cheap
    /\ le_true (cursorPosition (Some s)) (int 50).
Proof.
  eexists. split; [reflexivity|].
  match goal with |- context [currentPE ?x] => set (s := x) end.
  assert (L : (10 < List.length (validPEs_of (rev sample_pers_zero)))%nat)
    by (vm_compute; lia).
  assert (G : ((1001 # 1000) * 14 <= 30)%Q) by discriminate.
  destruct (@zero_latest_is_cheap "2330"
              (response sample_prices sample_pers_zero)
              s sample_pers_zero 150 0 14 30 eq_refl eq_refl L eq_refl eq_refl
              eq_refl (Qeq_refl 0) eq_refl eq_refl G)
    as (Hst & Hcur).
  split; [reflexivity|]. split; assumption.
Defined.

(** X4: for a returned snapshot with a positive price and more than ten
    surviving P/E observations, a negative latest P/E gives a band of
    negative prices in reverse order (expensive <= fair <= cheap < 0), the
    status Expensive, and the cursor at 0, the cheap end of the chart. *)
Theorem negative_latest_is_expensive (symbol : string) (res : ApiResponse)
  (s : StockData) (pers : list PERRow) (p l : Q) :
  fetchRealStockData symbol res = Ok s -> perJson_data res = Some pers ->
  (10 < List.length (validPEs_of (rev pers)))%nat ->
  currentPrice s = JS.Fin p -> (0 < p)%Q ->
  currentPE s = Some (JS.Fin l) -> (l < 0)%Q ->
  valuationStatus (Some s) = Expensive
  /\ cursorPosition (Some s) = int 0
  /\ le_true (expensivePrice (valuation s)) (fairPrice (valuation s))
  /\ le_true (fairPrice (valuation s)) (cheapPrice (valuation s))
  /\ (cheapPrice (valuation s) <? int 0) = true.
Proof.
  intros Hs Hr Hn Hp Pp Hl Nl.
  assert (Hfin : forall x, currentPE s = Some x -> finite x).
  { intros x Hx. rewrite Hl in Hx. injection Hx as <-. exact I. }
  destruct (@live_reference symbol res s pers p Hs Hr Hp Hfin)
    as (d & m & M & Nd & Pm & LM & HE & Hm & HM & Hc & He & Hf & _ & Hbig).
  destruct (Hbig Hn) as (Hd & _).
  destruct (live_divisor _ _ Hd) as [Hd1 _].
  assert (d = l) by (apply Hd1; [exact Hl | lra]). subst d.
  destruct (quotient_sign Pp Nd) as (_ & _ & Sneg). specialize (Sneg Nl).
  split; [|split].
  - rewrite (@status_by_reference s p l m M Hp HE Hm HM Hc He Hf Pp Nd Pm LM).
    assert (B : Qle_bool 0 l = false).
    { apply not_true_iff_false. intro C. apply Qle_bool_iff in C. lra. }
    rewrite B. reflexivity.
  - rewrite (@cursor_by_reference s p l m M Hp HE Hm HM Hc He Pp Nd Pm LM).
    apply clamp_below. rewrite Qred_correct.
    assert (D : (0 < (12 # 10) * M - (8 # 10) * m)%Q) by lra.
    setoid_replace ((l - (8 # 10) * m) / ((12 # 10) * M - (8 # 10) * m) * 100)%Q
      with (- (((8 # 10) * m - l) * 100 / ((12 # 10) * M - (8 # 10) * m)))%Q
      by (field; lra).
    assert (0 < ((8 # 10) * m - l) * 100 / ((12 # 10) * M - (8 # 10) * m))%Q;
      [|lra].
    apply Qlt_shift_div_l; [exact D | lra].
  - destruct (band_prices_rational _ HE Hm HM Hc He Hf)
      as (c & f & e & Ec & Ef & Ee & Qc & Qe & Qf).
    rewrite Ec, Ef, Ee. rewrite Qred_correct in Qc, Qe, Qf.
    set (E := (p / l)%Q) in *. clearbody E.
    assert (Cm : (E * M <= E * m)%Q) by (apply scale_le_neg; assumption).
    assert (Cn : (E * m < 0)%Q).
    { setoid_replace (E * m)%Q with (- (- E * m))%Q by ring.
      assert (0 < - E * m)%Q; [|lra]. apply Qmult_lt_0_compat; lra. }
    split; [apply le_Fin | split; [apply le_Fin | apply lt_Fin]].
    + rewrite Qe, Qf. apply Qle_shift_div_l; [reflexivity | lra].
    + rewrite Qc, Qf. apply Qle_shift_div_r; [reflexivity | lra].
    + rewrite Qc. exact Cn.
Qed.

Lemma negative_latest_is_expensive_witness :
  exists s,
    fetchRealStockData "2330" (response sample_prices sample_pers_negative)
      = Ok s
    /\ currentPE s = Some (int (-5))
    /\ valuationStatus (Some s) = Expensive
    /\ cursorPosition (Some s) = int 0
    /\ cheapPrice (valuation s) = int (-420)
    /\ expensivePrice (valuation s) = int (-900).
Proof.
  eexists. split; [reflexivity|].
  match goal with |- context [currentPE ?x] => set (s := x) end.
  assert (L : (10 < List.length (validPEs_of (rev sample_pers_negative)))%nat)
    by (vm_compute; lia).
  destruct (@negative_latest_is_expensive "2330"
              (response sample_prices sample_pers_negative)
              s sample_pers_negative 150 (-5) eq_refl eq_refl L eq_refl eq_refl
              eq_refl eq_refl)
    as (Hst & Hcur & _).
  split; [reflexivity|]. split; [exact Hst|]. split; [exact Hcur|].
  split; reflexivity.
Defined.

(** ** [fetchRealStockData]: when it fails, and what it returns *)

Lemma rev_snoc_cons (A : Type) (l : list A) (x : A) :
  rev (l ++ [x]) = x :: rev l.
Proof. rewrite rev_app_distr. reflexivity. Qed.

Lemma sub_self (p : Q) : JS.Fin p - JS.Fin p = int 0.
Proof.
  rewrite sub_Fin. unfold int, JS.of_Z. f_equal.
  change (inject_Z 0) with (Qred 0). apply Qred_complete. ring.
Qed.

(** X5: the real fetch is rejected exactly when the price response has no
    [data] member or an empty one, or the P/E response has no [data] member
    (a missing name response is not an error); a snapshot it returns is
    labelled real, carries the symbol asked for, is named after the first
    row of the name response or else after the symbol, and has one record
    per price row. *)
Theorem fetch_outcome (sym : string) (res : ApiResponse) :
  ((exists message, fetchRealStockData sym res = Throw message)
   <-> (priceJson_data res = None \/ priceJson_data res = Some []
        \/ perJson_data res = None))
  /\ (forall s, fetchRealStockData sym res = Ok s ->
        symbol s = sym /\ isReal s = true
        /\ source s = "FinMind API"
        /\ name s = match infoJson_data res with
                    | Some (info :: _) => stock_name info
                    | _ => sym
                    end
        /\ exists prices,
             priceJson_data res = Some prices
             /\ List.length (historyData s) = List.length prices).
Proof.
  split.
  - unfold fetchRealStockData.
    destruct (priceJson_data res) as [[|p prices]|].
    + split; [intros _; right; left; reflexivity | intros _; eexists; reflexivity].
    + destruct (perJson_data res) as [pers|].
      * destruct (rev (p :: prices)) as [|newest older] eqn:Er.
        { apply (f_equal (@List.length _)) in Er.
          rewrite length_rev in Er. discriminate Er. }
        split.
        { intros [message H]. discriminate H. }
        { intros [H|[H|H]]; discriminate H. }
      * split; [intros _; right; right; reflexivity
               | intros _; eexists; reflexivity].
    + split; [intros _; left; reflexivity | intros _; eexists; reflexivity].
  - intros s Hs.
    destruct (fetch_inversion _ _ Hs)
      as (prices & pers & newest & older & Hp & _ & _ & Es).
    rewrite Es. cbn [symbol isReal source name historyData].
    split; [reflexivity|]. split; [reflexivity|]. split; [reflexivity|].
    split; [reflexivity|].
    exists prices. split; [exact Hp|].
    unfold join_history. rewrite length_map, length_rev. reflexivity.
Qed.

Lemma fetch_outcome_witness :
  exists s,
    fetchRealStockData "2330" (response sample_prices sample_pers) = Ok s
    /\ symbol s = "2330" /\ name s = "TSMC"
    /\ List.length (historyData s) = 2%nat.
Proof.
  eexists. split; [reflexivity|].
  destruct (fetch_outcome "2330" (response sample_prices sample_pers))
    as [_ H].
  destruct (H _ eq_refl) as (Hsym & _ & _ & Hname & prices & Hp & Hlen).
  split; [exact Hsym|]. split; [exact Hname|].
  rewrite Hlen. injection Hp as <-. reflexivity.
Defined.

(** X6: of a returned snapshot, the current price is the close of the last
    price row the API lists, and the change is the difference to the row
    before it, rounded to two decimals; with a single price row the change
    is 0. *)
Theorem price_and_change (symbol : string) (res : ApiResponse)
  (earlier : list PriceRow) (last : PriceRow) (pers : list PERRow) (p : Q) :
  priceJson_data res = Some (earlier ++ [last])%list ->
  perJson_data res = Some pers ->
  price_close last = JS.Fin p ->
  exists s,
    fetchRealStockData symbol res = Ok s
    /\ currentPrice s = JS.Fin p
    /\ (earlier = [] -> change s = int 0)
    /\ (forall before prev, earlier = (before ++ [prev])%list ->
          change s = JS.toFixed2 (JS.Fin p - price_close prev)).
Proof.
  intros Hp Hr Hl.
  assert (Hne : (earlier ++ [last])%list <> []) by (destruct earlier; discriminate).
  destruct (fetchRealStockData_ok symbol res Hp Hne Hr) as (s & Hs & _).
  exists s. split; [exact Hs|].
  destruct (fetch_inversion _ _ Hs)
    as (prices & pers' & newest & older & Hp' & _ & Er & Es).
  rewrite Hp in Hp'. injection Hp' as <-.
  rewrite rev_snoc_cons in Er. injection Er as <- <-.
  rewrite Es. cbn [currentPrice change]. rewrite Hl.
  split; [reflexivity|]. split.
  - intro E. rewrite E. cbn [rev]. rewrite sub_self. reflexivity.
  - intros before prev E. rewrite E, rev_snoc_cons. reflexivity.
Qed.

Lemma price_and_change_witness :
  exists s,
    fetchRealStockData "2330" (response sample_prices sample_pers) = Ok s
    /\ currentPrice s = int 150 /\ change s = int 2.
Proof.
  destruct (@price_and_change "2330" (response sample_prices sample_pers)
              (priceRows [("2024-01-02", 148%Z)])
              {| price_date := "2024-01-03"; price_close := int 150 |}
              sample_pers 150 eq_refl eq_refl eq_refl)
    as (s & Hs & Hc & _ & Hd).
  exists s. split; [exact Hs|]. split; [exact Hc|].
  exact (Hd [] {| price_date := "2024-01-02"; price_close := int 148 |} eq_refl).
Defined.

(** ** Moving averages and their cards *)

(** The running sum of [calculateMA] over closes within [lo] and [hi]. *)
Lemma sum_within (lo hi : Q) (l : list HistoryItem) :
  Forall (fun h => within lo hi (close h)) l ->
  forall a : Q,
  exists t : Q,
    fold_left (fun acc curr => acc + close curr) l (JS.Fin a) = JS.Fin t
    /\ (a + inject_Z (Z.of_nat (List.length l)) * lo <= t)%Q
    /\ (t <= a + inject_Z (Z.of_nat (List.length l)) * hi)%Q.
Proof.
  induction 1 as [|h l Hh _ IH]; intro a.
  - exists a. cbn [fold_left List.length Z.of_nat]. split; [reflexivity|].
    change (inject_Z 0) with 0%Q. split; lra.
  - cbn [fold_left]. unfold within in Hh.
    destruct (close h) as [q| | |]; try contradiction.
    cbn [JS.add].
    destruct (IH (Qred (a + q))) as (t & Et & Lo & Hi).
    exists t. split; [exact Et|].
    rewrite Qred_correct in Lo, Hi.
    cbn [List.length]. rewrite Nat2Z.inj_succ, <- Z.add_1_r, inject_Z_plus.
    change (inject_Z 1) with 1%Q.
    split; lra.
Qed.

Lemma of_nat_pos (n : nat) : (0 < n)%nat -> (0 < inject_Z (Z.of_nat n))%Q.
Proof.
  intro H. change 0%Q with (inject_Z 0). rewrite <- Zlt_Qlt. lia.
Qed.

(** X7: when a window of [days > 0] records is available and its closes
    lie between two whole numbers (small enough for [days] times either to
    be below 2^53, where a double still holds every whole number), the
    moving average is a finite number between the same two whole
    numbers. *)
Theorem calculateMA_between (data : list HistoryItem) (days : nat)
  (lo hi : Z) :
  (0 < days)%nat -> (days <= List.length data)%nat ->
  (Z.abs lo * Z.of_nat days < 2 ^ 53)%Z ->
  (Z.abs hi * Z.of_nat days < 2 ^ 53)%Z ->
  Forall (fun h => within (inject_Z lo) (inject_Z hi) (close h))
    (firstn days data) ->
  within (inject_Z lo) (inject_Z hi) (calculateMA data days).
Proof.
  intros Hd Hl _ _ Hf. unfold calculateMA.
  assert (E : (List.length data <? days)%nat = false)
    by (apply Nat.ltb_ge; exact Hl).
  rewrite E.
  destruct (@sum_within (inject_Z lo) (inject_Z hi) _ Hf 0)
    as (t & Et & Lo & Hi).
  unfold int, JS.of_Z. change (inject_Z 0) with 0%Q. rewrite Et.
  rewrite length_firstn, Nat.min_l in Lo, Hi by exact Hl.
  pose proof (of_nat_pos Hd) as Hn.
  unfold JS.of_nat, JS.of_Z. rewrite div_Fin by lra.
  unfold within. rewrite Qred_correct. split.
  - apply Qle_shift_div_l; [exact Hn | lra].
  - apply Qle_shift_div_r; [exact Hn | lra].
Qed.

Lemma calculateMA_between_witness :
  within 16 20 (calculateMA closes_20_to_1 5).
Proof.
  apply (@calculateMA_between closes_20_to_1 5 16 20);
    [lia | vm_compute; lia | reflexivity | reflexivity |].
  repeat constructor; vm_compute; discriminate.
Defined.

Lemma sum_above (l : list HistoryItem) :
  Forall (fun h => above 0 (close h)) l ->
  forall a : Q,
  exists t : Q,
    fold_left (fun acc curr => acc + close curr) l (JS.Fin a) = JS.Fin t
    /\ (a <= t)%Q /\ (l <> [] -> (a < t)%Q).
Proof.
  induction 1 as [|h l Hh _ IH]; intro a.
  - exists a. split; [reflexivity|]. split; [lra|].
    intro C. contradiction C. reflexivity.
  - cbn [fold_left]. unfold above in Hh.
    destruct (close h) as [q| | |]; try contradiction.
    cbn [JS.add].
    destruct (IH (Qred (a + q))) as (t & Et & Lo & _).
    exists t. split; [exact Et|].
    rewrite Qred_correct in Lo. split; [lra | intros _; lra].
Qed.

Lemma calculateMA_positive (data : list HistoryItem) (days : nat) :
  (0 < days)%nat -> (days <= List.length data)%nat ->
  Forall (fun h => above 0 (close h)) data ->
  above 0 (calculateMA data days).
Proof.
  intros Hd Hl Hf. unfold calculateMA.
  assert (E : (List.length data <? days)%nat = false)
    by (apply Nat.ltb_ge; exact Hl).
  rewrite E.
  assert (Hf' : Forall (fun h => above 0 (close h)) (firstn days data)).
  { rewrite <- (firstn_skipn days data) in Hf.
    apply Forall_app in Hf. exact (proj1 Hf). }
  destruct (sum_above Hf' 0) as (t & Et & _ & Lo).
  unfold int, JS.of_Z. change (inject_Z 0) with 0%Q. rewrite Et.
  assert (Ht : (0 < t)%Q).
  { apply Lo. intro C. apply (f_equal (@List.length _)) in C.
    rewrite length_firstn, Nat.min_l in C by exact Hl. cbn in C. lia. }
  pose proof (of_nat_pos Hd) as Hn.
  unfold JS.of_nat, JS.of_Z. rewrite div_Fin by lra.
  unfold above. rewrite Qred_correct.
  apply Qlt_shift_div_l; [exact Hn | lra].
Qed.

Lemma MACard_of_window (label : string) (data : list HistoryItem)
  (days : nat) (price : number) :
  (0 < days)%nat -> Forall (fun h => above 0 (close h)) data ->
  is_blank (MACard label (calculateMA data days ||| int 0) price)
  = (List.length data <? days)%nat.
Proof.
  intros Hd Hf. destruct (List.length data <? days)%nat eqn:E.
  - unfold calculateMA. rewrite E. reflexivity.
  - apply Nat.ltb_ge in E.
    pose proof (calculateMA_positive Hd E Hf) as W.
    unfold above in W.
    destruct (calculateMA data days) as [a| | |]; try contradiction.
    rename W into Ha.
    assert (T : JS.truthy (JS.Fin a) = true) by (apply truthy_Fin_true; lra).
    unfold JS.or_else. rewrite T. unfold MACard. rewrite T.
    assert (Z0 : (JS.Fin a === int 0) = false).
    { unfold JS.strict_eq, int, JS.of_Z, JS.compare.
      change (inject_Z 0) with 0%Q.
      destruct (a ?= 0)%Q eqn:C; try reflexivity.
      apply Qeq_alt in C. lra. }
    rewrite Z0. reflexivity.
Qed.

(** X8: for a snapshot whose closes are all positive, the moving-average
    panel shows the placeholder card exactly for the windows that are
    longer than the history, and an average for every other window. *)
Theorem cards_blank_iff_short (s : StockData) :
  Forall (fun h => above 0 (close h)) (historyData s) ->
  map is_blank (maCards s (maData (Some s)))
  = map (fun w => (List.length (historyData s) <? w)%nat) windows.
Proof.
  intro Hf. unfold maCards, maData, windows.
  cbn [map ma5 ma10 ma20 ma60 ma120 ma240].
  rewrite !MACard_of_window by (lia || exact Hf). reflexivity.
Qed.

Lemma cards_blank_iff_short_witness :
  map is_blank
    (maCards {| source := "FinMind API"; isReal := true; symbol := "2330";
                name := "TSMC"; currentPrice := int 20; change := int 1;
                currentPE := None; historyData := closes_20_to_1;
                valuation := example_band |}
       (maData (Some {| source := "FinMind API"; isReal := true;
                        symbol := "2330"; name := "TSMC";
                        currentPrice := int 20; change := int 1;
                        currentPE := None; historyData := closes_20_to_1;
                        valuation := example_band |})))
  = [false; false; false; true; true; true].
Proof.
  rewrite cards_blank_iff_short; [reflexivity|].
  repeat constructor.
Defined.

(** X9: a snapshot with a positive price and fewer than 240 records has a
    240-day average of 0, so the analyst panel reports a long-term bull
    market whatever the prices did; with fewer than 20 records the
    technical comment is always the one for rising long and short trends. *)
Theorem short_history_is_bullish (s : StockData) (p : Q) (status : string) :
  currentPrice s = JS.Fin p -> (0 < p)%Q ->
  (List.length (historyData s) < 240)%nat ->
  exists i,
    AnalystInsight (Some s) (maData (Some s)) status = Some i
    /\ isLongTermBull i = true
    /\ ((List.length (historyData s) < 20)%nat ->
        commentary i
        = Text (valuationComment (name s) status)
          :: Text " 技術面來看，"
          :: technicalComment true true (int 0)).
Proof.
  intros Hp Pp Hl. unfold AnalystInsight, maData.
  cbn [ma240 ma20].
  assert (E : calculateMA (historyData s) 240 = int 0).
  { unfold calculateMA.
    assert (B : (List.length (historyData s) <? 240)%nat = true)
      by (apply Nat.ltb_lt; exact Hl).
    rewrite B. reflexivity. }
  assert (G : (JS.Fin p >? int 0) = true) by (apply lt_Fin; exact Pp).
  rewrite E, Hp, G.
  destruct (if (status =? "便宜價")%string then ("低", "text-green-400")
            else if (status =? "昂貴價")%string then ("高", "text-red-400")
                 else ("中", "text-amber-400")) as [level colour].
  eexists. split; [reflexivity|]. cbn [isLongTermBull commentary].
  split; [reflexivity|].
  intro H20.
  assert (E20 : calculateMA (historyData s) 20 = int 0).
  { unfold calculateMA.
    assert (B : (List.length (historyData s) <? 20)%nat = true)
      by (apply Nat.ltb_lt; exact H20).
    rewrite B. reflexivity. }
  rewrite E20, G. reflexivity.
Qed.

Lemma short_history_is_bullish_witness :
  exists s,
    fetchRealStockData "2330" (response sample_prices sample_pers) = Ok s
    /\ exists i,
         AnalystInsight (Some s) (maData (Some s)) "便宜價" = Some i
         /\ isLongTermBull i = true.
Proof.
  eexists. split; [reflexivity|].
  match goal with |- context [maData (Some ?x)] => set (s := x) end.
  assert (L : (List.length (historyData s) < 240)%nat) by (vm_compute; lia).
  destruct (@short_history_is_bullish s 150 "便宜價" eq_refl eq_refl L)
    as (i & Hi & Hb & _).
  exists i. split; assumption.
Defined.

(** ** The badge, the analyst panel and the chart *)

(** X10: the analyst panel of a snapshot rates a cheap status as low risk,
    an expensive one as high risk, and both a fair status and the status
    without data as medium risk; the status without data nevertheless gets
    the valuation sentence of an expensive stock. *)
Theorem insight_by_status (s : StockData) (m : MaData) (st : Status) :
  exists i e,
    AnalystInsight (Some s) (Some m) (status_label st) = Some i
    /\ AnalystInsight (Some s) (Some m) (status_label Expensive) = Some e
    /\ riskLevel i = match st with
                     | Cheap => "低"
                     | Expensive => "高"
                     | Fair | NoData => "中"
                     end
    /\ hd_error (commentary i)
       = Some (Text (valuationComment (name s) (status_label st)))
    /\ (st = NoData -> commentary i = commentary e
                       /\ riskLevel i <> riskLevel e)
    /\ isLongTermBull i = (currentPrice s >? ma240 m).
Proof.
  destruct st; (do 2 eexists); (split; [reflexivity|]);
    (split; [reflexivity|]); (split; [reflexivity|]);
    (split; [reflexivity|]); (split; [|reflexivity]); intro H;
    try discriminate H.
  split; [reflexivity | discriminate].
Qed.

Lemma own_miss (A : Type) (key : string) (dict : list (string * A)) :
  (forall k v, In (k, v) dict -> k <> key) -> own key dict = None.
Proof.
  induction dict as [|[k v] rest IH]; intro H; [reflexivity|].
  cbn [own].
  assert (E : (k =? key)%string = false).
  { apply String.eqb_neq. apply (H k v). left. reflexivity. }
  rewrite E. apply IH. intros k' v' Hin. apply (H k' v'). right. exact Hin.
Qed.

Lemma inherited_iff (key : string) :
  existsb (String.eqb key) Object_prototype = true <-> In key Object_prototype.
Proof.
  rewrite existsb_exists. split.
  - intros (x & Hin & E). apply String.eqb_eq in E. subst x. exact Hin.
  - intro Hin. exists key. split; [exact Hin | apply String.eqb_refl].
Qed.

(** What the lookup yields for a key that the literal does not write. *)
Lemma lookup_miss (A : Type) (key : string) (dict : list (string * A)) :
  (forall k v, In (k, v) dict -> k <> key) ->
  (forall value, lookup key dict <> Own value)
  /\ (In key Object_prototype <-> lookup key dict = Inherited key)
  /\ (~ In key Object_prototype <-> lookup key dict = Undefined).
Proof.
  intro H. unfold lookup. rewrite (@own_miss A key dict H).
  pose proof (inherited_iff key) as I.
  destruct (existsb (String.eqb key) Object_prototype).
  - split; [intros value C; discriminate C|]. split.
    + split; [reflexivity | intros _; apply I; reflexivity].
    + split; [intro C; exfalso; apply C, I; reflexivity
             | intro C; discriminate C].
  - split; [intros value C; discriminate C|]. split.
    + split; [intro C; apply I in C; discriminate C | intro C; discriminate C].
    + split; [reflexivity|]. intros _ C. apply I in C. discriminate C.
Qed.

(** X11: the badge finds a style and an icon of its own for each of the
    four statuses [valuationStatus] can return, different statuses get
    different styles, and the subtitle says that the band cannot be
    computed exactly for the status without data.  For any other text the
    two literals hold no style and no icon: the lookup then yields a member
    inherited from [Object.prototype] when the text is one of its property
    names, and [undefined] otherwise. *)
Theorem badge_lookup (sd : option StockData) (other : string) :
  let b := ValuationBadge (status_label (valuationStatus sd)) in
  (exists style icon, badgeStyle b = Own style /\ badgeIcon b = Own icon)
  /\ (badgeSubtitle b = "無法計算 P/E 區間" <-> valuationStatus sd = NoData)
  /\ (forall sd',
        badgeStyle (ValuationBadge (status_label (valuationStatus sd')))
        = badgeStyle b -> valuationStatus sd' = valuationStatus sd)
  /\ ((forall st, other <> status_label st) ->
      (forall style, badgeStyle (ValuationBadge other) <> Own style)
      /\ (forall icon, badgeIcon (ValuationBadge other) <> Own icon)
      /\ (In other Object_prototype <->
          badgeStyle (ValuationBadge other) = Inherited other)
      /\ (In other Object_prototype <->
          badgeIcon (ValuationBadge other) = Inherited other)
      /\ (~ In other Object_prototype <->
          badgeStyle (ValuationBadge other) = Undefined)
      /\ (~ In other Object_prototype <->
          badgeIcon (ValuationBadge other) = Undefined)).
Proof.
  cbv zeta. split; [|split; [|split]].
  - destruct (valuationStatus sd); do 2 eexists; split; reflexivity.
  - destruct (valuationStatus sd); split; intro H;
      try reflexivity; discriminate H.
  - intro sd'.
    destruct (valuationStatus sd), (valuationStatus sd'); intro H;
      try reflexivity; discriminate H.
  - intro H. unfold ValuationBadge. cbn [badgeStyle badgeIcon].
    assert (Hs : forall k (v : string), In (k, v) badge_styles -> k <> other).
    { intros k v Hin C. subst k. cbn [In badge_styles] in Hin.
      destruct Hin as [E|[E|[E|[E|[]]]]]; injection E as E _;
        [ apply (H Cheap) | apply (H Fair) | apply (H Expensive)
        | apply (H NoData) ]; symmetry; exact E. }
    assert (Hi : forall k (v : string), In (k, v) badge_icons -> k <> other).
    { intros k v Hin C. subst k. cbn [In badge_icons] in Hin.
      destruct Hin as [E|[E|[E|[E|[]]]]]; injection E as E _;
        [ apply (H Cheap) | apply (H Fair) | apply (H Expensive)
        | apply (H NoData) ]; symmetry; exact E. }
    destruct (@lookup_miss _ other badge_styles Hs) as (S1 & S2 & S3).
    destruct (@lookup_miss _ other badge_icons Hi) as (I1 & I2 & I3).
    split; [exact S1|]. split; [exact I1|]. split; [exact S2|].
    split; [exact I2|]. split; [exact S3 | exact I3].
Qed.

Lemma badge_lookup_witness :
  badgeStyle (ValuationBadge "constructor") = Inherited "constructor"
  /\ badgeIcon (ValuationBadge "2330") = Undefined.
Proof.
  assert (N1 : forall st, "constructor" <> status_label st)
    by (intros []; discriminate).
  assert (N2 : forall st, "2330" <> status_label st)
    by (intros []; discriminate).
  destruct (badge_lookup None "constructor") as (_ & _ & _ & H1).
  destruct (badge_lookup None "2330") as (_ & _ & _ & H2).
  destruct (H1 N1) as (_ & _ & S & _). destruct (H2 N2) as (_ & _ & _ & _ & _ & U).
  split.
  - apply S. cbn. left. reflexivity.
  - apply U. cbn. intros [C|[C|[C|[C|[C|[C|[C|[C|[C|[C|[C|[C|[]]]]]]]]]]]]];
      discriminate C.
Defined.

Lemma truthy_scaled (e : number) (m : Q) :
  (0 < m)%Q -> JS.truthy (e * JS.Fin m) = JS.truthy e.
Proof.
  intro Hm.
  assert (S : JS.Qsign m = Gt) by (apply Qsign_pos; exact Hm).
  destruct e as [q| | |]; cbn [JS.mul]; try reflexivity.
  - destruct (JS.truthy (JS.Fin q)) eqn:T.
    + apply truthy_Fin_true. rewrite Qred_correct.
      apply truthy_Fin_true in T. intro Z. apply T.
      apply Qmult_integral in Z. destruct Z as [Z|Z]; [exact Z | lra].
    + apply truthy_Fin. rewrite Qred_correct.
      apply truthy_Fin in T. rewrite T. ring.
  - rewrite S. reflexivity.
  - rewrite S. reflexivity.
Qed.

Lemma live_chart (symbol : string) (res : ApiResponse) (s : StockData) :
  fetchRealStockData symbol res = Ok s ->
  JS.truthy (cheapPrice (valuation s)) = JS.truthy (eps (valuation s))
  /\ JS.truthy (expensivePrice (valuation s)) = JS.truthy (eps (valuation s)).
Proof.
  intro Hs. destruct (fetchRealStockData_band _ _ Hs) as (latest & pers & Hv).
  rewrite Hv.
  destruct (deriveBand_multiples (currentPrice s) latest pers)
    as (m & M & Hm & HM & Pm & PM).
  destruct (deriveBand_prices (currentPrice s) latest pers) as (Hc & He & _).
  rewrite Hc, He, Hm, HM. split; apply truthy_scaled; assumption.
Qed.

Lemma chart_status (s : StockData) :
  JS.truthy (expensivePrice (valuation s))
  = JS.truthy (cheapPrice (valuation s)) ->
  (chartOf s = None <-> valuationStatus (Some s) = NoData).
Proof.
  intro H. unfold chartOf, valuationStatus. rewrite H.
  destruct (JS.truthy (cheapPrice (valuation s))); cbn [negb orb].
  - split; [intro C; discriminate C|].
    destruct (currentPrice s <=? lowerThreshold (valuation s));
      [intro C; discriminate C|].
    destruct (currentPrice s >=? upperThreshold (valuation s));
      intro C; discriminate C.
  - split; reflexivity.
Qed.

Lemma mock_chart (env : Env) (symbol : string) :
  random_in_range env ->
  exists s,
    getMockData env symbol = Ok s
    /\ JS.truthy (cheapPrice (valuation s)) = true
    /\ JS.truthy (expensivePrice (valuation s)) = true.
Proof.
  intro Hr.
  destruct (getMockData_ok symbol Hr)
    as (s & newest & older & Hs & _ & _ & _ & _ & He & Hok & Hm & HM & Hb).
  exists s. split; [exact Hs|]. clear Hs.
  destruct Hok as [Hc Hp]. unfold at_least in Hc. unfold above in Hp, Hm, HM.
  destruct (close newest) as [c| | |]; try contradiction.
  destruct (pe newest) as [q| | |]; try contradiction.
  destruct (minPE (valuation s)) as [m| | |] eqn:Em; try contradiction.
  destruct (maxPE (valuation s)) as [M| | |] eqn:EM; try contradiction.
  destruct Hb as (_ & Hcp & Hep & _).
  assert (Nq : ~ (q == 0)%Q) by lra.
  rewrite (div_Fin c Nq) in He.
  assert (T : JS.truthy (eps (valuation s)) = true).
  { rewrite He. apply truthy_Fin_true. rewrite Qred_correct.
    assert (0 < c / q)%Q; [|lra]. apply Qlt_shift_div_l; lra. }
  rewrite Hcp, Hep, Em, EM, !truthy_scaled by assumption.
  split; exact T.
Qed.

(** X12: for the snapshot a search ends with, the valuation panel shows the
    not-enough-data message instead of the chart exactly when the status is
    the one without data; a synthetic snapshot always gets the chart. *)
Theorem chart_iff_status (env : Env) (net : string -> option ApiResponse)
  (symbol : string) (st : AppState) :
  random_in_range env -> symbol <> "" ->
  exists s,
    stockData (handleSearch env net (Some symbol) st) = Some s
    /\ (chartOf s = None <-> valuationStatus (Some s) = NoData)
    /\ (isReal s = false ->
        chartOf s <> None /\ valuationStatus (Some s) <> NoData).
Proof.
  intros Hr Hne. apply String.eqb_neq in Hne.
  unfold handleSearch. rewrite Hne. rewrite Hne.
  assert (Mock : exists s, getMockData env symbol = Ok s
            /\ (chartOf s = None <-> valuationStatus (Some s) = NoData)
            /\ (chartOf s <> None /\ valuationStatus (Some s) <> NoData)).
  { destruct (mock_chart symbol Hr) as (s & Hs & Tc & Te).
    assert (I : chartOf s = None <-> valuationStatus (Some s) = NoData)
      by (apply chart_status; rewrite Tc, Te; reflexivity).
    assert (C : chartOf s <> None).
    { unfold chartOf. rewrite Tc. intro C. discriminate C. }
    exists s. split; [exact Hs|]. split; [exact I|]. split; [exact C|].
    intro N. apply C. apply I. exact N. }
  destruct Mock as (ms & Hms & Im & Cm).
  assert (Live : forall res s, fetchRealStockData symbol res = Ok s ->
            (chartOf s = None <-> valuationStatus (Some s) = NoData)
            /\ isReal s = true).
  { intros res s Hs. split.
    - apply chart_status. destruct (live_chart _ _ Hs) as [A B].
      rewrite A, B. reflexivity.
    - destruct (fetch_inversion _ _ Hs) as (? & ? & ? & ? & _ & _ & _ & Es).
      rewrite Es. reflexivity. }
  destruct (net symbol) as [res|].
  - destruct (fetchRealStockData symbol res) as [s|msg] eqn:Hs.
    + destruct (Live res s Hs) as [I R].
      exists s. cbn [stockData]. split; [reflexivity|]. split; [exact I|].
      intro F. rewrite R in F. discriminate F.
    + rewrite Hms. exists ms. cbn [stockData].
      split; [reflexivity|]. split; [exact Im|]. intros _. exact Cm.
  - rewrite Hms. exists ms. cbn [stockData].
    split; [reflexivity|]. split; [exact Im|]. intros _. exact Cm.
Qed.

Lemma chart_iff_status_witness :
  exists s,
    stockData (handleSearch (sample_env jan3 0) online (Some "2330")
                 initialState) = Some s
    /\ (chartOf s = None <-> valuationStatus (Some s) = NoData).
Proof.
  assert (R : random_in_range (sample_env jan3 0)).
  { intro k. cbn. split; lra. }
  assert (N : "2330" <> "") by discriminate.
  destruct (@chart_iff_status (sample_env jan3 0) online "2330" initialState
              R N) as (s & Hs & I & _).
  exists s. split; assumption.
Defined.

(** ** [handleSearch] and the view after it *)

Lemma getMockData_labels (env : Env) (sym : string) :
  exists s,
    getMockData env sym = Ok s
    /\ symbol s = sym /\ isReal s = false
    /\ source s = "模擬數據 (API連線失敗)".
Proof.
  unfold getMockData. cbv zeta.
  pose proof (generatePrices_length env (seed_of sym) mockDays) as Hlen.
  destruct (generatePrices env (seed_of sym) mockDays) as [|newest older];
    [discriminate Hlen|].
  eexists. split; [reflexivity|]. split; [reflexivity|].
  split; reflexivity.
Qed.

Lemma fetch_labels (sym : string) (res : ApiResponse) (s : StockData) :
  fetchRealStockData sym res = Ok s ->
  symbol s = sym /\ isReal s = true /\ source s = "FinMind API".
Proof.
  intro Hs.
  destruct (fetch_inversion _ _ Hs) as (? & ? & ? & ? & _ & _ & _ & Es).
  rewrite Es. split; [reflexivity|]. split; reflexivity.
Qed.

(** What a search for a non-empty symbol leaves in the state. *)
Lemma handleSearch_cases (env : Env) (net : string -> option ApiResponse)
  (input : option string) (st : AppState) (sym : string) :
  sym <> "" ->
  match input with Some (String c r) => String c r | _ => query st end = sym ->
  let st' := handleSearch env net input st in
  query st' = query st /\ loading st' = false
  /\ exists s,
       stockData st' = Some s /\ symbol s = sym
       /\ ((exists res, net sym = Some res /\ fetchRealStockData sym res = Ok s)
           /\ isReal s = true /\ error st' = None
           \/ (forall res, net sym = Some res ->
                 exists message, fetchRealStockData sym res = Throw message)
              /\ getMockData env sym = Ok s
              /\ isReal s = false
              /\ exists message, error st' = Some message /\ message <> "").
Proof.
  intros Hne Hsym st'. subst st'. unfold handleSearch.
  assert (E : match input with
              | Some s => if (s =? "")%string then query st else s
              | None => query st
              end = sym).
  { destruct input as [[|c r]|]; exact Hsym. }
  rewrite E. apply String.eqb_neq in Hne. rewrite Hne.
  destruct (getMockData_labels env sym) as (ms & Hms & Msym & Mreal & _).
  rewrite Hms. clear E Hsym.
  destruct (net sym) as [res|].
  - destruct (fetchRealStockData sym res) as [s|msg] eqn:Hs.
    + destruct (fetch_labels _ _ Hs) as (Ssym & Sreal & _).
      cbn [query loading stockData error].
      split; [reflexivity|]. split; [reflexivity|].
      exists s. split; [reflexivity|]. split; [exact Ssym|].
      left. split; [|split; [exact Sreal | reflexivity]].
      exists res. split; [reflexivity | exact Hs].
    + cbn [query loading stockData error].
      split; [reflexivity|]. split; [reflexivity|].
      exists ms. split; [reflexivity|]. split; [exact Msym|].
      right. split; [|split; [reflexivity|split; [exact Mreal|]]].
      * intros res' Hr. injection Hr as <-. exists msg. exact Hs.
      * eexists. split; [reflexivity | discriminate].
  - cbn [query loading stockData error].
    split; [reflexivity|]. split; [reflexivity|].
    exists ms. split; [reflexivity|]. split; [exact Msym|].
    right. split; [|split; [reflexivity|split; [exact Mreal|]]].
    + intros res' Hr. discriminate Hr.
    + eexists. split; [reflexivity | discriminate].
Qed.

(** X13: a search without a symbol (no argument, or an empty one, and an
    empty input field) leaves the state untouched.  A search for a symbol
    keeps the input field, ends the loading state, and always leaves a
    snapshot of the symbol searched for: the real one, without an error
    message, exactly when the network answered and the real fetch
    succeeded; otherwise the synthetic one, with the advisory message. *)
Theorem search_outcome (env : Env) (net : string -> option ApiResponse)
  (input : option string) (st : AppState) :
  let sym := match input with
             | Some (String c r) => String c r
             | _ => query st
             end in
  let st' := handleSearch env net input st in
  (sym = "" -> st' = st)
  /\ (sym <> "" ->
      query st' = query st /\ loading st' = false
      /\ exists s,
           stockData st' = Some s /\ symbol s = sym
           /\ (isReal s = true <-> error st' = None)
           /\ (isReal s = true <->
               exists res, net sym = Some res
                           /\ fetchRealStockData sym res = Ok s)
           /\ (isReal s = false <-> getMockData env sym = Ok s)).
Proof.
  intros sym st'. split.
  - intro E. subst st'. unfold handleSearch.
    assert (E' : match input with
                 | Some s => if (s =? "")%string then query st else s
                 | None => query st
                 end = "").
    { subst sym. destruct input as [[|c r]|]; exact E. }
    rewrite E'. reflexivity.
  - intro Hne.
    destruct (@handleSearch_cases env net input st sym Hne eq_refl)
      as (Hq & Hl & s & Hs & Hsym & Hcase).
    fold st' in Hq, Hl, Hs, Hcase.
    split; [exact Hq|]. split; [exact Hl|].
    exists s. split; [exact Hs|]. split; [exact Hsym|].
    destruct Hcase as [(Hres & Hreal & Herr)
                      |(Hno & Hmock & Hreal & msg & Herr & _)].
    + split; [split; intros _; assumption|].
      split; [split; intros _; assumption|].
      split.
      * intro F. rewrite Hreal in F. discriminate F.
      * intro Hm. destruct (getMockData_labels env sym) as (ms & Hms & _ & F & _).
        rewrite Hm in Hms. injection Hms as <-.
        rewrite Hreal in F. discriminate F.
    + split.
      { split; intro C; [rewrite Hreal in C | rewrite Herr in C];
          discriminate C. }
      split.
      { split; [intro C; rewrite Hreal in C; discriminate C|].
        intros (res & Hr & Hok). destruct (Hno res Hr) as [m Hm].
        rewrite Hok in Hm. discriminate Hm. }
      split; intros _; assumption.
Qed.

Lemma search_outcome_witness :
  handleSearch (sample_env jan3 0) online None initialState = initialState
  /\ exists s,
       stockData (handleSearch (sample_env jan3 0) online (Some "2330")
                    initialState) = Some s
       /\ symbol s = "2330" /\ isReal s = true.
Proof.
  split.
  - exact (proj1 (search_outcome (sample_env jan3 0) online None initialState)
             eq_refl).
  - assert (N : "2330" <> "") by discriminate.
    destruct (proj2 (search_outcome (sample_env jan3 0) online (Some "2330")
                       initialState) N)
      as (_ & _ & s & Hs & Hsym & _ & Hreal & _).
    exists s. split; [exact Hs|]. split; [exact Hsym|].
    apply (proj2 Hreal). eexists. split; [reflexivity|].
    cbv zeta in Hs.
    change (handleSearch (sample_env jan3 0) online (Some "2330") initialState)
      with {| query := ""; loading := false; error := None;
              stockData :=
                match fetchRealStockData "2330"
                        (response sample_prices sample_pers) with
                | Ok d => Some d
                | Throw _ => None
                end |} in Hs.
    cbn [stockData] in Hs.
    destruct (fetchRealStockData "2330" (response sample_prices sample_pers))
      as [d|] eqn:Hd; [|discriminate Hs].
    injection Hs as <-. reflexivity.
Defined.

(** X14: when a search for a symbol has ended, the view shows the content
    with the symbol in the heading and six moving-average cards, not the
    start placeholder, and the search button is enabled again; the advisory
    banner and the note about simulated data appear exactly when the
    snapshot shown is synthetic. *)
Theorem view_after_search (env : Env) (net : string -> option ApiResponse)
  (sym : string) (st : AppState) :
  sym <> "" ->
  let st' := handleSearch env net (Some sym) st in
  let v := render st' in
  buttonDisabled v = false /\ placeholder v = false
  /\ exists s c,
       stockData st' = Some s /\ content v = Some c
       /\ sourceLine v = Some (isReal s, source s)
       /\ snd (heading c) = sym
       /\ List.length (cards c) = 6%nat
       /\ (errorBanner v = None <-> isReal s = true)
       /\ (dataNote c = "目前為模擬數據模式，僅供介面展示。"
           <-> isReal s = false)
       /\ badgeTitle (badge c) = status_label (valuationStatus (Some s)).
Proof.
  intros Hne st' v.
  assert (Hin : match Some sym with
                | Some (String c r) => String c r
                | _ => query st
                end = sym).
  { destruct sym as [|c r]; [contradiction Hne; reflexivity | reflexivity]. }
  destruct (@handleSearch_cases env net (Some sym) st sym Hne Hin)
    as (_ & Hl & s & Hs & Hsym & Hcase).
  fold st' in Hl, Hs, Hcase.
  subst v. unfold render. rewrite Hs, Hl.
  cbn [buttonDisabled placeholder content sourceLine errorBanner].
  split; [reflexivity|]. split; [reflexivity|].
  exists s. eexists. split; [reflexivity|]. split; [reflexivity|].
  split; [reflexivity|].
  cbn [heading snd cards dataNote badge]. split; [exact Hsym|].
  split; [reflexivity|].
  destruct Hcase as [(_ & Hreal & Herr)|(_ & _ & Hreal & msg & Herr & Hmsg)].
  - rewrite Herr, Hreal. split; [split; reflexivity|].
    split; [split; intro C; discriminate C | reflexivity].
  - rewrite Herr, Hreal.
    apply String.eqb_neq in Hmsg. rewrite Hmsg. cbn [negb].
    split; [split; intro C; discriminate C|].
    split; [split; reflexivity | reflexivity].
Qed.

Lemma view_after_search_witness :
  buttonDisabled (render (handleSearch (sample_env jan3 0) offline
                            (Some "2330") initialState)) = false
  /\ placeholder (render (handleSearch (sample_env jan3 0) offline
                            (Some "2330") initialState)) = false.
Proof.
  assert (N : "2330" <> "") by discriminate.
  destruct (@view_after_search (sample_env jan3 0) offline "2330"
              initialState N) as (Hb & Hp & _).
  split; assumption.
Defined.

(** ** The generator: the ratio of close to P/E, and the role of the seed *)

(** Rounding to two decimals moves a number by at most half a cent. *)
Lemma round2_near (q : Q) :
  (q - (1 # 200) <= JS.round2 q /\ JS.round2 q <= q + (1 # 200))%Q.
Proof.
  unfold JS.round2.
  destruct (Qle_bool (inject_Z (10 ^ 21)) (Qabs q)).
  - rewrite Qred_correct. split; lra.
  - rewrite Qred_correct.
    pose proof (Qfloor_le (Qabs q * 100 + (1 # 2))) as Lo.
    pose proof (Qlt_floor (Qabs q * 100 + (1 # 2))) as Hi.
    rewrite inject_Z_plus in Hi. change (inject_Z 1) with 1%Q in Hi.
    set (n := inject_Z (Qfloor (Qabs q * 100 + (1 # 2)))) in *.
    unfold JS.Qsign. destruct (q ?= 0)%Q eqn:Es.
    + apply Qeq_alt in Es.
      assert (A : (Qabs q == q)%Q) by (apply Qabs_pos; lra).
      rewrite A in Lo, Hi. fold n.
      split; [apply Qle_shift_div_l | apply Qle_shift_div_r]; lra.
    + apply Qlt_alt in Es.
      assert (A : (Qabs q == - q)%Q) by (apply Qabs_neg; lra).
      rewrite A in Lo, Hi. fold n. rewrite inject_Z_opp. fold n.
      split; [apply Qle_shift_div_l | apply Qle_shift_div_r]; lra.
    + apply Qgt_alt in Es.
      assert (A : (Qabs q == q)%Q) by (apply Qabs_pos; lra).
      rewrite A in Lo, Hi. fold n.
      split; [apply Qle_shift_div_l | apply Qle_shift_div_r]; lra.
Qed.

Lemma generateStep_ratio (env : Env) (days i : nat) (price : number) :
  random_in_range env -> finite price ->
  ratio_between 19 26 (snd (generateStep env days i price)).
Proof.
  intros Hr Hp. destruct price as [p| | |]; try contradiction.
  unfold generateStep, Math_random, Math_sin, dec, int, JS.of_nat, JS.of_Z.
  cbn [JS.mul JS.add]. rewrite sub_Fin. cbn [JS.mul JS.add].
  set (x := Qred (p + _)).
  assert (Hy : exists y,
             (if JS.Fin x <? JS.Fin (inject_Z 10) then JS.Fin (inject_Z 10)
              else JS.Fin x) = JS.Fin y /\ (10 <= y)%Q).
  { destruct (JS.Fin x <? JS.Fin (inject_Z 10)) eqn:E.
    - exists (inject_Z 10). split; [reflexivity|]. apply Qle_refl.
    - exists x. split; [reflexivity|]. apply lt_Fin_false in E. exact E. }
  destruct Hy as (y & Ey & Hy). rewrite Ey. cbn [snd].
  destruct (Hr (2 * i + 1)%nat) as [R0 R1].
  set (r := random env (2 * i + 1)) in *.
  set (D := Qred (inject_Z 20 + Qred (r * inject_Z 5))).
  assert (Hd : (20 <= D /\ D < 25)%Q).
  { unfold D. change (inject_Z 20) with 20%Q. change (inject_Z 5) with 5%Q.
    split; do 2 rewrite Qred_correct; lra. }
  rewrite div_Fin by lra.
  unfold ratio_between. cbn [close pe JS.toFixed2].
  destruct (round2_near y) as [C1 C2].
  destruct (round2_near (Qred (y / D))) as [P1 P2].
  pose proof (Qred_correct (y / D)) as Ew.
  set (w := Qred (y / D)) in *. clearbody w.
  set (c := JS.round2 y) in *. set (q := JS.round2 w) in *.
  clearbody c q.
  assert (Z0 : (0 < y / D)%Q) by (apply Qlt_shift_div_l; lra).
  assert (Z1 : (y / D * 20 <= y)%Q).
  { setoid_replace (y / D * 20)%Q with (y * 20 / D)%Q by (field; lra).
    apply Qle_shift_div_r; [lra|].
    assert (0 <= y * (D - 20))%Q by (apply Qmult_le_0_compat; lra).
    setoid_replace (y * D)%Q with (y * 20 + y * (D - 20))%Q by ring. lra. }
  assert (Z2 : (y < y / D * 25)%Q).
  { setoid_replace (y / D * 25)%Q with (y * 25 / D)%Q by (field; lra).
    apply Qlt_shift_div_l; [lra|].
    assert (0 < y * (25 - D))%Q by (apply Qmult_lt_0_compat; lra).
    setoid_replace (y * 25)%Q with (y * D + y * (25 - D))%Q by ring. lra. }
  set (z := (y / D)%Q) in *. clearbody z.
  split; [lra|]. split; lra.
Qed.

Lemma generateLoop_ratio (env : Env) (days n : nat) :
  random_in_range env ->
  forall (i : nat) (price : number) (data : list HistoryItem),
    finite price -> Forall (ratio_between 19 26) data ->
    Forall (ratio_between 19 26) (generateLoop env days n i price data).
Proof.
  intro Hr. induction n as [|n IH]; intros i price data Hp Hd;
    cbn [generateLoop].
  - exact Hd.
  - destruct (@generateStep_ok env days i price Hr Hp) as [H1 _].
    pose proof (@generateStep_ratio env days i price Hr Hp) as H2.
    destruct (generateStep env days i price) as [price' item].
    cbn [fst snd] in H1, H2. apply IH.
    + apply at_least_finite with 10%Q. exact H1.
    + apply Forall_app. split; [exact Hd|]. constructor; [exact H2|constructor].
Qed.

(** X15: whatever the symbol, every record of the synthetic series has a
    close between 19 and 26 times its P/E, so the earnings per share the
    synthetic snapshot reports always lie between 19 and 26. *)
Theorem mock_eps_range (env : Env) (symbol : string) :
  random_in_range env ->
  exists s e,
    getMockData env symbol = Ok s
    /\ Forall (ratio_between 19 26) (historyData s)
    /\ eps (valuation s) = JS.Fin e /\ (19 < e)%Q /\ (e < 26)%Q.
Proof.
  intro Hr.
  destruct (getMockData_ok symbol Hr)
    as (s & newest & older & Hs & _ & Hh & Hn & _ & He & _).
  assert (F : Forall (ratio_between 19 26) (historyData s)).
  { rewrite Hh. unfold generatePrices. apply Forall_rev.
    apply generateLoop_ratio; [exact Hr | exact I | constructor]. }
  pose proof F as F'. rewrite Hn in F'. apply Forall_inv in F'.
  unfold ratio_between in F'.
  destruct (close newest) as [c| | |]; try contradiction.
  destruct (pe newest) as [q| | |]; try contradiction.
  destruct F' as (Pq & Lo & Hi).
  assert (Nq : ~ (q == 0)%Q) by lra.
  rewrite (div_Fin c Nq) in He.
  exists s. eexists. split; [exact Hs|]. split; [exact F|].
  split; [exact He|]. rewrite Qred_correct.
  split; [apply Qlt_shift_div_l | apply Qlt_shift_div_r]; lra.
Qed.

Lemma mock_eps_range_witness :
  exists s e,
    getMockData (sample_env jan3 0) "2330" = Ok s
    /\ eps (valuation s) = JS.Fin e /\ (19 < e)%Q /\ (e < 26)%Q.
Proof.
  assert (R : random_in_range (sample_env jan3 0)).
  { intro k. cbn. split; lra. }
  destruct (@mock_eps_range (sample_env jan3 0) "2330" R)
    as (s & e & Hs & _ & He & Lo & Hi).
  exists s, e. split; [exact Hs|]. split; [exact He|]. split; assumption.
Defined.

Lemma basePrice_mod (a b : string) :
  (charCodeSum a mod 200 = charCodeSum b mod 200)%Z ->
  basePrice (seed_of a) = basePrice (seed_of b).
Proof.
  intro H.
  destruct (basePrice_range a) as [Ea _]. destruct (basePrice_range b) as [Eb _].
  destruct (seed_of_sum a) as [Sa _]. destruct (seed_of_sum b) as [Sb _].
  rewrite Ea, Eb, Sa, Sb, H. reflexivity.
Qed.

Lemma generatePrices_seed (env : Env) (days : nat) (seed1 seed2 : Z) :
  basePrice seed1 = basePrice seed2 ->
  generatePrices env seed1 days = generatePrices env seed2 days.
Proof.
  intro H. unfold generatePrices. rewrite H. reflexivity.
Qed.

(** Two symbols made of the same characters have the same sum. *)
Lemma charCodeSum_anagram (a b : string) :
  Permutation (list_ascii_of_string a) (list_ascii_of_string b) ->
  charCodeSum a = charCodeSum b.
Proof.
  unfold charCodeSum.
  induction 1; cbn [fold_right]; lia.
Qed.

(** X16: the symbol enters the synthetic series only through the sum of
    its character codes modulo 200: two symbols whose sums agree modulo
    200 (two symbols made of the same characters in another order, for
    one) get snapshots that agree in the history, the band, the price, the
    latest P/E and the change. *)
Theorem same_series_for_congruent_seeds (env : Env) (a b : string) :
  (charCodeSum a mod 200 = charCodeSum b mod 200)%Z ->
  exists sa sb,
    getMockData env a = Ok sa /\ getMockData env b = Ok sb
    /\ historyData sa = historyData sb
    /\ valuation sa = valuation sb
    /\ currentPrice sa = currentPrice sb
    /\ currentPE sa = currentPE sb
    /\ change sa = change sb.
Proof.
  intro Hm.
  pose proof (generatePrices_seed env mockDays (basePrice_mod a b Hm)) as Hg.
  unfold getMockData. cbv zeta. rewrite Hg.
  pose proof (generatePrices_length env (seed_of b) mockDays) as Hlen.
  destruct (generatePrices env (seed_of b) mockDays) as [|newest older];
    [discriminate Hlen|].
  do 2 eexists. split; [reflexivity|]. split; [reflexivity|].
  cbn [historyData valuation currentPrice currentPE change].
  split; [reflexivity|]. split; [reflexivity|]. split; [reflexivity|].
  split; reflexivity.
Qed.

Lemma same_series_for_congruent_seeds_witness :
  exists sa sb,
    getMockData (sample_env jan3 0) "2330" = Ok sa
    /\ getMockData (sample_env jan3 0) "3302" = Ok sb
    /\ historyData sa = historyData sb.
Proof.
  assert (P : Permutation (list_ascii_of_string "2330")
                (list_ascii_of_string "3302")).
  { cbn.
    apply perm_trans with ["3"; "2"; "3"; "0"]%char;
      [apply perm_swap|]. apply perm_skip.
    apply perm_trans with ["3"; "2"; "0"]%char;
      [apply perm_swap|]. apply perm_skip. apply perm_swap. }
  destruct (@same_series_for_congruent_seeds (sample_env jan3 0) "2330" "3302"
              (f_equal (fun z => (z mod 200)%Z) (charCodeSum_anagram _ _ P)))
    as (sa & sb & Ha & Hb & Hh & _).
  exists sa, sb. split; [exact Ha|]. split; [exact Hb|]. exact Hh.
Defined.

(** ** The badge and the cursor together *)

(** X17: for a snapshot whose band is a positive multiple of its two P/E
    bounds, the badge and the cursor do not contradict each other: under
    the status Cheap the cursor stands at 51 or left of it, under
    Expensive at 49 or right of it, and under Fair between 24 and 67. *)
Theorem badge_agrees_with_cursor (s : StockData) (p d m M : Q) :
  let v := valuation s in
  currentPrice s = JS.Fin p -> eps v = JS.Fin (Qred (p / d)) ->
  minPE v = JS.Fin m -> maxPE v = JS.Fin M ->
  cheapPrice v = eps v * minPE v -> expensivePrice v = eps v * maxPE v ->
  fairPrice v = (cheapPrice v + expensivePrice v) / int 2 ->
  (0 < p)%Q -> (0 < d)%Q -> (0 < m)%Q -> (m <= M)%Q ->
  match valuationStatus (Some s) with
  | Cheap => le_true (cursorPosition (Some s)) (int 51)
  | Expensive => le_true (int 49) (cursorPosition (Some s))
  | Fair => le_true (int 24) (cursorPosition (Some s))
            /\ le_true (cursorPosition (Some s)) (int 67)
  | NoData => False
  end.
Proof.
  intros v Hp HE Hm HM Hc He Hf Pp Pd Pm LM.
  assert (Nd : ~ (d == 0)%Q) by lra.
  rewrite (@status_by_reference s p d m M Hp HE Hm HM Hc He Hf Pp Nd Pm LM).
  rewrite (@cursor_by_reference s p d m M Hp HE Hm HM Hc He Pp Nd Pm LM).
  assert (B : Qle_bool 0 d = true) by (apply Qle_bool_iff; lra).
  rewrite B.
  assert (R : (0 < (12 # 10) * M - (8 # 10) * m)%Q) by lra.
  assert (X : ((d - (8 # 10) * m) / ((12 # 10) * M - (8 # 10) * m) * 100
               == (d - (8 # 10) * m) * 100 / ((12 # 10) * M - (8 # 10) * m))%Q)
    by (field; lra).
  destruct (Qle_bool d ((7 # 10) * m + (3 # 10) * M)) eqn:B1.
  - apply Qle_bool_iff in B1.
    apply (clamp_at_most (c := 51)); try discriminate.
    rewrite Qred_correct, X. apply Qle_shift_div_r; lra.
  - assert (L1 : ((7 # 10) * m + (3 # 10) * M < d)%Q).
    { apply Qnot_le_lt. intro C. apply Qle_bool_iff in C. congruence. }
    destruct (Qle_bool ((2 # 10) * m + (8 # 10) * M) d) eqn:B2.
    + apply Qle_bool_iff in B2.
      apply (clamp_at_least (c := 49)); try discriminate.
      rewrite Qred_correct, X. apply Qle_shift_div_l; lra.
    + assert (L2 : (d < (2 # 10) * m + (8 # 10) * M)%Q).
      { apply Qnot_le_lt. intro C. apply Qle_bool_iff in C. congruence. }
      split.
      * apply (clamp_at_least (c := 24)); try discriminate.
        rewrite Qred_correct, X. apply Qle_shift_div_l; lra.
      * apply (clamp_at_most (c := 67)); try discriminate.
        rewrite Qred_correct, X. apply Qle_shift_div_r; lra.
Qed.

Lemma badge_agrees_with_cursor_witness :
  exists s,
    fetchRealStockData "2330" (response sample_prices sample_pers) = Ok s
    /\ valuationStatus (Some s) = Cheap
    /\ le_true (cursorPosition (Some s)) (int 51).
Proof.
  eexists. split; [reflexivity|].
  match goal with |- context [valuationStatus (Some ?x)] => set (s := x) end.
  pose proof (@badge_agrees_with_cursor s 150 15 14 30 eq_refl eq_refl eq_refl
                eq_refl eq_refl eq_refl eq_refl eq_refl eq_refl eq_refl)
    as H.
  assert (L : (14 <= 30)%Q) by discriminate.
  specialize (H L).
  assert (E : valuationStatus (Some s) = Cheap) by reflexivity.
  rewrite E in H. split; [exact E | exact H].
Defined.

(** The cursor of a snapshot with a finite price and band, a non-zero
    cheap price and a positive chart range. *)
Lemma cursor_linear (s : StockData) (p c e : Q) :
  currentPrice s = JS.Fin p ->
  cheapPrice (valuation s) = JS.Fin c ->
  expensivePrice (valuation s) = JS.Fin e ->
  ~ (c == 0)%Q -> ((8 # 10) * c < (12 # 10) * e)%Q ->
  exists x,
    cursorPosition (Some s) = clamp (int 0) (int 100) (JS.Fin x)
    /\ (x == (p - (8 # 10) * c) / ((12 # 10) * e - (8 # 10) * c) * 100)%Q.
Proof.
  intros Hp Hc He Nc Hr.
  assert (T : JS.truthy (JS.Fin c) = true) by (apply truthy_Fin_true; exact Nc).
  unfold cursorPosition. rewrite Hc, T. cbn [negb].
  rewrite min_max_clamp. unfold cursorRaw. rewrite Hp, Hc, He.
  unfold dec, int, JS.of_Z. rewrite !mul_Fin, !sub_Fin.
  assert (R : (Qred (Qred (e * (12 # 10)) - Qred (c * (8 # 10)))
               == (12 # 10) * e - (8 # 10) * c)%Q).
  { rewrite !Qred_correct. ring. }
  rewrite div_Fin by (rewrite R; lra). rewrite mul_Fin.
  eexists. split; [reflexivity|].
  rewrite Qred_correct. change (inject_Z 100) with 100%Q.
  rewrite Qred_correct. rewrite R. rewrite !Qred_correct.
  field. lra.
Qed.

(** X18: with the band held fixed (finite, with a cheap and an expensive
    price other than zero, and 1.2 times the expensive price above 0.8
    times the cheap one, so that the chart has a positive width), a higher
    price never gives a cheaper status or a cursor further to the left,
    and the status is never the one without data. *)
Theorem dearer_is_never_cheaper (s1 s2 : StockData) (p1 p2 c f e : Q) :
  valuation s1 = valuation s2 ->
  currentPrice s1 = JS.Fin p1 -> currentPrice s2 = JS.Fin p2 ->
  cheapPrice (valuation s1) = JS.Fin c ->
  fairPrice (valuation s1) = JS.Fin f ->
  expensivePrice (valuation s1) = JS.Fin e ->
  ~ (c == 0)%Q -> ~ (e == 0)%Q -> ((8 # 10) * c < (12 # 10) * e)%Q ->
  (p1 <= p2)%Q ->
  (valuationStatus (Some s2) = Cheap -> valuationStatus (Some s1) = Cheap)
  /\ (valuationStatus (Some s1) = Expensive ->
      valuationStatus (Some s2) = Expensive)
  /\ valuationStatus (Some s1) <> NoData
  /\ valuationStatus (Some s2) <> NoData
  /\ le_true (cursorPosition (Some s1)) (cursorPosition (Some s2)).
Proof.
  intros Hv Hp1 Hp2 Hc Hf He Nc Ne Hr Hle.
  assert (Tc : JS.truthy (JS.Fin c) = true) by (apply truthy_Fin_true; exact Nc).
  assert (Te : JS.truthy (JS.Fin e) = true) by (apply truthy_Fin_true; exact Ne).
  assert (Cur : le_true (cursorPosition (Some s1)) (cursorPosition (Some s2))).
  { destruct (cursor_linear s1 Hp1 Hc He Nc Hr) as (x1 & E1 & X1).
    pose proof Hc as Hc2. pose proof He as He2. rewrite Hv in Hc2, He2.
    destruct (cursor_linear s2 Hp2 Hc2 He2 Nc Hr) as (x2 & E2 & X2).
    rewrite E1, E2. apply clamp_monotone. rewrite X1, X2.
    apply Qmult_le_compat_r; [|discriminate].
    apply Qmult_le_compat_r; [lra|].
    apply Qlt_le_weak. apply Qinv_lt_0_compat. lra. }
  unfold valuationStatus, lowerThreshold, upperThreshold.
  rewrite <- Hv, Hp1, Hp2, Hc, Hf, He, Tc, Te. cbn [negb orb].
  unfold dec. rewrite !mul_Fin, !add_Fin. unfold JS.ge.
  set (L := Qred (Qred (c * (4 # 10)) + Qred (f * (6 # 10)))).
  set (U := Qred (Qred (f * (4 # 10)) + Qred (e * (6 # 10)))).
  clearbody L U.
  destruct (JS.Fin p1 <=? JS.Fin L) eqn:A1;
    [apply le_Fin in A1 | apply le_Fin_not in A1];
    (destruct (JS.Fin p2 <=? JS.Fin L) eqn:A2;
     [apply le_Fin in A2 | apply le_Fin_not in A2]);
    (destruct (JS.Fin U <=? JS.Fin p1) eqn:A3;
     [apply le_Fin in A3 | apply le_Fin_not in A3]);
    (destruct (JS.Fin U <=? JS.Fin p2) eqn:A4;
     [apply le_Fin in A4 | apply le_Fin_not in A4]);
    try (exfalso; lra);
    (split; [intro C; try reflexivity; discriminate C|]);
    (split; [intro C; try reflexivity; discriminate C|]);
    (split; [intro C; discriminate C|]);
    (split; [intro C; discriminate C | exact Cur]).
Qed.

Lemma dearer_is_never_cheaper_witness :
  valuationStatus (Some (snapshot (int 92) example_band)) = Cheap
  /\ le_true (cursorPosition (Some (snapshot (int 80) example_band)))
             (cursorPosition (Some (snapshot (int 92) example_band))).
Proof.
  assert (N8 : ~ (80 == 0)%Q) by discriminate.
  assert (N12 : ~ (120 == 0)%Q) by discriminate.
  assert (R : ((8 # 10) * 80 < (12 # 10) * 120)%Q) by reflexivity.
  assert (L : (80 <= 92)%Q) by discriminate.
  destruct (@dearer_is_never_cheaper (snapshot (int 80) example_band)
              (snapshot (int 92) example_band) 80 92 80 100 120
              eq_refl eq_refl eq_refl eq_refl eq_refl eq_refl N8 N12 R L)
    as (_ & _ & _ & _ & H).
  split; [reflexivity | exact H].
Defined.

(** X19: in a band that is a positive multiple of two P/E bounds
    [0 < minPE < maxPE], the high bound at least a thousandth above the
    low one, the prices and the two thresholds of the status are in strict
    order: 0 < cheap < lower threshold < fair < upper threshold <
    expensive. *)
Theorem thresholds_within_band (v : Valuation) (E m M : Q) :
  eps v = JS.Fin E -> minPE v = JS.Fin m -> maxPE v = JS.Fin M ->
  cheapPrice v = eps v * minPE v -> expensivePrice v = eps v * maxPE v ->
  fairPrice v = (cheapPrice v + expensivePrice v) / int 2 ->
  (0 < E)%Q -> (0 < m)%Q -> ((1001 # 1000) * m <= M)%Q ->
  above 0 (cheapPrice v)
  /\ (cheapPrice v <? lowerThreshold v) = true
  /\ (lowerThreshold v <? fairPrice v) = true
  /\ (fairPrice v <? upperThreshold v) = true
  /\ (upperThreshold v <? expensivePrice v) = true.
Proof.
  intros HE Hm HM Hc He Hf PE Pm LM.
  destruct (band_prices_rational v HE Hm HM Hc He Hf)
    as (c & f & e & Ec & Ef & Ee & Qc & Qe & Qf).
  unfold lowerThreshold, upperThreshold. rewrite Ec, Ef, Ee.
  unfold dec. rewrite !mul_Fin, !add_Fin.
  pose proof (lower_threshold_scaled Qc Qf) as HL.
  pose proof (upper_threshold_scaled Qe Qf) as HU.
  set (L := Qred (Qred (c * (4 # 10)) + Qred (f * (6 # 10)))) in *.
  set (U := Qred (Qred (f * (4 # 10)) + Qred (e * (6 # 10)))) in *.
  clearbody L U.
  assert (Pc : (0 < E * m)%Q) by (apply Qmult_lt_0_compat; assumption).
  assert (Le : (E * ((1001 # 1000) * m) <= E * M)%Q)
    by (apply scale_le; assumption).
  assert (XG : (E * ((1001 # 1000) * m) == (1001 # 1000) * (E * m))%Q) by ring.
  assert (XL : (E * ((7 # 10) * m + (3 # 10) * M)
                == (7 # 10) * (E * m) + (3 # 10) * (E * M))%Q) by ring.
  assert (XU : (E * ((2 # 10) * m + (8 # 10) * M)
                == (2 # 10) * (E * m) + (8 # 10) * (E * M))%Q) by ring.
  assert (XF : ((E * m + E * M) / 2 == (1 # 2) * (E * m) + (1 # 2) * (E * M))%Q)
    by field.
  rewrite XG in Le. rewrite XL in HL. rewrite XU in HU. rewrite XF in Qf.
  set (a := (E * m)%Q) in *. set (b := (E * M)%Q) in *. clearbody a b.
  split; [cbn [above]; lra|].
  split; [apply lt_Fin; lra|]. split; [apply lt_Fin; lra|].
  split; apply lt_Fin; lra.
Qed.

Lemma thresholds_within_band_witness :
  (lowerThreshold example_band <? fairPrice example_band) = true
  /\ (fairPrice example_band <? upperThreshold example_band) = true.
Proof.
  assert (L : ((1001 # 1000) * 8 <= 12)%Q) by discriminate.
  destruct (@thresholds_within_band example_band 10 8 12
              eq_refl eq_refl eq_refl eq_refl eq_refl eq_refl
              eq_refl eq_refl L) as (_ & _ & H1 & H2 & _).
  split; assumption.
Defined.

(** ** Synthetic snapshots in the moving-average panel; live snapshots
       without a status *)

Lemma sum_at_least (lo : Q) (l : list HistoryItem) :
  Forall (fun h => at_least lo (close h)) l ->
  forall a : Q,
  exists t : Q,
    fold_left (fun acc curr => acc + close curr) l (JS.Fin a) = JS.Fin t
    /\ (a + inject_Z (Z.of_nat (List.length l)) * lo <= t)%Q.
Proof.
  induction 1 as [|h l Hh _ IH]; intro a.
  - exists a. cbn [fold_left List.length Z.of_nat]. split; [reflexivity|].
    change (inject_Z 0) with 0%Q. lra.
  - cbn [fold_left]. unfold at_least in Hh.
    destruct (close h) as [q| | |]; try contradiction.
    cbn [JS.add].
    destruct (IH (Qred (a + q))) as (t & Et & Lo).
    exists t. split; [exact Et|].
    rewrite Qred_correct in Lo.
    cbn [List.length]. rewrite Nat2Z.inj_succ, <- Z.add_1_r, inject_Z_plus.
    change (inject_Z 1) with 1%Q. lra.
Qed.

Lemma calculateMA_at_least (data : list HistoryItem) (days : nat) (lo : Q) :
  (0 < days)%nat -> (days <= List.length data)%nat ->
  Forall (fun h => at_least lo (close h)) data ->
  at_least lo (calculateMA data days).
Proof.
  intros Hd Hl Hf. unfold calculateMA.
  assert (E : (List.length data <? days)%nat = false)
    by (apply Nat.ltb_ge; exact Hl).
  rewrite E.
  assert (Hf' : Forall (fun h => at_least lo (close h)) (firstn days data)).
  { rewrite <- (firstn_skipn days data) in Hf.
    apply Forall_app in Hf. exact (proj1 Hf). }
  destruct (@sum_at_least lo _ Hf' 0) as (t & Et & Lo).
  unfold int, JS.of_Z. change (inject_Z 0) with 0%Q. rewrite Et.
  rewrite length_firstn, Nat.min_l in Lo by exact Hl.
  pose proof (of_nat_pos Hd) as Hn.
  unfold JS.of_nat, JS.of_Z. rewrite div_Fin by lra.
  unfold at_least. rewrite Qred_correct.
  apply Qle_shift_div_l; [exact Hn | lra].
Qed.

(** X20: a synthetic snapshot has 1095 records with closes of at least 10,
    so each of its six moving averages is at least 10 and none of the six
    cards of the panel is the placeholder card. *)
Theorem mock_averages (env : Env) (symbol : string) :
  random_in_range env ->
  exists s m,
    getMockData env symbol = Ok s /\ maData (Some s) = Some m
    /\ List.length (historyData s) = 1095%nat
    /\ Forall (at_least 10) [ma5 m; ma10 m; ma20 m; ma60 m; ma120 m; ma240 m]
    /\ map is_blank (maCards s (Some m))
       = [false; false; false; false; false; false].
Proof.
  intro Hr.
  destruct (getMockData_ok symbol Hr) as (s & _ & _ & Hs & _ & Hh & _).
  exists s. eexists. split; [exact Hs|]. split; [reflexivity|]. clear Hs.
  pose proof (generatePrices_length env (seed_of symbol) mockDays) as Hlen.
  pose proof (generatePrices_ok (seed_of symbol) mockDays Hr) as Hok.
  rewrite <- Hh in Hlen, Hok. clear Hh.
  change mockDays with 1095%nat in Hlen.
  assert (H10 : Forall (fun h => at_least 10 (close h)) (historyData s)).
  { revert Hok. apply Forall_impl. intros h [H _]. exact H. }
  assert (H0 : Forall (fun h => above 0 (close h)) (historyData s)).
  { revert H10. apply Forall_impl. intros h H. unfold at_least in H.
    unfold above. destruct (close h); try contradiction. lra. }
  split; [exact Hlen|]. split.
  - cbn [ma5 ma10 ma20 ma60 ma120 ma240].
    repeat (constructor;
            [apply calculateMA_at_least; [lia | rewrite Hlen; lia | exact H10]|]).
    constructor.
  - unfold maCards. cbn [map ma5 ma10 ma20 ma60 ma120 ma240].
    rewrite !MACard_of_window by (lia || exact H0).
    rewrite Hlen. reflexivity.
Qed.

Lemma mock_averages_witness :
  exists s m,
    getMockData (sample_env jan3 0) "2330" = Ok s
    /\ maData (Some s) = Some m /\ at_least 10 (ma240 m).
Proof.
  assert (R : random_in_range (sample_env jan3 0)).
  { intro k. cbn. split; lra. }
  destruct (@mock_averages (sample_env jan3 0) "2330" R)
    as (s & m & Hs & Hm & _ & Hf & _).
  exists s, m. split; [exact Hs|]. split; [exact Hm|].
  exact (Forall_inv (Forall_inv_tail (Forall_inv_tail (Forall_inv_tail
          (Forall_inv_tail (Forall_inv_tail Hf)))))).
Defined.

(** X21: for a returned snapshot with a finite price and a finite latest
    P/E, the status is the one without data, and the valuation panel shows
    the not-enough-data message with the cursor left at 50, exactly when
    the latest close is zero; no P/E history, however short or implausible,
    leads there. *)
Theorem live_nodata_iff_zero_price (symbol : string) (res : ApiResponse)
  (s : StockData) (pers : list PERRow) (p : Q) :
  fetchRealStockData symbol res = Ok s -> perJson_data res = Some pers ->
  currentPrice s = JS.Fin p ->
  (forall l, currentPE s = Some l -> finite l) ->
  (valuationStatus (Some s) = NoData <-> (p == 0)%Q)
  /\ (chartOf s = None <-> (p == 0)%Q)
  /\ ((p == 0)%Q -> cursorPosition (Some s) = int 50).
Proof.
  intros Hs Hr Hp Hfin.
  destruct (@live_reference symbol res s pers p Hs Hr Hp Hfin)
    as (d & m & M & Nd & Pm & LM & HE & Hm & HM & Hc & He & Hf & _).
  destruct (live_chart _ _ Hs) as [Tc Te].
  assert (I : chartOf s = None <-> valuationStatus (Some s) = NoData)
    by (apply chart_status; rewrite Tc, Te; reflexivity).
  assert (Z : JS.truthy (eps (valuation s)) = false <-> (p == 0)%Q).
  { rewrite HE. rewrite truthy_Fin, Qred_correct. split.
    - intro H. setoid_replace p with (p / d * d)%Q by (field; exact Nd).
      rewrite H. ring.
    - intro H. rewrite H. field. exact Nd. }
  assert (C : chartOf s = None <-> (p == 0)%Q).
  { rewrite <- Z, <- Tc. unfold chartOf.
    destruct (JS.truthy (cheapPrice (valuation s))); split; intro H;
      try reflexivity; discriminate H. }
  split; [rewrite <- I; exact C|]. split; [exact C|].
  intro H. apply (proj2 Z) in H. rewrite <- Tc in H.
  unfold cursorPosition. rewrite H. reflexivity.
Qed.

Lemma live_nodata_iff_zero_price_witness :
  exists s,
    fetchRealStockData "2330" (response sample_prices_zero sample_pers) = Ok s
    /\ valuationStatus (Some s) = NoData
    /\ cursorPosition (Some s) = int 50.
Proof.
  eexists. split; [reflexivity|].
  match goal with |- context [valuationStatus (Some ?x)] => set (s := x) end.
  assert (F : forall l, currentPE s = Some l -> finite l).
  { intros l H. injection H as <-. exact I. }
  destruct (@live_nodata_iff_zero_price "2330"
              (response sample_prices_zero sample_pers) s sample_pers 0
              eq_refl eq_refl eq_refl F) as (H1 & _ & H3).
  split; [exact (proj2 H1 (Qeq_refl 0)) | exact (H3 (Qeq_refl 0))].
Defined.
